(** * NcatBot [BasePlugin]: a shallow embedding of
      [ncatbot/plugin/base_plugin.py] and the properties of its life cycle.

    The plugin object, the file system it touches and the collaborators it
    calls (event bus, scheduler, persistent store, user hooks) are threaded
    through an exception/state monad.  Calls the core makes to a
    collaborator are recorded in a call log, so that ordering and counting
    properties can be stated. *)

From stdpp Require Import gmap strings list fin_maps pretty.
From Stdlib Require Import ZArith Lia Ascii.

Local Open Scope string_scope.
Local Open Scope list_scope.

(** ** Python values that can be stored in attributes or passed as arguments *)

Inductive value :=
| VNone
| VBool (b : bool)
| VInt (z : Z)
| VStr (s : string)
| VDict (d : list (string * string)).

(** Python truthiness ([not v] is [negb (truthy v)]). *)
Definition truthy (v : value) : bool :=
  match v with
  | VNone => false
  | VBool b => b
  | VInt z => negb (z =? 0)%Z
  | VStr s => negb (String.eqb s EmptyString)
  | VDict d => match d with [] => false | _ => true end
  end.

Fixpoint join (sep : string) (l : list string) : string :=
  match l with
  | [] => EmptyString
  | [x] => x
  | x :: rest => x +:+ sep +:+ join sep rest
  end.

(** [str(v)], as an f-string formats it.  The quoting of dictionary keys and
    values follows [repr] for strings without quote characters. *)
Definition py_str (v : value) : string :=
  match v with
  | VNone => "None"
  | VBool true => "True"
  | VBool false => "False"
  | VInt z => pretty z
  | VStr s => s
  | VDict d =>
      "{" +:+ join ", " (map (fun kv => "'" +:+ fst kv +:+ "': '" +:+ snd kv +:+ "'") d) +:+ "}"
  end.

(** ** Exceptions *)

Inductive exn :=
| ValueError (msg : string)
| AttributeError (attr : string)
| TypeError (msg : string)
| PluginLoadError (name : value) (msg : string)
| RuntimeError (args : list value)
| FileTypeUnknownError (msg : string)
| LoadError (msg : string)
| SaveError (msg : string)
| FileNotFoundError (msg : string)
| FileExistsError (msg : string)
| NotADirectoryError (msg : string)
| IsADirectoryError (msg : string)
| OtherException (cls msg : string).

(** The failures [__unload__] expects of [save], and [__onload__] of [load],
    with the text [str(e)] of the first ones. *)
Definition save_failure_text (e : exn) : option string :=
  match e with
  | FileTypeUnknownError m | SaveError m | FileNotFoundError m => Some m
  | _ => None
  end.

Definition load_failure_known (e : exn) : bool :=
  match e with
  | FileTypeUnknownError _ | LoadError _ | FileNotFoundError _ => true
  | _ => false
  end.

Inductive res (A : Type) :=
| Ok (a : A)
| Raise (e : exn).
Arguments Ok {A} a.
Arguments Raise {A} e.

Definition is_ok {A} (r : res A) : bool :=
  match r with Ok _ => true | Raise _ => false end.

(** ** Paths ([pathlib.Path], already resolved: a list of components from
       the root) *)

Abbreviation Path := (list string).

Definition slash : Ascii.ascii := "/"%char.

Fixpoint components_from (cur : string) (s : string) : list string :=
  match s with
  | EmptyString => [cur]
  | String c s' =>
      if Ascii.eqb c slash then cur :: components_from EmptyString s'
      else components_from (cur +:+ String c EmptyString) s'
  end.

Definition proper_component (c : string) : bool :=
  negb (String.eqb c EmptyString) && negb (String.eqb c ".").

Definition is_absolute (s : string) : bool :=
  match s with String c _ => Ascii.eqb c slash | EmptyString => false end.

(** [p / s] for a string [s]: an absolute [s] replaces [p], empty and [.]
    components are dropped ([..] is kept, as pathlib does). *)
Definition path_join (p : Path) (s : string) : Path :=
  let cs := List.filter proper_component (components_from EmptyString s) in
  if is_absolute s then cs else p ++ cs.

(** [p / q] for a relative path [q]. *)
Definition path_append (p q : Path) : Path := p ++ q.

Definition parent (p : Path) : Path := removelast p.

Definition path_str (p : Path) : string := "/" +:+ join "/" p.

(** [target.relative_to(base)]: [None] stands for the [ValueError] pathlib
    raises when [base] is not a prefix of [target]. *)
Fixpoint relative_to (target base : Path) : option Path :=
  match base, target with
  | [], _ => Some target
  | b :: base', t :: target' =>
      if String.eqb b t then relative_to target' base' else None
  | _ :: _, [] => None
  end.

(** [extract_relative_path]; both arguments are resolved paths. *)
Definition extract_relative_path (base_path target_path : Path) : option Path :=
  match relative_to target_path base_path with
  | Some relative_path => Some relative_path
  | None => None
  end.

(** ** The file system *)

Inductive node :=
| Dir
| File (text : string).

Abbreviation FS := (gmap (list string) node).

Definition lookup_node (fs : FS) (p : Path) : option node :=
  match p with
  | [] => Some Dir
  | _ => fs !! p
  end.

Definition path_exists (fs : FS) (p : Path) : bool :=
  match lookup_node fs p with Some _ => true | None => false end.

Definition is_dir (fs : FS) (p : Path) : bool :=
  match lookup_node fs p with Some Dir => true | _ => false end.

(** Creation of the missing ancestors [pre/c1], [pre/c1/c2], ... *)
Fixpoint mkdir_ancestors (fs : FS) (pre rest : Path) : exn + FS :=
  match rest with
  | [] => inr fs
  | c :: rest' =>
      let q := pre ++ [c] in
      match fs !! q with
      | Some Dir => mkdir_ancestors fs q rest'
      | Some (File _) => inl (NotADirectoryError (path_str q))
      | None => mkdir_ancestors (<[q := Dir]> fs) q rest'
      end
  end.

(** [p.mkdir(parents=True)]. *)
Definition mkdir_parents (fs : FS) (p : Path) : exn + FS :=
  match lookup_node fs p with
  | Some _ => inl (FileExistsError (path_str p))
  | None =>
      match mkdir_ancestors fs [] (parent p) with
      | inl e => inl e
      | inr fs' => inr (<[p := Dir]> fs')
      end
  end.

(** [open(p, 'w').write(text)]. *)
Definition write_file (fs : FS) (p : Path) (text : string) : exn + FS :=
  match lookup_node fs (parent p) with
  | None => inl (FileNotFoundError (path_str p))
  | Some (File _) => inl (NotADirectoryError (path_str p))
  | Some Dir =>
      match lookup_node fs p with
      | Some Dir => inl (IsADirectoryError (path_str p))
      | _ => inr (<[p := File text]> fs)
      end
  end.

(** ** The exception/state monad *)

Definition M (St A : Type) : Type := St -> res A * St.

Definition ret {St A} (a : A) : M St A := fun s => (Ok a, s).

Definition bind {St A B} (m : M St A) (k : A -> M St B) : M St B :=
  fun s =>
    match m s with
    | (Ok a, s') => k a s'
    | (Raise e, s') => (Raise e, s')
    end.

Definition raise {St A} (e : exn) : M St A := fun s => (Raise e, s).

Definition gets {St A} (f : St -> A) : M St A := fun s => (Ok (f s), s).

Definition modify {St} (f : St -> St) : M St unit := fun s => (Ok tt, f s).

(** [try: body / except <handled classes> as e: handler e]; [handler]
    returns [None] for an exception class the clause does not list. *)
Definition try_except {St A} (body : M St A) (handler : exn -> option (M St A))
  : M St A :=
  fun s =>
    match body s with
    | (Ok a, s') => (Ok a, s')
    | (Raise e, s') =>
        match handler e with
        | Some h => h s'
        | None => (Raise e, s')
        end
    end.

Notation "x <- m ;; k" := (bind m (fun x => k))
  (at level 100, m at next level, right associativity).
Notation "m ;;; k" := (bind m (fun _ => k))
  (at level 100, right associativity).

(** ** Collaborators of the plugin core *)

Abbreviation UUID := N.

(** A Python callable passed by reference (an event handler, a job
    function, a condition, an argument provider). *)
Inductive callable := Callable (id : N).

Abbreviation Args := (list value).
Abbreviation Kwargs := (list (string * value)).

(** Modelled from the spec: the event bus, [ncatbot.plugin.event.EventBus],
    whose code is not part of the sources at hand.  The interface is the one
    [base_plugin.py] calls: [subscribe(eventType, handler, priority) -> token],
    [unsubscribe(token) -> void], [publish_sync], [publish_async].
    [subscribed] observes whether the bus still holds the lookup entry of
    a token. *)
Class EventBus (Bus Event Any : Type) := {
  subscribe : string -> callable -> Z -> Bus -> UUID * Bus;
  unsubscribe : UUID -> Bus -> Bus;
  bus_publish_sync : Event -> Bus -> list Any * Bus;
  bus_publish_async : Event -> Bus -> list Any * Bus;
  subscribed : Bus -> UUID -> bool
}.

(** Modelled from the spec: what [unsubscribe] does to the lookup entries of
    the bus.  The entry of the token is removed and no other entry appears. *)
Class EventBusContract `(EB : EventBus Bus Event Any) : Prop := {
  unsubscribe_revokes : forall (b : Bus) (t : UUID),
    subscribed (unsubscribe t b) t = false;
  unsubscribe_frame : forall (b : Bus) (t t' : UUID),
    subscribed (unsubscribe t b) t' = true -> subscribed b t' = true
}.

(** The keyword arguments [add_scheduled_task] forwards to the scheduler. *)
Record job_info := {
  job_name : string;
  job_func : callable;
  job_interval : value;
  job_max_runs : option Z;
  job_run_count : Z;
  job_conditions : list callable;
  job_args : option Args;
  job_kwargs : Kwargs;
  job_args_provider : option callable;
  job_kwargs_provider : option callable
}.

(** Modelled from the spec: the scheduler,
    [ncatbot.utils.time_task_scheduler.TimeTaskScheduler]. *)
Class TimeTaskScheduler (Sched : Type) := {
  add_job : job_info -> Sched -> bool * Sched;
  remove_job : string -> Sched -> bool * Sched
}.

(** Modelled from the spec: the persistent store,
    [ncatbot.utils.io.UniversalLoader]: a container bound to a file, whose
    in-memory content is its [data] attribute. *)
Record UniversalLoader (Content : Type) := {
  file_path : option Path;
  loader_data : Content
}.
Arguments file_path {Content} _.
Arguments loader_data {Content} _.

(** Modelled from the spec: the operations of the store, [load() -> void] and
    [save() -> void], whose code is not part of the sources at hand.  [load]
    reads the content from the file system or fails; [save] writes it or
    fails (the file system it leaves behind is returned in both cases).
    [new_content] is the content of a store that was just constructed, and
    [visualize_tree] is [ncatbot.utils.visualize_data.visualize_tree]. *)
Class PersistentStore (Content : Type) := {
  new_content : Content;
  load : UniversalLoader Content -> FS -> exn + Content;
  save : UniversalLoader Content -> FS -> res unit * FS;
  visualize_tree : Content -> list string
}.

(** Modelled from the spec: [save() -> void (fails with format-unknown or
    save error)]; the code of the store is not part of the sources at hand.
    A missing file, which [__unload__] also expects of [save], is counted
    among its failures. *)
Class PersistentStoreContract `(PS : PersistentStore Content) : Prop := {
  save_failure_known : forall (l : UniversalLoader Content) (f f' : FS) (e : exn),
    save l f = (Raise e, f') -> is_Some (save_failure_text e)
}.

(** [ncatbot.utils.literals] (resolved) and the resolved current directory,
    and the escape sequences of [ncatbot.utils.Color]. *)
Class Literals := {
  PLUGINS_DIR : Path;
  PERSISTENT_DIR : Path;
  cwd : Path;
  Color_YELLOW : string;
  Color_RED : string;
  Color_RESET : string;
  Color_GRAY : string
}.

(** ** The plugin object and the world around it *)

Inductive data_slot (Content : Type) :=
| Store (l : UniversalLoader Content)
| RawDict (d : Content).
Arguments Store {Content} l.
Arguments RawDict {Content} d.

(** The instance.  [attrs] holds the attributes read by name ([name],
    [version], [dependencies], [save_type] and whatever the constructor's
    extra keyword arguments set); the other fields are the attributes the
    constructor assigns after the keyword arguments were applied.  The lock
    and the references to the bus and to the scheduler carry no data of
    their own: the bus and the scheduler live in [Env]. *)
Record BasePlugin (Content : Type) := {
  attrs : gmap string value;
  this_file_path : Path;
  self_path : Path;
  _debug : bool;
  _event_handlers : list UUID;
  _work_path : Path;
  _data_path : Path;
  first_load : bool;
  data : data_slot Content;
  work_space : Path
}.
Arguments attrs {Content} _.
Arguments this_file_path {Content} _.
Arguments self_path {Content} _.
Arguments _debug {Content} _.
Arguments _event_handlers {Content} _.
Arguments _work_path {Content} _.
Arguments _data_path {Content} _.
Arguments first_load {Content} _.
Arguments data {Content} _.
Arguments work_space {Content} _.

(** What a running plugin can reach: itself, the file system, the shared bus
    and the shared scheduler. *)
Record Env (Bus Sched Content : Type) := {
  self : BasePlugin Content;
  fs : FS;
  event_bus : Bus;
  time_task_scheduler : Sched
}.
Arguments self {Bus Sched Content} _.
Arguments fs {Bus Sched Content} _.
Arguments event_bus {Bus Sched Content} _.
Arguments time_task_scheduler {Bus Sched Content} _.

(** Calls of the core to its collaborators, in the order they are made. *)
Inductive call (Event Content : Type) :=
| BusSubscribe (event_type : string) (handler : callable) (priority : Z) (handler_id : UUID)
| BusUnsubscribe (handler_id : UUID)
| BusPublishSync (event : Event)
| BusPublishAsync (event : Event)
| SchedAddJob (job : job_info)
| SchedRemoveJob (name : string)
| HookInit
| HookOnLoad
| HookClose (arg : Args) (kwd : Kwargs)
| HookOnClose (arg : Args) (kwd : Kwargs)
| StoreLoad (path : option Path)
| StoreSave (path : option Path) (content : Content)
| FileWrite (path : Path) (text : string)
| LogWarning (msg : string)
| ConsolePrint (text : string).
Arguments BusSubscribe {Event Content}.
Arguments BusUnsubscribe {Event Content}.
Arguments BusPublishSync {Event Content}.
Arguments BusPublishAsync {Event Content}.
Arguments SchedAddJob {Event Content}.
Arguments SchedRemoveJob {Event Content}.
Arguments HookInit {Event Content}.
Arguments HookOnLoad {Event Content}.
Arguments HookClose {Event Content}.
Arguments HookOnClose {Event Content}.
Arguments StoreLoad {Event Content}.
Arguments StoreSave {Event Content}.
Arguments FileWrite {Event Content}.
Arguments LogWarning {Event Content}.
Arguments ConsolePrint {Event Content}.

Record St (Bus Sched Event Content : Type) := {
  env : Env Bus Sched Content;
  calls : list (call Event Content)
}.
Arguments env {Bus Sched Event Content} _.
Arguments calls {Bus Sched Event Content} _.

(** A plugin class: what a subclass of [BasePlugin] declares.  [cls_attrs]
    are its class attributes, [cls_file] the resolved file of its module,
    and the four hooks are the overridable methods; a hook is any piece of
    code acting on [Env] that returns or raises. *)
Record PluginClass (Bus Sched Content : Type) := {
  cls_attrs : gmap string value;
  cls_file : Path;
  _init_ : Env Bus Sched Content -> res unit * Env Bus Sched Content;
  on_load : Env Bus Sched Content -> res unit * Env Bus Sched Content;
  _close_ : Args -> Kwargs -> Env Bus Sched Content -> res unit * Env Bus Sched Content;
  on_close : Args -> Kwargs -> Env Bus Sched Content -> res unit * Env Bus Sched Content
}.
Arguments cls_attrs {Bus Sched Content} _.
Arguments cls_file {Bus Sched Content} _.
Arguments _init_ {Bus Sched Content} _.
Arguments on_load {Bus Sched Content} _.
Arguments _close_ {Bus Sched Content} _.
Arguments on_close {Bus Sched Content} _.

(** The hooks as [BasePlugin] itself defines them: [pass]. *)
Definition pass {Bus Sched Content} (e : Env Bus Sched Content)
  : res unit * Env Bus Sched Content := (Ok tt, e).

(** ** The methods of [BasePlugin] *)

Section BasePlugin.
Context {Bus Sched Event Any Content : Type}.
Context {EB : EventBus Bus Event Any}.
Context {TS : TimeTaskScheduler Sched}.
Context {PS : PersistentStore Content}.
Context {L : Literals}.

Abbreviation Plugin := (BasePlugin Content).
Abbreviation World := (Env Bus Sched Content).
Abbreviation State := (St Bus Sched Event Content).
Abbreviation PClass := (PluginClass Bus Sched Content).

(** *** Attribute access and assignment *)

Definition getattr (a : gmap string value) (k : string) : res value :=
  match a !! k with
  | Some v => Ok v
  | None => Raise (AttributeError k)
  end.

Definition set_event_handlers (l : list UUID) (p : Plugin) : Plugin :=
  {| attrs := attrs p; this_file_path := this_file_path p; self_path := self_path p;
     _debug := _debug p; _event_handlers := l;
     _work_path := _work_path p; _data_path := _data_path p;
     first_load := first_load p; data := data p; work_space := work_space p |}.

Definition set_data (d : data_slot Content) (p : Plugin) : Plugin :=
  {| attrs := attrs p; this_file_path := this_file_path p; self_path := self_path p;
     _debug := _debug p; _event_handlers := _event_handlers p;
     _work_path := _work_path p; _data_path := _data_path p;
     first_load := first_load p; data := d; work_space := work_space p |}.

Definition with_self (f : Plugin -> Plugin) (w : World) : World :=
  {| self := f (self w); fs := fs w; event_bus := event_bus w;
     time_task_scheduler := time_task_scheduler w |}.

Definition with_fs (f : FS) (w : World) : World :=
  {| self := self w; fs := f; event_bus := event_bus w;
     time_task_scheduler := time_task_scheduler w |}.

Definition with_bus (b : Bus) (w : World) : World :=
  {| self := self w; fs := fs w; event_bus := b;
     time_task_scheduler := time_task_scheduler w |}.

Definition with_sched (s : Sched) (w : World) : World :=
  {| self := self w; fs := fs w; event_bus := event_bus w;
     time_task_scheduler := s |}.

Definition on_env (f : World -> World) (s : State) : State :=
  {| env := f (env s); calls := calls s |}.

(** Record a call made to a collaborator. *)
Definition log (c : call Event Content) : M State unit :=
  modify (fun s => {| env := env s; calls := calls s ++ [c] |}).

Definition lift_res {S A} (r : res A) : M S A := fun s => (r, s).

(** [self.<k>] for an attribute read by name. *)
Definition self_attr (k : string) : M State value :=
  a <- gets (fun s => attrs (self (env s))) ;;
  lift_res (getattr a k).

(** Run a user hook: the call is recorded, the hook acts on the world and
    its exception, if any, propagates. *)
Definition run_hook (c : call Event Content)
    (h : World -> res unit * World) : M State unit :=
  log c ;;;
  fun s => let '(r, w) := h (env s) in (r, {| env := w; calls := calls s |}).

Fixpoint for_each {S A} (l : list A) (body : A -> M S unit) : M S unit :=
  match l with
  | [] => ret tt
  | x :: rest => body x ;;; for_each rest body
  end.

(** *** [__init__]

    Construction acts on the file system only; the event bus is merely
    stored in the instance. *)

(** The class attributes [BasePlugin] itself gives a value to and that are
    read by name.  Its other two, [first_load = 'True'] and [_debug = False],
    are shadowed by the instance attributes [__init__] assigns. *)
Definition BasePlugin_attrs : gmap string value :=
  {[ "save_type" := VStr "json" ]}.

Definition setattrs (a : gmap string value) (kwd : Kwargs) : gmap string value :=
  foldl (fun acc kv => <[fst kv := snd kv]> acc) a kwd.

Definition get_fs : M FS FS := gets (fun f => f).

Definition __init__ (cls : PClass) (debug : bool) (kwd : Kwargs)
  : M FS Plugin :=
  let a0 := cls_attrs cls ∪ BasePlugin_attrs in
  (* 插件信息检查 *)
  name <- lift_res (getattr a0 "name") ;;
  if negb (truthy name) then raise (ValueError "缺失插件名称") else
  version <- lift_res (getattr a0 "version") ;;
  if negb (truthy version) then raise (ValueError "缺失插件版本号") else
  (* 添加额外属性 *)
  let a1 := setattrs a0 kwd in
  save_type <- lift_res (getattr a1 "save_type") ;;
  let a2 := if negb (truthy save_type) then <["save_type" := VStr "json"]> a1 else a1 in
  dependencies <- lift_res (getattr a2 "dependencies") ;;
  let a3 := if negb (truthy dependencies) then <["dependencies" := VDict []]> a2 else a2 in
  (* 固定属性 *)
  let this_file := cls_file cls in
  match extract_relative_path PLUGINS_DIR (parent this_file) with
  | None => raise (TypeError "unsupported operand type(s) for /: 'PosixPath' and 'NoneType'")
  | Some rel =>
  let self_p := path_append PLUGINS_DIR rel in
  (* 隐藏属性 *)
  match extract_relative_path cwd self_p with
  | None => raise (TypeError "unsupported operand type(s) for /: 'PosixPath' and 'NoneType'")
  | Some rel' =>
  let work_path := path_append PERSISTENT_DIR rel' in
  name' <- lift_res (getattr a3 "name") ;;
  save_type' <- lift_res (getattr a3 "save_type") ;;
  let data_path := path_join work_path (py_str name' +:+ "." +:+ py_str save_type') in
  (* 检查是否为第一次启动 *)
  f <- get_fs ;;
  fl <- (if negb (path_exists f work_path) then
           fun f0 => match mkdir_parents f0 work_path with
                     | inl e => (Raise e, f0)
                     | inr f1 => (Ok true, f1)
                     end
         else if negb (path_exists f data_path) then ret true
         else ret false) ;;
  f' <- get_fs ;;
  if negb (is_dir f' work_path) then
    name'' <- lift_res (getattr a3 "name") ;;
    raise (PluginLoadError name'' (path_str work_path +:+ " 不是目录文件夹"))
  else
  ret {| attrs := a3; this_file_path := this_file; self_path := self_p;
         _debug := debug; _event_handlers := [];
         _work_path := work_path; _data_path := data_path;
         first_load := fl;
         data := Store {| file_path := Some data_path; loader_data := new_content |};
         work_space := work_path |}
  end end.

(** The [debug] property. *)
Definition debug : M State bool := gets (fun s => _debug (self (env s))).

(** *** The persistent store as the plugin uses it *)

(** [self.data.load()]. *)
Definition data_load : M State unit :=
  d <- gets (fun s => data (self (env s))) ;;
  match d with
  | RawDict _ => raise (AttributeError "load")
  | Store l =>
      log (StoreLoad (file_path l)) ;;;
      f <- gets (fun s => fs (env s)) ;;
      match load l f with
      | inl e => raise e
      | inr c =>
          modify (on_env (with_self
            (set_data (Store {| file_path := file_path l; loader_data := c |}))))
      end
  end.

(** [self.data.save()]. *)
Definition data_save : M State unit :=
  d <- gets (fun s => data (self (env s))) ;;
  match d with
  | RawDict _ => raise (AttributeError "save")
  | Store l =>
      log (StoreSave (file_path l) (loader_data l)) ;;;
      fun s =>
        let '(r, f) := save l (fs (env s)) in
        (r, on_env (with_fs f) s)
  end.

(** [self.data.data]. *)
Definition data_data : M State Content :=
  d <- gets (fun s => data (self (env s))) ;;
  match d with
  | RawDict _ => raise (AttributeError "data")
  | Store l => ret (loader_data l)
  end.

(** [open(path, 'w').write(text)]. *)
Definition open_write (path : Path) (text : string) : M State unit :=
  log (FileWrite path text) ;;;
  f <- gets (fun s => fs (env s)) ;;
  match write_file f path text with
  | inl e => raise e
  | inr f' => modify (on_env (with_fs f'))
  end.

(** *** Event handlers *)

Definition register_handler (event_type : string) (handler : callable)
    (priority : Z) : M State UUID :=
  b <- gets (fun s => event_bus (env s)) ;;
  let '(handler_id, b') := subscribe event_type handler priority b in
  log (BusSubscribe event_type handler priority handler_id) ;;;
  modify (on_env (with_bus b')) ;;;
  modify (on_env (with_self
    (fun p => set_event_handlers (_event_handlers p ++ [handler_id]) p))) ;;;
  ret handler_id.

Definition unregister_handler (handler_id : UUID) : M State bool :=
  hs <- gets (fun s => _event_handlers (self (env s))) ;;
  if bool_decide (handler_id ∈ hs) then
    modify (on_env (with_self
      (fun p => set_event_handlers (_event_handlers p ++ [handler_id]) p))) ;;;
    ret true
  else ret false.

Definition bus_unsubscribe (handler_id : UUID) : M State unit :=
  log (BusUnsubscribe handler_id) ;;;
  modify (on_env (fun w => with_bus (unsubscribe handler_id (event_bus w)) w)).

Definition unregister_handlers : M State unit :=
  hs <- gets (fun s => _event_handlers (self (env s))) ;;
  for_each hs bus_unsubscribe.

(** *** Publishing and scheduled tasks *)

Definition publish_sync (event : Event) : M State (list Any) :=
  log (BusPublishSync event) ;;;
  fun s =>
    let '(r, b) := bus_publish_sync event (event_bus (env s)) in
    (Ok r, on_env (with_bus b) s).

Definition publish_async (event : Event) : M State (list Any) :=
  log (BusPublishAsync event) ;;;
  fun s =>
    let '(r, b) := bus_publish_async event (event_bus (env s)) in
    (Ok r, on_env (with_bus b) s).

Definition or_default {A} (o : option A) (d : A) : A :=
  match o with Some a => a | None => d end.

Definition add_scheduled_task (job_func : callable) (name : string)
    (interval : value) (conditions : option (list callable))
    (max_runs : option Z) (args : option Args) (kwargs : option Kwargs)
    (args_provider kwargs_provider : option callable) : M State bool :=
  let job_info :=
    {| job_name := name; job_func := job_func; job_interval := interval;
       job_max_runs := max_runs; job_run_count := 0;
       job_conditions := or_default conditions [];
       job_args := args; job_kwargs := or_default kwargs [];
       job_args_provider := args_provider;
       job_kwargs_provider := kwargs_provider |} in
  log (SchedAddJob job_info) ;;;
  fun s =>
    let '(r, sc) := add_job job_info (time_task_scheduler (env s)) in
    (Ok r, on_env (with_sched sc) s).

Definition remove_scheduled_task (task_name : string) : M State bool :=
  log (SchedRemoveJob task_name) ;;;
  fun s =>
    let '(r, sc) := remove_job task_name (time_task_scheduler (env s)) in
    (Ok r, on_env (with_sched sc) s).

(** *** [__unload__] and [__onload__] *)

Section Lifecycle.
Variable cls : PClass.

(** The body of the [try] of [__unload__]. *)
Definition persist : M State unit :=
  dbg <- debug ;;
  if dbg then
    log (LogWarning (Color_YELLOW +:+ "debug模式" +:+ Color_RED +:+ "取消"
                     +:+ Color_RESET +:+ "退出时的保存行为")) ;;;
    name <- self_attr "name" ;;
    content <- data_data ;;
    log (ConsolePrint (Color_GRAY +:+ py_str name +:+ String "010"%char EmptyString
                +:+ join (String "010"%char EmptyString) (visualize_tree content)
                +:+ String "010"%char EmptyString))
  else
    data_save.

(** [except (FileTypeUnknownError, SaveError, FileNotFoundError) as e]. *)
Definition save_failure (e : exn) : option (M State unit) :=
  match e with
  | FileTypeUnknownError m | SaveError m | FileNotFoundError m =>
      Some (name <- self_attr "name" ;;
            raise (RuntimeError [name; VStr ("保存持久化数据时出错: " +:+ m)]))
  | _ => None
  end.

(** [await asyncio.to_thread(self._close_, *arg, **kwd)] resumes only when
    the hook has returned or raised, and so does [await self.on_close(...)]:
    in the sequential behaviour both are plain calls. *)
Definition __unload__ (arg : Args) (kwd : Kwargs) : M State unit :=
  unregister_handlers ;;;
  run_hook (HookClose arg kwd) (_close_ cls arg kwd) ;;;
  run_hook (HookOnClose arg kwd) (on_close cls arg kwd) ;;;
  try_except persist save_failure.

(** The body of the [try] of [__onload__]. *)
Definition load_data : M State unit :=
  d <- gets (fun s => data (self (env s))) ;;
  match d with
  | RawDict m =>
      modify (on_env (with_self
        (set_data (Store {| file_path := None; loader_data := m |}))))
  | Store _ => ret tt
  end ;;;
  data_load.

(** [except (FileTypeUnknownError, LoadError, FileNotFoundError) as e]. *)
Definition load_failure (e : exn) : option (M State unit) :=
  match e with
  | FileTypeUnknownError _ | LoadError _ | FileNotFoundError _ =>
      Some (work_path <- gets (fun s => _work_path (self (env s))) ;;
            name <- self_attr "name" ;;
            open_write (path_join work_path (py_str name +:+ ".json")) "{}" ;;;
            data_load)
  | _ => None
  end.

Definition __onload__ : M State unit :=
  try_except load_data load_failure ;;;
  run_hook HookInit (_init_ cls) ;;;
  run_hook HookOnLoad (on_load cls).

End Lifecycle.

End BasePlugin.

(** ** Auxiliary definitions used to state the properties *)

Section Observations.
Context {Bus Sched Event Any Content : Type}.
Context {EB : EventBus Bus Event Any}.
Context {TS : TimeTaskScheduler Sched}.
Context {PS : PersistentStore Content}.
Context {L : Literals}.

Abbreviation State := (St Bus Sched Event Content).
Abbreviation World := (Env Bus Sched Content).
Abbreviation PClass := (PluginClass Bus Sched Content).

(** The tracked handler list of the instance. *)
Definition handlers (s : State) : list UUID := _event_handlers (self (env s)).

(** The calls a method adds to the log when run from [s]. *)
Definition new_calls {A} (m : M State A) (s : State) : list (call Event Content) :=
  drop (length (calls s)) (calls (snd (m s))).

(** The bus once every token of [hs] was passed to [unsubscribe], in order. *)
Definition revoke_all (hs : list UUID) (b : Bus) : Bus :=
  foldl (fun acc t => unsubscribe t acc) b hs.

(** The state [unregister_handlers] leaves. *)
Definition revoked (s : State) : State :=
  {| env := with_bus (revoke_all (handlers s) (event_bus (env s))) (env s);
     calls := calls s ++ map BusUnsubscribe (handlers s) |}.



Definition is_write (c : call Event Content) : bool :=
  match c with
  | StoreSave _ _ | FileWrite _ _ => true
  | _ => false
  end.


(** Calls of the two registry methods a plugin makes while it runs. *)
Inductive registry_call :=
| DoRegister (event_type : string) (handler : callable) (priority : Z)
| DoUnregister (handler_id : UUID).

(** Run such calls in order; the tokens [register_handler] returned are
    collected. *)
Fixpoint run_registry (ops : list registry_call) (s : State) : list UUID * State :=
  match ops with
  | [] => ([], s)
  | DoRegister et h p :: rest =>
      match register_handler et h p s with
      | (Ok t, s') => let '(ts, s'') := run_registry rest s' in (t :: ts, s'')
      | (Raise _, s') => run_registry rest s'
      end
  | DoUnregister t :: rest => run_registry rest (snd (unregister_handler t s))
  end.

(** A hook that does not subscribe [t] again once it was revoked. *)
Definition keeps_revoked (h : World -> res unit * World) (t : UUID) : Prop :=
  forall w, subscribed (event_bus w) t = false ->
            subscribed (event_bus (snd (h w))) t = false.

(** The calls of the persistence step of [__unload__] in the world [w]. *)
Definition persist_calls (w : World) : list (call Event Content) :=
  if _debug (self w) then
    LogWarning (Color_YELLOW +:+ "debug模式" +:+ Color_RED +:+ "取消"
                +:+ Color_RESET +:+ "退出时的保存行为") ::
    match attrs (self w) !! "name", data (self w) with
    | Some name, Store l =>
        [ConsolePrint (Color_GRAY +:+ py_str name +:+ String "010"%char EmptyString
                +:+ join (String "010"%char EmptyString) (visualize_tree (loader_data l))
                +:+ String "010"%char EmptyString)]
    | _, _ => []
    end
  else
    match data (self w) with
    | Store l => [StoreSave (file_path l) (loader_data l)]
    | RawDict _ => []
    end.

(** The first three steps of [__unload__]: revocation and the two close
    hooks. *)
Definition teardown (cls : PClass) (arg : Args) (kwd : Kwargs) : M State unit :=
  unregister_handlers ;;;
  run_hook (HookClose arg kwd) (_close_ cls arg kwd) ;;;
  run_hook (HookOnClose arg kwd) (on_close cls arg kwd).

(** The methods of the core, as a host or a plugin may call them. *)
Inductive core_call :=
| CallOnload
| CallUnload (arg : Args) (kwd : Kwargs)
| CallAddScheduledTask (job_func : callable) (name : string) (interval : value)
    (conditions : option (list callable)) (max_runs : option Z)
    (args : option Args) (kwargs : option Kwargs)
    (args_provider kwargs_provider : option callable)
| CallRemoveScheduledTask (task_name : string)
| CallPublishSync (event : Event)
| CallPublishAsync (event : Event)
| CallRegisterHandler (event_type : string) (handler : callable) (priority : Z)
| CallUnregisterHandler (handler_id : UUID)
| CallUnregisterHandlers
| CallDebug.

Definition discard {A} (m : M State A) : M State unit := m ;;; ret tt.

Definition run_core (cls : PClass) (c : core_call) : M State unit :=
  match c with
  | CallOnload => __onload__ cls
  | CallUnload arg kwd => __unload__ cls arg kwd
  | CallAddScheduledTask f n i c m a k ap kp =>
      discard (add_scheduled_task f n i c m a k ap kp)
  | CallRemoveScheduledTask n => discard (remove_scheduled_task n)
  | CallPublishSync e => discard (publish_sync e)
  | CallPublishAsync e => discard (publish_async e)
  | CallRegisterHandler et h p => discard (register_handler et h p)
  | CallUnregisterHandler t => discard (unregister_handler t)
  | CallUnregisterHandlers => unregister_handlers
  | CallDebug => discard debug
  end.

(** The persistence step of [__unload__]: its [try] statement. *)
Definition persistence : M State unit := try_except persist save_failure.

(** *** Construction *)

(** An attribute as the class provides it: declared by the subclass, or
    else inherited from [BasePlugin]. *)
Definition class_attr (cls : PClass) (k : string) : option value :=
  (cls_attrs cls ∪ BasePlugin_attrs) !! k.

(** The class declares a non-empty value for [k]. *)
Definition declares (cls : PClass) (k : string) : bool :=
  match class_attr cls k with Some v => truthy v | None => false end.

(** The configuration error of the spec: a required identity field is
    missing.  [__init__] raises [ValueError] for an empty or [None] name or
    version; when the subclass declares no such attribute at all, reading
    [self.name] or [self.version] raises [AttributeError]. *)
Definition configuration_error (e : exn) : bool :=
  match e with
  | ValueError _ => true
  | AttributeError a => String.eqb a "name" || String.eqb a "version"
  | _ => false
  end.

(** The work directory [__init__] resolves for a class, if both relative
    paths exist. *)
Definition work_path_of (cls : PClass) : option Path :=
  match extract_relative_path PLUGINS_DIR (parent (cls_file cls)) with
  | Some rel =>
      match extract_relative_path cwd (path_append PLUGINS_DIR rel) with
      | Some rel' => Some (path_append PERSISTENT_DIR rel')
      | None => None
      end
  | None => None
  end.

(** *** Relations between the instance before and after a step *)

(** Every run of [m] takes the instance to one related by [R]. *)
Definition stable {A} (R : BasePlugin Content -> BasePlugin Content -> Prop)
    (m : M State A) : Prop :=
  forall s, R (self (env s)) (self (env (snd (m s)))).

Definition stable_hook (R : BasePlugin Content -> BasePlugin Content -> Prop)
    (h : World -> res unit * World) : Prop :=
  forall w, R (self w) (self (snd (h w))).

(** The four hooks of [cls] all satisfy [P]. *)
Definition hooks_satisfy (P : (World -> res unit * World) -> Prop) (cls : PClass) : Prop :=
  P (_init_ cls) /\ P (on_load cls) /\
  (forall a k, P (_close_ cls a k)) /\ (forall a k, P (on_close cls a k)).

Definition same_first_load (p q : BasePlugin Content) : Prop :=
  first_load q = first_load p.


End Observations.

(** ** A reference installation, used to run the methods on concrete inputs *)

Module Reference.

(** Modelled from the spec: a bus that hands out consecutive tokens and
    keeps one lookup entry per subscription. *)
Record bus := {
  next_id : N;
  entries : list (UUID * (string * Z * callable))
}.

Definition bus_subscribe (event_type : string) (handler : callable)
    (priority : Z) (b : bus) : UUID * bus :=
  (next_id b,
   {| next_id := N.succ (next_id b);
      entries := entries b ++ [(next_id b, (event_type, priority, handler))] |}).

Definition bus_unsubscribe (handler_id : UUID) (b : bus) : bus :=
  {| next_id := next_id b;
     entries := List.filter (fun en => negb (N.eqb (fst en) handler_id)) (entries b) |}.

Definition bus_subscribed (b : bus) (handler_id : UUID) : bool :=
  existsb (fun en => N.eqb (fst en) handler_id) (entries b).

#[export] Instance the_bus : EventBus bus unit unit := {|
  subscribe := bus_subscribe;
  unsubscribe := bus_unsubscribe;
  bus_publish_sync := fun _ b => ([], b);
  bus_publish_async := fun _ b => ([], b);
  subscribed := bus_subscribed
|}.

(** Modelled from the spec: a scheduler that keeps the names of its jobs. *)
Definition sched_add (j : job_info) (names : list string) : bool * list string :=
  if existsb (String.eqb (job_name j)) names then (false, names)
  else (true, names ++ [job_name j]).

Definition sched_remove (name : string) (names : list string) : bool * list string :=
  if existsb (String.eqb name) names
  then (true, List.filter (fun n => negb (String.eqb name n)) names)
  else (false, names).

#[export] Instance the_scheduler : TimeTaskScheduler (list string) := {|
  add_job := sched_add;
  remove_job := sched_remove
|}.

(** Modelled from the spec: a store whose content is the text of its file.
    An unbound store has no known format, a missing file cannot be loaded,
    and an empty file is corrupt. *)
Definition store_load (l : UniversalLoader string) (f : FS) : exn + string :=
  match file_path l with
  | None => inl (FileTypeUnknownError "unknown file type")
  | Some p =>
      match lookup_node f p with
      | Some (File text) =>
          if String.eqb text EmptyString then inl (LoadError (path_str p)) else inr text
      | _ => inl (FileNotFoundError (path_str p))
      end
  end.

Definition store_save (l : UniversalLoader string) (f : FS) : res unit * FS :=
  match file_path l with
  | None => (Raise (FileTypeUnknownError "unknown file type"), f)
  | Some p =>
      match write_file f p (loader_data l) with
      | inl _ => (Raise (SaveError (path_str p)), f)
      | inr f' => (Ok tt, f')
      end
  end.

#[export] Instance the_store : PersistentStore string := {|
  new_content := "{}";
  load := store_load;
  save := store_save;
  visualize_tree := fun text => [text]
|}.

#[export] Instance the_literals : Literals := {|
  PLUGINS_DIR := ["bot"; "plugins"];
  PERSISTENT_DIR := ["bot"; "data"];
  cwd := ["bot"];
  Color_YELLOW := "<yellow>";
  Color_RED := "<red>";
  Color_RESET := "<reset>";
  Color_GRAY := "<gray>"
|}.

Abbreviation world := (Env bus (list string) string).
Abbreviation state := (St bus (list string) unit string).
Abbreviation plugin_class := (PluginClass bus (list string) string).

(** A plugin named Echo, version 1.0, installed in [plugins/echo]. *)
Definition echo_attrs : gmap string value :=
  {[ "name" := VStr "Echo"; "version" := VStr "1.0"; "dependencies" := VDict [] ]}.

Definition Echo : plugin_class := {|
  cls_attrs := echo_attrs;
  cls_file := ["bot"; "plugins"; "echo"; "main.py"];
  _init_ := pass;
  on_load := pass;
  _close_ := fun _ _ => pass;
  on_close := fun _ _ => pass
|}.

Definition echo_work : Path := ["bot"; "data"; "plugins"; "echo"].

Definition empty_bus : bus := {| next_id := 0; entries := [] |}.

(** A plugin whose synchronous close hook fails. *)
Definition Faulty : plugin_class := {|
  cls_attrs := echo_attrs;
  cls_file := ["bot"; "plugins"; "echo"; "main.py"];
  _init_ := pass;
  on_load := pass;
  _close_ := fun _ _ w => (Raise (OtherException "ConnectionError" "socket closed"), w);
  on_close := fun _ _ => pass
|}.

(** A plugin class whose name is the empty string. *)
Definition Unnamed : plugin_class := {|
  cls_attrs := {[ "name" := VStr EmptyString; "version" := VStr "1.0";
                  "dependencies" := VDict [] ]};
  cls_file := ["bot"; "plugins"; "echo"; "main.py"];
  _init_ := pass;
  on_load := pass;
  _close_ := fun _ _ => pass;
  on_close := fun _ _ => pass
|}.

(** A plugin class that declares no name. *)
Definition Nameless : plugin_class := {|
  cls_attrs := {[ "version" := VStr "1.0"; "dependencies" := VDict [] ]};
  cls_file := ["bot"; "plugins"; "echo"; "main.py"];
  _init_ := pass;
  on_load := pass;
  _close_ := fun _ _ => pass;
  on_close := fun _ _ => pass
|}.

Definition echo_json : Path := echo_work ++ ["Echo.json"].
Definition echo_yaml : Path := echo_work ++ ["Echo.yaml"].

(** A file system in which the work path of Echo is taken by a regular file. *)
Definition file_at_work : FS := {[ echo_work := File "x" ]}.

(** A file system in which the work directory of Echo is there already. *)
Definition work_ready : FS := {[ echo_work := Dir ]}.

(** A file system in which the data file of Echo cannot be written: a
    directory has its name. *)
Definition dir_at_data : FS := {[ echo_work := Dir; echo_json := Dir ]}.

(** A handler is registered, unregistered by hand, and a second one is
    registered. *)
Definition two_registrations : list registry_call :=
  [DoRegister "message" (Callable 1) 0; DoUnregister 0%N;
   DoRegister "notice" (Callable 2) 5].

(** Plugin code assigning new content to [self.data.data]. *)
Definition set_content (text : string) (s : state) : state :=
  on_env (with_self (fun p =>
    match data p with
    | Store l => set_data (Store {| file_path := file_path l; loader_data := text |}) p
    | RawDict _ => set_data (RawDict text) p
    end)) s.

(** An instance on which [__init__] never ran. *)
Definition blank : BasePlugin string := {|
  attrs := ∅; this_file_path := []; self_path := []; _debug := false;
  _event_handlers := []; _work_path := []; _data_path := []; first_load := false;
  data := RawDict EmptyString; work_space := []
|}.

(** The state once [cls] was constructed on the file system [f], with an
    empty bus and an empty scheduler ([blank] stands in when construction
    raised). *)
Definition start (cls : plugin_class) (debug : bool) (kwd : Kwargs) (f : FS) : state :=
  {| env := {| self := match fst (__init__ cls debug kwd f) with
                       | Ok p => p
                       | Raise _ => blank
                       end;
               fs := snd (__init__ cls debug kwd f);
               event_bus := empty_bus;
               time_task_scheduler := [] |};
     calls := [] |}.

(** A first session of Echo on an empty disk: construction, [__onload__],
    the plugin stores a count, [__unload__]. *)
Definition first_session : state :=
  snd (__unload__ Echo [] []
         (set_content "{count: 1}" (snd (__onload__ Echo (start Echo false [] ∅))))).

(** The next session: a fresh instance on the disk the first one left. *)
Definition second_session : state :=
  snd (__onload__ Echo (start Echo false [] (fs (env first_session)))).

End Reference.

(** ** Further observations: construction, loading and the disk *)

Section MoreObservations.
Context {Bus Sched Event Any Content : Type}.
Context {EB : EventBus Bus Event Any}.
Context {TS : TimeTaskScheduler Sched}.
Context {PS : PersistentStore Content}.
Context {L : Literals}.

Abbreviation State := (St Bus Sched Event Content).
Abbreviation World := (Env Bus Sched Content).
Abbreviation PClass := (PluginClass Bus Sched Content).

(** The value the keyword arguments give to [k]; [setattr] runs over them in
    order, so the last one stays. *)
Fixpoint kwd_lookup (k : string) (kwd : Kwargs) : option value :=
  match kwd with
  | [] => None
  | (k', v) :: rest =>
      match kwd_lookup k rest with
      | Some v' => Some v'
      | None => if String.eqb k' k then Some v else None
      end
  end.

(** The attribute [k] as the constructor finds it once the keyword arguments
    were applied: from the keyword arguments, or else from the class. *)
Definition given (cls : PClass) (kwd : Kwargs) (k : string) : option value :=
  match kwd_lookup k kwd with
  | Some v => Some v
  | None => class_attr cls k
  end.

(** The attributes [__init__] assigns itself once the keyword arguments
    were applied: a keyword argument of such a name does not last. *)
Definition constructor_assigned : list string :=
  ["this_file_path"; "self_path"; "lock"; "_debug"; "_event_handlers"; "_event_bus";
   "_time_task_scheduler"; "_work_path"; "_data_path"; "first_load"; "data";
   "work_space"].

(** [v or d]. *)
Definition value_or (v d : value) : value := if truthy v then v else d.

(** [s] has no path separator in it. *)
Fixpoint no_slash (s : string) : bool :=
  match s with
  | EmptyString => true
  | String c s' => negb (Ascii.eqb c slash) && no_slash s'
  end.

(** The file a data container is bound to; a raw mapping is bound to none. *)
Definition store_path (d : data_slot Content) : option Path :=
  match d with
  | Store l => file_path l
  | RawDict _ => None
  end.

(** What a data container holds in memory. *)
Definition store_content (d : data_slot Content) : Content :=
  match d with
  | Store l => loader_data l
  | RawDict m => m
  end.

(** The store [__onload__] works on: the one in place, or the fresh unbound
    one that adopts a raw mapping. *)
Definition adopted (d : data_slot Content) : UniversalLoader Content :=
  {| file_path := store_path d; loader_data := store_content d |}.

(** The [try] statement of [__onload__]. *)
Definition load_step : M State unit := try_except load_data load_failure.

(** The path the self-heal of [__onload__] writes to. *)
Definition heal_path (p : BasePlugin Content) (name : value) : Path :=
  path_join (_work_path p) (py_str name +:+ ".json").

(** The instance keeps what construction fixed: its attributes read by name,
    its paths and its debug flag. *)
Definition same_identity (p q : BasePlugin Content) : Prop :=
  attrs q = attrs p /\ this_file_path q = this_file_path p /\
  self_path q = self_path p /\ _debug q = _debug p /\
  _work_path q = _work_path p /\ _data_path q = _data_path p /\
  work_space q = work_space p.

(** The two methods of the life cycle, as opposed to the methods a running
    plugin calls. *)
Definition is_lifecycle (c : core_call (Event := Event)) : bool :=
  match c with
  | CallOnload | CallUnload _ _ => true
  | _ => false
  end.

(** A sequence of calls of methods of the core, each run whatever the one
    before returned or raised. *)
Definition run_calls (cls : PClass) (cs : list (core_call (Event := Event)))
    (s : State) : State :=
  foldl (fun acc c => snd (run_core cls c acc)) s cs.

(** Calls that go to the event bus or to the scheduler. *)
Definition to_bus_or_scheduler (c : call Event Content) : bool :=
  match c with
  | BusSubscribe _ _ _ _ | BusUnsubscribe _ | BusPublishSync _ | BusPublishAsync _
  | SchedAddJob _ | SchedRemoveJob _ => true
  | _ => false
  end.

(** A hook that returns and leaves the instance as it found it. *)
Definition quiet (h : World -> res unit * World) : Prop :=
  forall w, fst (h w) = Ok tt /\ self (snd (h w)) = self w.

(** The state in which a host holds a freshly constructed instance [p] on
    the disk [f]: nothing was called yet. *)
Definition installed (p : BasePlugin Content) (f : FS) (b : Bus) (sc : Sched) : State :=
  {| env := {| self := p; fs := f; event_bus := b; time_task_scheduler := sc |};
     calls := [] |}.

(** The data file [__init__] resolves for a class and keyword arguments:
    the work directory joined with [name.save_type], both read once the
    keyword arguments were applied and the empty save type replaced. *)
Definition data_file_of (cls : PClass) (kwd : Kwargs) : option Path :=
  match work_path_of cls, given cls kwd "name", given cls kwd "save_type" with
  | Some wp, Some n, Some st =>
      Some (path_join wp (py_str n +:+ "." +:+ py_str (value_or st (VStr "json"))))
  | _, _, _ => None
  end.

(** The data slot holds a store bound to the data file of the instance, as
    construction leaves it. *)
Definition store_on_data_file (p : BasePlugin Content) : Prop :=
  exists l, data p = Store l /\ file_path l = Some (_data_path p).

(** A hook that leaves the store of the instance on its data file. *)
Definition keeps_store (h : World -> res unit * World) : Prop :=
  forall w, store_on_data_file (self w) -> store_on_data_file (self (snd (h w))).

(** The world the close hooks of [__unload__] leave: the one [on_close]
    left, or the one [_close_] left when it raised. *)
Definition hooks_left (cls : PClass) (arg : Args) (kwd : Kwargs) (s : State) : World :=
  let close := _close_ cls arg kwd (env (revoked s)) in
  if is_ok (fst close) then snd (on_close cls arg kwd (snd close)) else snd close.


End MoreObservations.

(** ** Further plugins and collaborators of the reference installation *)

Module Scenarios.
Import Reference.

(** A plugin whose file is not under the plugins directory. *)
Definition Stray : plugin_class := {|
  cls_attrs := echo_attrs;
  cls_file := ["opt"; "echo"; "main.py"];
  _init_ := pass;
  on_load := pass;
  _close_ := fun _ _ => pass;
  on_close := fun _ _ => pass
|}.

(** A plugin class that declares a name and a version, and nothing else. *)
Definition Bare : plugin_class := {|
  cls_attrs := {[ "name" := VStr "Echo"; "version" := VStr "1.0" ]};
  cls_file := ["bot"; "plugins"; "echo"; "main.py"];
  _init_ := pass;
  on_load := pass;
  _close_ := fun _ _ => pass;
  on_close := fun _ _ => pass
|}.

(** A plugin whose synchronous close hook assigns a plain mapping to
    [self.data]. *)
Definition Careless : plugin_class := {|
  cls_attrs := echo_attrs;
  cls_file := ["bot"; "plugins"; "echo"; "main.py"];
  _init_ := pass;
  on_load := pass;
  _close_ := fun _ _ w => (Ok tt, with_self (set_data (RawDict "{}")) w);
  on_close := fun _ _ => pass
|}.

(** Modelled from the spec: a store on a disk the process may not touch;
    [load] and [save] fail with the [PermissionError] of the operating
    system. *)
Definition locked_store : PersistentStore string := {|
  new_content := "{}";
  load := fun _ _ => inl (OtherException "PermissionError" "permission denied");
  save := fun _ f => (Raise (OtherException "PermissionError" "permission denied"), f);
  visualize_tree := fun text => [text]
|}.

(** Echo, constructed on an empty disk and not loaded yet. *)
Definition echo_start : state := start Echo false [] ∅.

(** Echo, constructed on the disk its first session left. *)
Definition echo_again : state := start Echo false [] (fs (env first_session)).

(** The store of a freshly constructed Echo. *)
Definition echo_store : UniversalLoader string :=
  {| file_path := Some echo_json; loader_data := "{}" |}.

(** Keyword arguments with an empty save type and an attribute of the
    host's own. *)
Definition host_kwd : Kwargs := [("save_type", VStr EmptyString); ("owner", VStr "host")].


(** Echo, constructed in debug mode on an empty disk. *)
Definition echo_debug : state := start Echo true [] ∅.

End Scenarios.

(** * Properties *)

Section Properties.
Context {Bus Sched Event Any Content : Type}.
Context {EB : EventBus Bus Event Any}.
Context {TS : TimeTaskScheduler Sched}.
Context {PS : PersistentStore Content}.
Context {L : Literals}.

Abbreviation State := (St Bus Sched Event Content).
Abbreviation World := (Env Bus Sched Content).
Abbreviation PClass := (PluginClass Bus Sched Content).
Abbreviation Plugin := (BasePlugin Content).

(** ** The registry methods, run *)

Lemma register_handler_run (et : string) (h : callable) (p : Z) (s : State) :
  register_handler et h p s =
    (Ok (fst (subscribe et h p (event_bus (env s)))),
     {| env := with_self (fun q => set_event_handlers (_event_handlers q
                             ++ [fst (subscribe et h p (event_bus (env s)))]) q)
                 (with_bus (snd (subscribe et h p (event_bus (env s)))) (env s));
        calls := calls s ++ [BusSubscribe et h p
                               (fst (subscribe et h p (event_bus (env s))))] |}).
Proof.
  unfold register_handler, bind, gets. cbn.
  destruct (subscribe et h p (event_bus (env s))) as [t b]. reflexivity.
Qed.

Lemma unregister_handler_known (t : UUID) (s : State) :
  t ∈ handlers s ->
  unregister_handler t s =
    (Ok true,
     on_env (with_self (fun q => set_event_handlers (_event_handlers q ++ [t]) q)) s).
Proof.
  intros Hin. unfold unregister_handler, bind, gets. cbn.
  rewrite bool_decide_eq_true_2 by exact Hin. reflexivity.
Qed.

Lemma unregister_handler_unknown (t : UUID) (s : State) :
  t ∉ handlers s -> unregister_handler t s = (Ok false, s).
Proof.
  intros Hin. unfold unregister_handler, bind, gets. cbn.
  rewrite bool_decide_eq_false_2 by exact Hin. reflexivity.
Qed.

Lemma for_each_unsubscribe (hs : list UUID) (s : State) :
  for_each hs bus_unsubscribe s =
    (Ok tt,
     {| env := with_bus (revoke_all hs (event_bus (env s))) (env s);
        calls := calls s ++ map BusUnsubscribe hs |}).
Proof.
  revert s. induction hs as [|t hs IH]; intros s.
  - cbn. destruct s as [[p f b sc] tr]. cbn. rewrite app_nil_r. reflexivity.
  - cbn [for_each]. unfold bind at 1. unfold bus_unsubscribe at 1.
    unfold bind at 1. cbn. rewrite IH. cbn.
    rewrite <- app_assoc. reflexivity.
Qed.

Lemma unregister_handlers_run (s : State) :
  unregister_handlers s = (Ok tt, revoked s).
Proof.
  unfold unregister_handlers, bind, gets. cbn.
  apply for_each_unsubscribe.
Qed.

Lemma run_hook_run (c : call Event Content) (h : World -> res unit * World)
    (s : State) :
  run_hook c h s =
    (fst (h (env s)), {| env := snd (h (env s)); calls := calls s ++ [c] |}).
Proof.
  unfold run_hook, bind, log, modify. cbn.
  destruct (h (env s)) as [r w]. reflexivity.
Qed.



(** ** The persistence step *)

Lemma persistence_calls (s : State) :
  calls (snd (persistence s)) = calls s ++ persist_calls (env s).
Proof.
  destruct s as [[p f b sc] tr].
  unfold persistence, try_except, persist, persist_calls, debug, bind, gets.
  cbn [env self snd fst calls].
  destruct (_debug p) eqn:Hd.
  - unfold self_attr, data_data, log, modify, bind, gets, lift_res, getattr.
    cbn [env self snd fst calls].
    destruct (attrs p !! "name") as [n|]; cbn [save_failure snd calls].
    + destruct (data p) as [l|d]; cbn [save_failure snd calls raise ret].
      * rewrite <- app_assoc. reflexivity.
      * reflexivity.
    + reflexivity.
  - unfold data_save, log, modify, bind, gets.
    cbn [env self snd fst calls fs].
    destruct (data p) as [l|d]; cbn [raise save_failure snd calls fs env self].
    + destruct (save l f) as [[[]|e] f'] eqn:Hs; cbn [on_env env calls snd].
      * reflexivity.
      * destruct e; cbn [save_failure]; try reflexivity;
          unfold self_attr, bind, gets, lift_res, getattr, raise;
          cbn [env self snd fst calls on_env with_fs];
          destruct (attrs p !! "name"); reflexivity.
    + rewrite app_nil_r. reflexivity.
Qed.

Lemma persistence_frame (s : State) :
  self (env (snd (persistence s))) = self (env s) /\
  event_bus (env (snd (persistence s))) = event_bus (env s) /\
  time_task_scheduler (env (snd (persistence s))) = time_task_scheduler (env s).
Proof.
  destruct s as [[p f b sc] tr].
  unfold persistence, try_except, persist, debug, bind, gets.
  cbn [env self snd fst calls].
  destruct (_debug p) eqn:Hd.
  - unfold self_attr, data_data, log, modify, bind, gets, lift_res, getattr.
    cbn [env self snd fst calls].
    destruct (attrs p !! "name") as [n|]; cbn [save_failure snd calls].
    + destruct (data p) as [l|d]; cbn; auto.
    + cbn; auto.
  - unfold data_save, log, modify, bind, gets.
    cbn [env self snd fst calls fs].
    destruct (data p) as [l|d]; cbn [raise save_failure snd calls fs env self].
    + destruct (save l f) as [[[]|e] f'] eqn:Hs; cbn [on_env env calls snd].
      * cbn; auto.
      * destruct e; cbn [save_failure]; try (cbn; auto; fail);
          unfold self_attr, bind, gets, lift_res, getattr, raise;
          cbn [env self snd fst calls on_env with_fs];
          destruct (attrs p !! "name"); cbn; auto.
    + cbn; auto.
Qed.

Lemma persistence_debug (s : State) :
  _debug (self (env s)) = true ->
  fs (env (snd (persistence s))) = fs (env s).
Proof.
  destruct s as [[p f b sc] tr]. cbn [env self]. intros Hd.
  unfold persistence, try_except, persist, debug, bind, gets.
  cbn [env self snd fst calls]. rewrite Hd.
  unfold self_attr, data_data, log, modify, bind, gets, lift_res, getattr.
  cbn [env self snd fst calls].
  destruct (attrs p !! "name") as [n|]; cbn [save_failure snd calls].
  - destruct (data p) as [l|d]; reflexivity.
  - reflexivity.
Qed.

Lemma persistence_save (s : State) (l : UniversalLoader Content) :
  _debug (self (env s)) = false ->
  data (self (env s)) = Store l ->
  persistence s =
    match save l (fs (env s)) with
    | (Ok u, f') =>
        (Ok u, {| env := with_fs f' (env s);
                  calls := calls s ++ [StoreSave (file_path l) (loader_data l)] |})
    | (Raise e, f') =>
        (match save_failure_text e with
         | Some m =>
             match attrs (self (env s)) !! "name" with
             | Some n => Raise (RuntimeError [n; VStr ("保存持久化数据时出错: " +:+ m)])
             | None => Raise (AttributeError "name")
             end
         | None => Raise e
         end,
         {| env := with_fs f' (env s);
            calls := calls s ++ [StoreSave (file_path l) (loader_data l)] |})
    end.
Proof.
  destruct s as [[p f b sc] tr]. cbn [env self fs]. intros Hd Hl.
  unfold persistence, try_except, persist, debug, bind, gets.
  cbn [env self snd fst calls]. rewrite Hd.
  unfold data_save, log, modify, bind, gets.
  cbn [env self snd fst calls fs]. rewrite Hl. cbn [env fs].
  destruct (save l f) as [[u|e] f'] eqn:Hs; cbn [on_env env calls snd with_fs].
  - reflexivity.
  - destruct e; cbn [save_failure save_failure_text]; try reflexivity;
      unfold self_attr, bind, gets, lift_res, getattr, raise;
      cbn [env self snd fst calls on_env with_fs];
      destruct (attrs p !! "name"); reflexivity.
Qed.

(** ** [__unload__], phase by phase *)

Lemma teardown_run (cls : PClass) (arg : Args) (kwd : Kwargs) (s : State) :
  teardown cls arg kwd s =
    let s1 := revoked s in
    let r1 := _close_ cls arg kwd (env s1) in
    match fst r1 with
    | Raise e => (Raise e, {| env := snd r1; calls := calls s1 ++ [HookClose arg kwd] |})
    | Ok _ =>
        let r2 := on_close cls arg kwd (snd r1) in
        (fst r2, {| env := snd r2;
                    calls := (calls s1 ++ [HookClose arg kwd]) ++ [HookOnClose arg kwd] |})
    end.
Proof.
  unfold teardown. unfold bind at 1. rewrite unregister_handlers_run.
  unfold bind at 1. rewrite run_hook_run.
  cbn zeta. destruct (_close_ cls arg kwd (env (revoked s))) as [[u|e] w] eqn:H1;
    cbn [fst snd].
  - rewrite run_hook_run. cbn [env calls]. reflexivity.
  - reflexivity.
Qed.

Lemma unload_teardown (cls : PClass) (arg : Args) (kwd : Kwargs) (s : State) :
  __unload__ cls arg kwd s =
    match teardown cls arg kwd s with
    | (Ok _, s3) => persistence s3
    | (Raise e, s3) => (Raise e, s3)
    end.
Proof.
  unfold __unload__, teardown, persistence.
  unfold bind.
  destruct (unregister_handlers s) as [[u|e] s1]; [|reflexivity].
  destruct (run_hook (HookClose arg kwd) (_close_ cls arg kwd) s1) as [[u2|e] s2];
    [|reflexivity].
  destruct (run_hook (HookOnClose arg kwd) (on_close cls arg kwd) s2) as [[u3|e] s3];
    reflexivity.
Qed.

Lemma new_calls_app {A} (m : M State A) (s : State) (l : list (call Event Content)) :
  calls (snd (m s)) = calls s ++ l -> new_calls m s = l.
Proof.
  intros H. unfold new_calls. rewrite H. rewrite drop_app_length. reflexivity.
Qed.

Lemma unload_calls (cls : PClass) (arg : Args) (kwd : Kwargs) (s : State) :
  calls (snd (__unload__ cls arg kwd s)) =
    calls s ++
    (map BusUnsubscribe (handlers s) ++
     HookClose arg kwd ::
     (if is_ok (fst (_close_ cls arg kwd (env (revoked s)))) then
        HookOnClose arg kwd ::
        (if is_ok (fst (on_close cls arg kwd
                          (snd (_close_ cls arg kwd (env (revoked s)))))) then
           persist_calls (snd (on_close cls arg kwd
                                 (snd (_close_ cls arg kwd (env (revoked s))))))
         else [])
      else [])).
Proof.
  rewrite unload_teardown, teardown_run. cbn zeta.
  destruct (_close_ cls arg kwd (env (revoked s))) as [[u|e] w2]; cbn [fst snd is_ok].
  - destruct (on_close cls arg kwd w2) as [[u'|e] w3]; cbn [fst snd is_ok].
    + rewrite persistence_calls. cbn [env calls revoked].
      rewrite <- !app_assoc. reflexivity.
    + cbn [calls revoked]. rewrite <- !app_assoc. reflexivity.
  - cbn [calls revoked]. rewrite <- !app_assoc. reflexivity.
Qed.


Lemma persist_calls_debug_no_write (w : World) :
  _debug (self w) = true ->
  List.filter is_write (persist_calls (Event := Event) w) = [].
Proof.
  intros Hd. unfold persist_calls. rewrite Hd.
  destruct (attrs (self w) !! "name"); [destruct (data (self w))|]; reflexivity.
Qed.

Lemma no_write_unsubscribes (hs : list UUID) :
  List.filter is_write (map (@BusUnsubscribe Event Content) hs) = [].
Proof. induction hs as [|t hs IH]; [reflexivity|exact IH]. Qed.



(** ** Revocation on a bus that keeps its contract *)

Section Contract.
Context {EBC : EventBusContract EB}.



End Contract.

(** ** What the methods of the core may do to the instance

    [R] relates the instance before and after a step.  It is closed under
    the two assignments the core makes after construction: to [data] and, by
    appending, to [_event_handlers]. *)

Section Stable.
Variable R : Plugin -> Plugin -> Prop.
Hypothesis R_refl : forall p, R p p.
Hypothesis R_trans : forall p q r, R p q -> R q r -> R p r.
Hypothesis R_data : forall p d, R p (set_data d p).
Hypothesis R_append : forall p t,
  R p (set_event_handlers (_event_handlers p ++ [t]) p).

#[local] Abbreviation steady := (@stable Bus Sched Event Content _ R).
#[local] Abbreviation steady_hook := (@stable_hook Bus Sched Content R).

Lemma stable_ret {A} (a : A) : steady (ret (St := State) a).
Proof. intros s. apply R_refl. Qed.

Lemma stable_raise {A} (e : exn) : steady (@raise State A e).
Proof. intros s. apply R_refl. Qed.

Lemma stable_gets {A} (f : State -> A) : steady (gets f).
Proof. intros s. apply R_refl. Qed.

Lemma stable_lift_res {A} (r : res A) : steady (@lift_res State A r).
Proof. intros s. apply R_refl. Qed.

Lemma stable_bind {A B} (m : M State A) (k : A -> M State B) :
  steady m -> (forall a, steady (k a)) -> steady (bind m k).
Proof.
  intros Hm Hk s. unfold bind. specialize (Hm s).
  destruct (m s) as [[a|e] s']; cbn [snd] in *; [|exact Hm].
  eapply R_trans; [exact Hm|apply Hk].
Qed.

Lemma stable_try_except {A} (m : M State A) (h : exn -> option (M State A)) :
  steady m -> (forall e k, h e = Some k -> steady k) -> steady (try_except m h).
Proof.
  intros Hm Hh s. unfold try_except. specialize (Hm s).
  destruct (m s) as [[a|e] s']; cbn [snd] in *; [exact Hm|].
  destruct (h e) as [k|] eqn:He; cbn [snd]; [|exact Hm].
  eapply R_trans; [exact Hm|]. eapply Hh; exact He.
Qed.

Lemma stable_log (c : call Event Content) : steady (log c).
Proof. intros s. apply R_refl. Qed.

Lemma stable_world (f : World -> World) :
  (forall w, self (f w) = self w) -> steady (modify (on_env (Event := Event) f)).
Proof. intros Hf s. cbn. rewrite Hf. apply R_refl. Qed.

Lemma stable_set_data (d : data_slot Content) :
  steady (modify (on_env (Event := Event) (with_self (set_data d)))).
Proof. intros s. cbn. apply R_data. Qed.

Lemma stable_for_each {A} (l : list A) (body : A -> M State unit) :
  (forall a, steady (body a)) -> steady (for_each l body).
Proof.
  intros Hb. induction l as [|x l IH]; cbn [for_each].
  - apply stable_ret.
  - apply stable_bind; [apply Hb|intros _; exact IH].
Qed.

Lemma stable_run_hook (c : call Event Content) (h : World -> res unit * World) :
  steady_hook h -> steady (run_hook c h).
Proof. intros Hh s. rewrite run_hook_run. cbn. apply Hh. Qed.

Lemma stable_data_load : steady (data_load (Event := Event)).
Proof.
  unfold data_load. apply stable_bind; [apply stable_gets|]. intros [l|d].
  - apply stable_bind; [apply stable_log|]. intros _.
    apply stable_bind; [apply stable_gets|]. intros f.
    destruct (load l f); [apply stable_raise|apply stable_set_data].
  - apply stable_raise.
Qed.

Lemma stable_data_save : steady (data_save (Event := Event)).
Proof.
  unfold data_save. apply stable_bind; [apply stable_gets|]. intros [l|d].
  - apply stable_bind; [apply stable_log|]. intros _ s.
    destruct (save l (fs (env s))) as [r f]. cbn. apply R_refl.
  - apply stable_raise.
Qed.

Lemma stable_self_attr (k : string) : steady (self_attr (Event := Event) k).
Proof.
  unfold self_attr. apply stable_bind; [apply stable_gets|].
  intros a. apply stable_lift_res.
Qed.

Lemma stable_open_write (p : Path) (text : string) :
  steady (open_write (Event := Event) p text).
Proof.
  unfold open_write. apply stable_bind; [apply stable_log|]. intros _.
  apply stable_bind; [apply stable_gets|]. intros f.
  destruct (write_file f p text); [apply stable_raise|].
  apply stable_world. reflexivity.
Qed.

Lemma stable_persist : steady (persist (Event := Event)).
Proof.
  unfold persist, debug. apply stable_bind; [apply stable_gets|]. intros [|].
  - apply stable_bind; [apply stable_log|]. intros _.
    apply stable_bind; [apply stable_self_attr|]. intros n.
    apply stable_bind; [|intros c; apply stable_log].
    unfold data_data. apply stable_bind; [apply stable_gets|].
    intros [l|d]; [apply stable_ret|apply stable_raise].
  - apply stable_data_save.
Qed.

Lemma stable_save_failure (e : exn) (k : M State unit) :
  save_failure e = Some k -> steady k.
Proof.
  destruct e; cbn; intros H; try discriminate; injection H as <-;
    (apply stable_bind; [apply stable_self_attr|intros n; apply stable_raise]).
Qed.

Lemma stable_unregister_handlers : steady (unregister_handlers (Event := Event)).
Proof.
  unfold unregister_handlers. apply stable_bind; [apply stable_gets|]. intros hs.
  apply stable_for_each. intros t. unfold bus_unsubscribe.
  apply stable_bind; [apply stable_log|]. intros _.
  apply stable_world. reflexivity.
Qed.

Lemma stable_load_failure (e : exn) (k : M State unit) :
  load_failure e = Some k -> steady k.
Proof.
  destruct e; cbn; intros H; try discriminate; injection H as H; subst k;
    (apply stable_bind; [apply stable_gets|intros wp];
     apply stable_bind; [apply stable_self_attr|intros n];
     apply stable_bind; [apply stable_open_write|intros _];
     apply stable_data_load).
Qed.

Lemma stable_load_data : steady (load_data (Event := Event)).
Proof.
  unfold load_data. apply stable_bind; [apply stable_gets|]. intros d.
  apply stable_bind; [|intros _; apply stable_data_load].
  destruct d as [l|d]; [apply stable_ret|apply stable_set_data].
Qed.

Lemma stable_register_handler et h p : steady (register_handler et h p).
Proof.
  intros s. rewrite register_handler_run. cbn. apply R_append.
Qed.

Lemma stable_unregister_handler t : steady (unregister_handler (Event := Event) t).
Proof.
  intros s. destruct (decide (t ∈ handlers s)) as [H|H].
  - rewrite (unregister_handler_known _ _ H). cbn. apply R_append.
  - rewrite (unregister_handler_unknown _ _ H). apply R_refl.
Qed.

Lemma stable_discard {A} (m : M State A) : steady m -> steady (discard m).
Proof. intros H. apply stable_bind; [exact H|intros _; apply stable_ret]. Qed.

(** Every method of the core is stable when the hooks are. *)
Lemma stable_run_core (cls : PClass) (c : core_call) :
  hooks_satisfy steady_hook cls -> steady (run_core cls c).
Proof.
  intros (Hi & Hl & Hc & Ho). destruct c; cbn [run_core].
  - unfold __onload__.
    apply stable_bind;
      [apply stable_try_except; [apply stable_load_data|apply stable_load_failure]|].
    intros _. apply stable_bind; intros; apply stable_run_hook; assumption.
  - unfold __unload__.
    apply stable_bind; [apply stable_unregister_handlers|intros _].
    apply stable_bind; [apply stable_run_hook; apply Hc|intros _].
    apply stable_bind; [apply stable_run_hook; apply Ho|intros _].
    apply stable_try_except; [apply stable_persist|apply stable_save_failure].
  - apply stable_discard. unfold add_scheduled_task.
    apply stable_bind; [apply stable_log|]. intros _ s.
    cbn. destruct (add_job _ _) as [r sc]. cbn. apply R_refl.
  - apply stable_discard. unfold remove_scheduled_task.
    apply stable_bind; [apply stable_log|]. intros _ s.
    cbn. destruct (remove_job _ _) as [r sc]. cbn. apply R_refl.
  - apply stable_discard. unfold publish_sync.
    apply stable_bind; [apply stable_log|]. intros _ s.
    cbn. destruct (bus_publish_sync _ _) as [r sc]. cbn. apply R_refl.
  - apply stable_discard. unfold publish_async.
    apply stable_bind; [apply stable_log|]. intros _ s.
    cbn. destruct (bus_publish_async _ _) as [r sc]. cbn. apply R_refl.
  - apply stable_discard, stable_register_handler.
  - apply stable_discard, stable_unregister_handler.
  - apply stable_unregister_handlers.
  - apply stable_discard. apply stable_gets.
Qed.

End Stable.

(** ** Construction *)

Ltac init_unfold_in H :=
  cbv beta iota zeta delta [__init__ bind lift_res getattr raise ret get_fs gets] in H.

Ltac split_cases :=
  repeat match goal with
    | H : context [match ?x with _ => _ end] |- _ =>
        destruct x eqn:?;
        cbv beta iota zeta delta [ret] in *; try discriminate
    end.

Ltac flip_negb :=
  repeat match goal with
    | E : negb ?b = true |- _ => apply negb_true_iff in E
    | E : negb ?b = false |- _ => apply negb_false_iff in E
    end.

Lemma init_ok_inv (cls : PClass) (debug : bool) (kwd : Kwargs) (f f' : FS) (p : Plugin) :
  __init__ cls debug kwd f = (Ok p, f') ->
  first_load p = negb (path_exists f (_work_path p)) || negb (path_exists f (_data_path p))
  /\ is_dir f' (_work_path p) = true
  /\ (if path_exists f (_work_path p) then f' = f
      else mkdir_parents f (_work_path p) = inr f')
  /\ _debug p = debug
  /\ _event_handlers p = []
  /\ data p = Store {| file_path := Some (_data_path p); loader_data := new_content |}
  /\ exists n st, attrs p !! "name" = Some n /\ attrs p !! "save_type" = Some st
       /\ _data_path p = path_join (_work_path p) (py_str n +:+ "." +:+ py_str st).
Proof.
  intros H. init_unfold_in H. split_cases.
  all: repeat match goal with E : (_, _) = (_, _) |- _ => injection E as ? ? end.
  all: subst; try discriminate.
  all: cbn [first_load _work_path _data_path _debug _event_handlers data attrs].
  all: flip_negb.
  all: repeat match goal with E : path_exists _ _ = _ |- _ => rewrite E end.
  all: repeat match goal with E : Ok _ = Ok _ |- _ => injection E as <- end.
  all: cbn [negb orb]; repeat split; auto.
  all: repeat match goal with
         | E : match ?x with Some _ => _ | None => _ end = Ok _ |- _ =>
             destruct x eqn:?; [injection E as ->|discriminate E]
         end.
  all: eauto.
Qed.

Lemma init_identity_missing (cls : PClass) (debug : bool) (kwd : Kwargs) (f : FS) :
  declares cls "name" && declares cls "version" = false ->
  exists e, __init__ (PS := PS) cls debug kwd f = (Raise e, f)
            /\ configuration_error e = true.
Proof.
  unfold declares, class_attr. intros H.
  cbv beta iota zeta delta [__init__ bind lift_res getattr raise ret get_fs gets].
  destruct ((cls_attrs cls ∪ BasePlugin_attrs) !! "name") as [n|]; [|eauto].
  destruct (truthy n); cbn [negb andb] in *; [|eauto].
  destruct ((cls_attrs cls ∪ BasePlugin_attrs) !! "version") as [v|]; [|eauto].
  rewrite H. cbn [negb]. eauto.
Qed.

Lemma setattrs_is_Some (a : gmap string value) (kwd : Kwargs) (k : string) :
  is_Some (a !! k) -> is_Some (setattrs a kwd !! k).
Proof.
  revert a. induction kwd as [|[k' v'] kwd IH]; intros a H; [exact H|].
  cbn. apply IH. rewrite lookup_insert. case_decide; eauto.
Qed.

Lemma init_valid (cls : PClass) (debug : bool) (kwd : Kwargs) (f : FS) (wp : Path) :
  declares cls "name" = true -> declares cls "version" = true ->
  is_Some (setattrs (cls_attrs cls ∪ BasePlugin_attrs) kwd !! "dependencies") ->
  work_path_of cls = Some wp ->
  match lookup_node f wp with
  | None =>
      match mkdir_parents f wp with
      | inr f1 => exists p, __init__ (PS := PS) cls debug kwd f = (Ok p, f1)
                            /\ _work_path p = wp /\ is_dir f1 wp = true
      | inl e => __init__ (PS := PS) cls debug kwd f = (Raise e, f)
      end
  | Some Dir => exists p, __init__ (PS := PS) cls debug kwd f = (Ok p, f)
                          /\ _work_path p = wp
  | Some (File _) =>
      exists n, __init__ (PS := PS) cls debug kwd f
                = (Raise (PluginLoadError n (path_str wp +:+ " 不是目录文件夹")), f)
  end.
Proof.
  unfold declares, class_attr, work_path_of. intros Hn Hv Hd Hw.
  destruct ((cls_attrs cls ∪ BasePlugin_attrs) !! "name") as [n|] eqn:En; [|discriminate].
  destruct ((cls_attrs cls ∪ BasePlugin_attrs) !! "version") as [v|] eqn:Ev; [|discriminate].
  assert (Hst : is_Some (setattrs (cls_attrs cls ∪ BasePlugin_attrs) kwd !! "save_type")).
  { apply setattrs_is_Some. rewrite lookup_union.
    replace (BasePlugin_attrs !! "save_type") with (Some (VStr "json")) by reflexivity.
    destruct (cls_attrs cls !! "save_type"); cbn; eauto. }
  assert (Hnm : is_Some (setattrs (cls_attrs cls ∪ BasePlugin_attrs) kwd !! "name")).
  { apply setattrs_is_Some. rewrite En. eauto. }
  destruct Hst as [st Hst]. destruct Hd as [d Hd]. destruct Hnm as [n' Hnm].
  destruct (extract_relative_path PLUGINS_DIR (parent (cls_file cls))) as [rel|] eqn:Er;
    [|discriminate].
  destruct (extract_relative_path cwd (path_append PLUGINS_DIR rel)) as [rel'|] eqn:Er';
    [|discriminate].
  injection Hw as <-.
  set (a1 := setattrs (cls_attrs cls ∪ BasePlugin_attrs) kwd) in *.
  set (a2 := if negb (truthy st) then <["save_type" := VStr "json"]> a1 else a1).
  set (a3 := if negb (truthy d) then <["dependencies" := VDict []]> a2 else a2).
  assert (Hd2 : a2 !! "dependencies" = Some d).
  { unfold a2. destruct (negb (truthy st)); [|exact Hd].
    rewrite lookup_insert_ne by discriminate. exact Hd. }
  assert (Hn3 : a3 !! "name" = Some n').
  { unfold a3, a2. destruct (negb (truthy d)), (negb (truthy st));
      rewrite ?lookup_insert_ne by discriminate; exact Hnm. }
  assert (Hs3 : exists st', a3 !! "save_type" = Some st').
  { unfold a3, a2. destruct (negb (truthy d)), (negb (truthy st));
      rewrite ?(lookup_insert_ne _ "dependencies") by discriminate;
      rewrite ?lookup_insert_eq; eauto. }
  destruct Hs3 as [st' Hs3].
  cbv beta iota zeta delta [__init__ bind lift_res getattr raise ret get_fs gets].
  rewrite En, Hn, Ev, Hv. cbn [negb]. fold a1. rewrite Hst. fold a2. rewrite Hd2.
  fold a3. rewrite Er, Er', Hn3, Hs3.
  set (wp := path_append PERSISTENT_DIR rel').
  unfold path_exists, is_dir.
  destruct (lookup_node f wp) as [[|t]|] eqn:Elk; cbn [negb].
  - destruct (match lookup_node f _ with Some _ => true | None => false end);
      cbn [negb]; rewrite ?Elk; eauto.
  - destruct (match lookup_node f _ with Some _ => true | None => false end);
      cbn [negb]; rewrite ?Elk; eauto.
  - destruct (mkdir_parents f wp) as [e|f1] eqn:Em; [reflexivity|].
    assert (Hdir : lookup_node f1 wp = Some Dir).
    { unfold mkdir_parents in Em. rewrite Elk in Em.
      destruct (mkdir_ancestors f [] (parent wp)); [discriminate|].
      injection Em as <-. unfold lookup_node.
      destruct wp; [reflexivity|]. apply lookup_insert_eq. }
    rewrite Hdir. cbn [negb]. eauto.
Qed.

(** ** The self-heal of [__onload__] *)

Lemma onload_self_heal (s : State) (l : UniversalLoader Content) (e : exn) (n : value) :
  data (self (env s)) = Store l ->
  load l (fs (env s)) = inl e ->
  load_failure_known e = true ->
  attrs (self (env s)) !! "name" = Some n ->
  try_except load_data load_failure s =
    let jp := path_join (_work_path (self (env s))) (py_str n +:+ ".json") in
    match write_file (fs (env s)) jp "{}" with
    | inl e' =>
        (Raise e',
         {| env := env s;
            calls := calls s ++ [StoreLoad (file_path l); FileWrite jp "{}"] |})
    | inr f' =>
        match load l f' with
        | inl e2 =>
            (Raise e2,
             {| env := with_fs f' (env s);
                calls := calls s ++ [StoreLoad (file_path l); FileWrite jp "{}";
                                     StoreLoad (file_path l)] |})
        | inr c =>
            (Ok tt,
             {| env := with_self
                         (set_data (Store {| file_path := file_path l; loader_data := c |}))
                         (with_fs f' (env s));
                calls := calls s ++ [StoreLoad (file_path l); FileWrite jp "{}";
                                     StoreLoad (file_path l)] |})
        end
    end.
Proof.
  destruct s as [[p f b sc] tr]. cbn [env self fs calls]. intros Hd Hl He Hn.
  unfold try_except, load_data, data_load, bind, gets, log, modify, raise, ret.
  cbn [env self fs calls fst snd]. rewrite Hd. cbn [env self fs calls fst snd].
  rewrite Hd. cbn [env self fs calls fst snd]. rewrite Hl.
  assert (Hh : load_failure e = Some
            (work_path <- gets (fun s : State => _work_path (self (env s))) ;;
             name <- self_attr "name" ;;
             open_write (path_join work_path (py_str name +:+ ".json")) "{}" ;;;
             data_load)).
  { destruct e; try discriminate He; reflexivity. }
  rewrite Hh.
  unfold self_attr, open_write, data_load, bind, gets, log, modify, raise, ret,
    lift_res, getattr.
  cbn [env self fs calls fst snd]. rewrite Hn.
  destruct (write_file f _ "{}") as [e'|f'] eqn:Hw.
  - rewrite <- app_assoc. reflexivity.
  - cbn [on_env with_fs env self fs calls fst snd]. rewrite Hd.
    cbn [on_env with_fs env self fs calls fst snd].
    destruct (load l f') as [e2|c]; rewrite <- !app_assoc; reflexivity.
Qed.

(** ** The registry and [__unload__] *)

(** C5.  When both close hooks have returned, debug mode is off and the
    [save] of the store fails, for whatever reason a store that keeps its
    contract can fail, [__unload__] raises [RuntimeError] with the plugin's
    name and a message that ends in the text of the failure; [save] was
    called once, and nothing else (no retry, no file written) follows it. *)
Theorem unload_save_failure_is_runtime_error
    {PSC : PersistentStoreContract PS}
    (cls : PClass) (arg : Args) (kwd : Kwargs) (s s3 : State)
    (l : UniversalLoader Content) (n : value) (e : exn) (f' : FS) :
  teardown cls arg kwd s = (Ok tt, s3) ->
  _debug (self (env s3)) = false ->
  data (self (env s3)) = Store l ->
  attrs (self (env s3)) !! "name" = Some n ->
  save l (fs (env s3)) = (Raise e, f') ->
  exists m,
    save_failure_text e = Some m /\
    fst (__unload__ cls arg kwd s)
      = Raise (RuntimeError [n; VStr ("保存持久化数据时出错: " +:+ m)]) /\
    calls (snd (__unload__ cls arg kwd s))
      = calls s3 ++ [StoreSave (file_path l) (loader_data l)].
Proof.
  intros Ht Hd Hl Hn Hs.
  destruct (save_failure_known _ _ _ _ Hs) as [m Hm]. exists m.
  rewrite unload_teardown, Ht, (persistence_save _ _ Hd Hl), Hs, Hm, Hn.
  auto.
Qed.


(** ** Construction: outcomes and the first-load flag *)

(** C7, as amended.  When the class declares no non-empty name or no
    non-empty version, construction raises the configuration error and the
    file system is the one it started from.  When it declares both, a
    [dependencies] attribute can be read and the work directory resolves to
    [wp]: if nothing is at [wp], construction creates the directory (when it
    can be created) and succeeds; if [wp] is a directory, construction
    succeeds and leaves the file system alone; if [wp] is a regular file,
    construction raises [PluginLoadError], the load error. *)
Theorem init_outcomes (cls : PClass) (debug : bool) (kwd : Kwargs) (f : FS) :
  (declares cls "name" && declares cls "version" = false ->
   exists e, __init__ (PS := PS) cls debug kwd f = (Raise e, f)
             /\ configuration_error e = true) /\
  (declares cls "name" = true -> declares cls "version" = true ->
   is_Some (setattrs (cls_attrs cls ∪ BasePlugin_attrs) kwd !! "dependencies") ->
   forall wp, work_path_of cls = Some wp ->
     match lookup_node f wp with
     | None =>
         forall f1, mkdir_parents f wp = inr f1 ->
           exists p, __init__ (PS := PS) cls debug kwd f = (Ok p, f1) /\
                     _work_path p = wp /\ is_dir f1 wp = true
     | Some Dir =>
         exists p, __init__ (PS := PS) cls debug kwd f = (Ok p, f) /\ _work_path p = wp
     | Some (File _) =>
         exists n, __init__ (PS := PS) cls debug kwd f
                   = (Raise (PluginLoadError n (path_str wp +:+ " 不是目录文件夹")), f)
     end).
Proof.
  split; [apply init_identity_missing|].
  intros Hn Hv Hd wp Hw.
  pose proof (init_valid cls debug kwd f wp Hn Hv Hd Hw) as H.
  destruct (lookup_node f wp) as [[|t]|]; [exact H|exact H|].
  intros f1 Hm. rewrite Hm in H. exact H.
Qed.

(** C10.  The identity check comes before the extra keyword arguments are
    applied: when the class itself declares no non-empty name, or no
    non-empty version, construction raises the configuration error whatever
    the keyword arguments are, a non-empty name or version among them
    included, and leaves the file system as it was. *)
Theorem identity_checked_before_kwd
    (cls : PClass) (debug : bool) (kwd : Kwargs) (f : FS) :
  declares cls "name" && declares cls "version" = false ->
  exists e, __init__ (PS := PS) cls debug kwd f = (Raise e, f)
            /\ configuration_error e = true.
Proof. apply init_identity_missing. Qed.

End Properties.

(** * Further properties: construction, loading, unloading *)

(** ** Relative paths *)

Lemma relative_to_Some (target base rel : Path) :
  relative_to target base = Some rel <-> target = base ++ rel.
Proof.
  revert target. induction base as [|b base IH]; intros [|t target]; cbn.
  - split; [intros [= <-]; reflexivity|intros ->; reflexivity].
  - split; [intros [= <-]; reflexivity|intros ->; reflexivity].
  - split; [discriminate|]. intros H. discriminate H.
  - destruct (String.eqb_spec b t) as [->|Hne].
    + rewrite IH. split; [intros ->; reflexivity|intros [= ->]; reflexivity].
    + split; [discriminate|]. intros [= <- _]. contradiction.
Qed.

Lemma relative_to_None (target base : Path) :
  relative_to target base = None <-> ~ base `prefix_of` target.
Proof.
  split.
  - intros H [rel Hrel]. apply relative_to_Some in Hrel. congruence.
  - intros H. destruct (relative_to target base) as [rel|] eqn:E; [|reflexivity].
    exfalso. apply H. exists rel. apply relative_to_Some. exact E.
Qed.

Lemma extract_relative_path_Some (base target rel : Path) :
  extract_relative_path base target = Some rel <-> target = base ++ rel.
Proof.
  unfold extract_relative_path. rewrite <- relative_to_Some.
  destruct (relative_to target base); split; congruence.
Qed.

(** X1.  [extract_relative_path base target] returns a path exactly when
    [base] is a prefix of [target], and what it returns, appended to [base],
    gives [target] back; it returns [None] exactly when [base] is no prefix
    of [target] (the [ValueError] of [relative_to] never escapes).  The path
    of [base] relative to itself is empty. *)
Theorem extract_relative_path_round_trip (base target : Path) :
  (forall rel, extract_relative_path base target = Some rel <-> target = base ++ rel) /\
  (extract_relative_path base target = None <-> ~ base `prefix_of` target) /\
  (forall rel, extract_relative_path base (path_append base rel) = Some rel) /\
  extract_relative_path base base = Some [].
Proof.
  split; [intros rel; apply extract_relative_path_Some|].
  split; [|split].
  - unfold extract_relative_path. rewrite <- relative_to_None.
    destruct (relative_to target base); split; congruence.
  - intros rel. apply extract_relative_path_Some. reflexivity.
  - apply extract_relative_path_Some. rewrite app_nil_r. reflexivity.
Qed.

Section Construction.
Context {Bus Sched Event Any Content : Type}.
Context {EB : EventBus Bus Event Any}.
Context {TS : TimeTaskScheduler Sched}.
Context {PS : PersistentStore Content}.
Context {L : Literals}.

Abbreviation State := (St Bus Sched Event Content).
Abbreviation World := (Env Bus Sched Content).
Abbreviation PClass := (PluginClass Bus Sched Content).
Abbreviation Plugin := (BasePlugin Content).

Lemma setattrs_lookup (a : gmap string value) (kwd : Kwargs) (k : string) :
  setattrs a kwd !! k =
    match kwd_lookup k kwd with Some v => Some v | None => a !! k end.
Proof.
  revert a. induction kwd as [|[k' v] kwd IH]; intros a; [reflexivity|].
  change (setattrs a ((k', v) :: kwd)) with (setattrs (<[k' := v]> a) kwd).
  rewrite IH. cbn [kwd_lookup].
  destruct (kwd_lookup k kwd) as [v'|]; [reflexivity|].
  destruct (String.eqb_spec k' k) as [->|Hne].
  - apply lookup_insert_eq.
  - apply lookup_insert_ne. exact Hne.
Qed.

Lemma setattrs_given (cls : PClass) (kwd : Kwargs) (k : string) :
  setattrs (cls_attrs cls ∪ BasePlugin_attrs) kwd !! k = given cls kwd k.
Proof. rewrite setattrs_lookup. reflexivity. Qed.

Ltac construct_in H :=
  cbv beta iota zeta delta [__init__ bind lift_res getattr raise ret get_fs gets] in H.

Ltac construct :=
  cbv beta iota zeta delta [__init__ bind lift_res getattr raise ret get_fs gets].

Ltac by_cases :=
  repeat match goal with
    | H : context [match ?x with _ => _ end] |- _ =>
        destruct x eqn:?;
        cbv beta iota zeta delta [ret] in *; try discriminate
    end.

(** What a successful construction went through. *)
Lemma init_ok_steps (cls : PClass) (debug : bool) (kwd : Kwargs) (f f' : FS) (p : Plugin) :
  __init__ cls debug kwd f = (Ok p, f') ->
  exists n v st d rel rel',
    class_attr cls "name" = Some n /\ truthy n = true /\
    class_attr cls "version" = Some v /\ truthy v = true /\
    given cls kwd "save_type" = Some st /\
    given cls kwd "dependencies" = Some d /\
    extract_relative_path PLUGINS_DIR (parent (cls_file cls)) = Some rel /\
    extract_relative_path cwd (path_append PLUGINS_DIR rel) = Some rel' /\
    attrs p = (let a1 := setattrs (cls_attrs cls ∪ BasePlugin_attrs) kwd in
               let a2 := if negb (truthy st) then <["save_type" := VStr "json"]> a1 else a1 in
               if negb (truthy d) then <["dependencies" := VDict []]> a2 else a2) /\
    this_file_path p = cls_file cls /\
    self_path p = path_append PLUGINS_DIR rel /\
    _work_path p = path_append PERSISTENT_DIR rel' /\
    work_space p = path_append PERSISTENT_DIR rel'.
Proof.
  intros H. unfold class_attr. rewrite <- !setattrs_given.
  construct_in H.
  destruct ((cls_attrs cls ∪ BasePlugin_attrs) !! "name") as [n|]; [|discriminate].
  destruct (truthy n) eqn:Hn; cbn [negb] in H; [|discriminate].
  destruct ((cls_attrs cls ∪ BasePlugin_attrs) !! "version") as [v|]; [|discriminate].
  destruct (truthy v) eqn:Hv; cbn [negb] in H; [|discriminate].
  destruct (setattrs (cls_attrs cls ∪ BasePlugin_attrs) kwd !! "save_type") as [st|] eqn:Hst;
    [|discriminate].
  assert (Hd2 :
    (if negb (truthy st)
     then <["save_type" := VStr "json"]> (setattrs (cls_attrs cls ∪ BasePlugin_attrs) kwd)
     else setattrs (cls_attrs cls ∪ BasePlugin_attrs) kwd) !! "dependencies"
    = setattrs (cls_attrs cls ∪ BasePlugin_attrs) kwd !! "dependencies").
  { destruct (negb (truthy st)); [|auto].
    rewrite lookup_insert_ne by discriminate. auto. }
  rewrite Hd2 in H. clear Hd2.
  destruct (setattrs (cls_attrs cls ∪ BasePlugin_attrs) kwd !! "dependencies") as [d|] eqn:Hd;
    [|discriminate].
  destruct (extract_relative_path PLUGINS_DIR (parent (cls_file cls))) as [rel|] eqn:Er;
    [|discriminate].
  destruct (extract_relative_path cwd (path_append PLUGINS_DIR rel)) as [rel'|] eqn:Er';
    [|discriminate].
  exists n, v, st, d, rel, rel'.
  by_cases.
  all: repeat match goal with E : (_, _) = (_, _) |- _ => injection E as ? ? end.
  all: subst; try discriminate.
  all: cbn [attrs this_file_path self_path _work_path work_space].
  all: repeat split; auto.
Qed.


(** ** What construction does to the disk *)

Lemma mkdir_ancestors_grows (fs fs' : FS) (pre rest : Path) :
  mkdir_ancestors fs pre rest = inr fs' ->
  (forall q n, fs !! q = Some n -> fs' !! q = Some n) /\
  (forall q n, fs' !! q = Some n -> fs !! q = Some n \/ n = Dir).
Proof.
  revert fs pre. induction rest as [|c rest IH]; intros fs pre; cbn [mkdir_ancestors].
  - intros [= <-]. auto.
  - destruct (fs !! (pre ++ [c])) as [[|t]|] eqn:E; [apply IH|discriminate|].
    intros H. apply IH in H. destruct H as [H1 H2]. split.
    + intros q n Hq. apply H1. rewrite lookup_insert_ne; [exact Hq|].
      intros <-. congruence.
    + intros q n Hq. apply H2 in Hq. destruct Hq as [Hq|Hq]; [|auto].
      destruct (decide (pre ++ [c] = q)) as [<-|Hne].
      * rewrite lookup_insert_eq in Hq. injection Hq as <-. auto.
      * rewrite lookup_insert_ne in Hq by exact Hne. auto.
Qed.

Lemma mkdir_parents_grows (fs fs' : FS) (p : Path) :
  mkdir_parents fs p = inr fs' ->
  (forall q n, fs !! q = Some n -> fs' !! q = Some n) /\
  (forall q n, fs' !! q = Some n -> fs !! q = Some n \/ n = Dir).
Proof.
  unfold mkdir_parents.
  destruct (lookup_node fs p) eqn:E; [discriminate|].
  destruct (mkdir_ancestors fs [] (parent p)) as [e|fs1] eqn:Ea; [discriminate|].
  intros [= <-]. apply mkdir_ancestors_grows in Ea. destruct Ea as [H1 H2].
  assert (Hp : fs !! p = None) by (destruct p; [discriminate E|exact E]).
  split.
  - intros q n Hq. rewrite lookup_insert_ne; [auto|]. intros <-. congruence.
  - intros q n Hq. destruct (decide (p = q)) as [<-|Hne].
    + rewrite lookup_insert_eq in Hq. injection Hq as <-. auto.
    + rewrite lookup_insert_ne in Hq by exact Hne. auto.
Qed.

Lemma mkdir_parents_is_dir (fs fs' : FS) (p : Path) :
  mkdir_parents fs p = inr fs' -> is_dir fs' p = true.
Proof.
  unfold mkdir_parents, is_dir.
  destruct (lookup_node fs p) eqn:E; [discriminate|].
  destruct (mkdir_ancestors fs [] (parent p)) as [e|fs1]; [discriminate|].
  intros [= <-]. unfold lookup_node. destruct p; [reflexivity|].
  rewrite lookup_insert_eq. reflexivity.
Qed.

(** The disk after construction: untouched, or the one [mkdir] left, in
    which case construction succeeded. *)
Lemma init_disk (cls : PClass) (debug : bool) (kwd : Kwargs) (f : FS) :
  snd (__init__ (PS := PS) cls debug kwd f) = f \/
  exists wp, work_path_of cls = Some wp /\ path_exists f wp = false /\
             mkdir_parents f wp = inr (snd (__init__ (PS := PS) cls debug kwd f)) /\
             is_ok (fst (__init__ (PS := PS) cls debug kwd f)) = true.
Proof.
  unfold work_path_of. construct.
  destruct ((cls_attrs cls ∪ BasePlugin_attrs) !! "name") as [n|]; [|auto].
  destruct (negb (truthy n)); [auto|].
  destruct ((cls_attrs cls ∪ BasePlugin_attrs) !! "version") as [v|]; [|auto].
  destruct (negb (truthy v)); [auto|].
  destruct (setattrs (cls_attrs cls ∪ BasePlugin_attrs) kwd !! "save_type") as [st|]; [|auto].
  match goal with |- context [match ?a !! "dependencies" with _ => _ end] =>
    destruct (a !! "dependencies") as [d|]; [|auto] end.
  destruct (extract_relative_path PLUGINS_DIR (parent (cls_file cls))) as [rel|]; [|auto].
  destruct (extract_relative_path cwd (path_append PLUGINS_DIR rel)) as [rel'|]; [|auto].
  match goal with |- context [match ?a !! "name" with _ => _ end] =>
    destruct (a !! "name") as [n'|]; [|auto] end.
  match goal with |- context [match ?a !! "save_type" with _ => _ end] =>
    destruct (a !! "save_type") as [st'|]; [|auto] end.
  set (wp := path_append PERSISTENT_DIR rel').
  destruct (path_exists f wp) eqn:Epe; cbn [negb].
  - left.
    destruct (negb (path_exists f _)); destruct (negb (is_dir f wp)); reflexivity.
  - destruct (mkdir_parents f wp) as [e|f1] eqn:Em; [auto|].
    right. exists wp. rewrite (mkdir_parents_is_dir _ _ _ Em). cbn [negb fst snd is_ok].
    auto.
Qed.


Lemma work_path_of_Some (cls : PClass) (wp : Path) :
  work_path_of cls = Some wp <->
  PLUGINS_DIR `prefix_of` parent (cls_file cls) /\
  exists rel, parent (cls_file cls) = cwd ++ rel /\ wp = PERSISTENT_DIR ++ rel.
Proof.
  unfold work_path_of, path_append. split.
  - destruct (extract_relative_path PLUGINS_DIR (parent (cls_file cls))) as [rel|] eqn:E;
      [|discriminate].
    apply extract_relative_path_Some in E.
    destruct (extract_relative_path cwd (PLUGINS_DIR ++ rel)) as [rel'|] eqn:E';
      [|discriminate].
    apply extract_relative_path_Some in E'. intros [= <-].
    split; [exists rel; exact E|]. exists rel'. split; [congruence|reflexivity].
  - intros [[rel Hrel] [rel' [Hrel' ->]]].
    apply extract_relative_path_Some in Hrel. rewrite Hrel.
    apply extract_relative_path_Some in Hrel. rewrite <- Hrel.
    apply extract_relative_path_Some in Hrel'. rewrite Hrel'. reflexivity.
Qed.

Lemma work_path_of_None (cls : PClass) :
  ~ (PLUGINS_DIR `prefix_of` parent (cls_file cls) /\
     cwd `prefix_of` parent (cls_file cls)) ->
  work_path_of cls = None.
Proof.
  intros H. destruct (work_path_of cls) as [wp|] eqn:E; [|reflexivity].
  exfalso. apply H. apply work_path_of_Some in E. destruct E as [H1 [rel [H2 _]]].
  split; [exact H1|]. exists rel. exact H2.
Qed.

(** ** Construction: the paths, the attributes, the failures *)

(** X2.  After a construction that succeeded, the instance knows the file
    of its class; its plugin directory, computed as [PLUGINS_DIR] joined
    with the directory of that file relative to [PLUGINS_DIR], is the
    directory of that file, and lies under [PLUGINS_DIR]; its work directory
    is [PERSISTENT_DIR] joined with the plugin directory relative to the
    current directory; the work space is the work directory, the store is
    bound to the data file, the debug flag is the constructor's argument and
    no handler is tracked. *)
Theorem init_resolves_paths
    (cls : PClass) (debug : bool) (kwd : Kwargs) (f f' : FS) (p : Plugin) :
  __init__ cls debug kwd f = (Ok p, f') ->
  this_file_path p = cls_file cls /\
  self_path p = parent (cls_file cls) /\
  PLUGINS_DIR `prefix_of` self_path p /\
  (exists rel, self_path p = cwd ++ rel /\ _work_path p = PERSISTENT_DIR ++ rel) /\
  work_path_of cls = Some (_work_path p) /\
  work_space p = _work_path p /\
  store_path (data p) = Some (_data_path p) /\
  _debug p = debug /\
  _event_handlers p = [].
Proof.
  intros H.
  destruct (init_ok_steps _ _ _ _ _ _ H)
    as (n & v & st & d & rel & rel' & _ & _ & _ & _ & _ & _ & Hr & Hr' & _ & Hf & Hs & Hw & Hws).
  destruct (init_ok_inv _ _ _ _ _ _ H) as (_ & _ & _ & Hdbg & Hh & Hdata & _).
  assert (Hwo : work_path_of cls = Some (_work_path p)).
  { unfold work_path_of. rewrite Hr, Hr', Hw. reflexivity. }
  apply extract_relative_path_Some in Hr, Hr'. unfold path_append in *.
  repeat split.
  - exact Hf.
  - congruence.
  - rewrite Hs. exists rel. reflexivity.
  - exists rel'. split; congruence.
  - exact Hwo.
  - congruence.
  - rewrite Hdata. reflexivity.
  - exact Hdbg.
  - exact Hh.
Qed.

(** X3.  After a construction that succeeded, an attribute the constructor
    does not assign itself is what the keyword arguments gave it (the last
    one given), or else what the class declares, with two exceptions: an
    empty [save_type] became ['json'] and empty [dependencies] became [{}].
    The data file is named after the [name] and the [save_type] found that
    way, so a [name] among the keyword arguments names the data file,
    although the identity check looked at the class's own, which is not
    empty, as the class's version is not. *)
Theorem init_applies_keyword_arguments
    (cls : PClass) (debug : bool) (kwd : Kwargs) (f f' : FS) (p : Plugin) :
  __init__ cls debug kwd f = (Ok p, f') ->
  (exists st, given cls kwd "save_type" = Some st /\
              attrs p !! "save_type" = Some (value_or st (VStr "json"))) /\
  (exists d, given cls kwd "dependencies" = Some d /\
             attrs p !! "dependencies" = Some (value_or d (VDict []))) /\
  (forall k, k ∉ "save_type" :: "dependencies" :: constructor_assigned ->
             attrs p !! k = given cls kwd k) /\
  (exists n st, given cls kwd "name" = Some n /\ given cls kwd "save_type" = Some st /\
     _data_path p = path_join (_work_path p)
                      (py_str n +:+ "." +:+ py_str (value_or st (VStr "json")))) /\
  (exists n, class_attr cls "name" = Some n /\ truthy n = true) /\
  (exists v, class_attr cls "version" = Some v /\ truthy v = true).
Proof.
  intros H.
  destruct (init_ok_steps _ _ _ _ _ _ H)
    as (n & v & st & d & rel & rel' & Hn & Hnt & Hv & Hvt & Hst & Hd & _ & _ & Ha & _).
  destruct (init_ok_inv _ _ _ _ _ _ H) as (_ & _ & _ & _ & _ & _ & n' & st' & Hn' & Hst' & Hdp).
  cbv zeta in Ha.
  assert (Hsave : attrs p !! "save_type" = Some (value_or st (VStr "json"))).
  { rewrite Ha. unfold value_or.
    destruct (truthy d), (truthy st); cbn [negb];
      rewrite ?(lookup_insert_ne _ "dependencies") by discriminate;
      rewrite ?lookup_insert_eq, ?setattrs_given; auto. }
  assert (Hother : forall k, k <> "save_type" -> k <> "dependencies" ->
                             attrs p !! k = given cls kwd k).
  { intros k H1 H2. rewrite Ha.
    destruct (truthy d), (truthy st); cbn [negb];
      rewrite ?lookup_insert_ne by congruence; apply setattrs_given. }
  repeat split.
  - exists st. auto.
  - exists d. split; [exact Hd|]. rewrite Ha. unfold value_or.
    destruct (truthy d), (truthy st); cbn [negb];
      rewrite ?lookup_insert_eq; rewrite ?lookup_insert_ne by discriminate;
      rewrite ?setattrs_given; auto.
  - intros k Hk. apply not_elem_of_cons in Hk as [H1 Hk].
    apply not_elem_of_cons in Hk as [H2 _]. apply Hother; assumption.
  - exists n', st. rewrite <- Hother by discriminate.
    split; [exact Hn'|]. split; [exact Hst|].
    rewrite Hdp. rewrite Hsave in Hst'. injection Hst' as <-. reflexivity.
  - eauto.
  - eauto.
Qed.

(** The steps of construction up to the resolution of the paths, for a
    class with a valid identity and readable dependencies. *)
Lemma init_unresolved (cls : PClass) (debug : bool) (kwd : Kwargs) (f : FS) :
  declares cls "name" = true -> declares cls "version" = true ->
  is_Some (given cls kwd "dependencies") ->
  work_path_of cls = None ->
  __init__ (PS := PS) cls debug kwd f =
    (Raise (TypeError "unsupported operand type(s) for /: 'PosixPath' and 'NoneType'"), f).
Proof.
  unfold declares, class_attr, work_path_of. intros Hn Hv [d Hd] Hw.
  rewrite <- setattrs_given in Hd.
  destruct ((cls_attrs cls ∪ BasePlugin_attrs) !! "name") as [n|] eqn:En; [|discriminate].
  destruct ((cls_attrs cls ∪ BasePlugin_attrs) !! "version") as [v|] eqn:Ev; [|discriminate].
  assert (Hst : is_Some (setattrs (cls_attrs cls ∪ BasePlugin_attrs) kwd !! "save_type")).
  { apply setattrs_is_Some. rewrite lookup_union.
    replace (BasePlugin_attrs !! "save_type") with (Some (VStr "json")) by reflexivity.
    destruct (cls_attrs cls !! "save_type"); cbn; eauto. }
  destruct Hst as [st Hst].
  construct. rewrite En, Hn, Ev, Hv. cbn [negb]. rewrite Hst.
  assert (Hd2 :
    (if negb (truthy st)
     then <["save_type" := VStr "json"]> (setattrs (cls_attrs cls ∪ BasePlugin_attrs) kwd)
     else setattrs (cls_attrs cls ∪ BasePlugin_attrs) kwd) !! "dependencies" = Some d).
  { destruct (negb (truthy st)); [|auto].
    rewrite lookup_insert_ne by discriminate. auto. }
  rewrite Hd2.
  destruct (extract_relative_path PLUGINS_DIR (parent (cls_file cls))) as [rel|];
    [|reflexivity].
  destruct (extract_relative_path cwd (path_append PLUGINS_DIR rel)) as [rel'|];
    [discriminate|reflexivity].
Qed.

(** X4.  A class with a valid identity and readable dependencies whose file
    does not lie in a directory under both [PLUGINS_DIR] and the current
    directory cannot be constructed: [extract_relative_path] returns [None],
    joining a path with [None] raises [TypeError], and the disk is left as
    it was. *)
Theorem init_unresolvable_path_is_type_error
    (cls : PClass) (debug : bool) (kwd : Kwargs) (f : FS) :
  declares cls "name" = true -> declares cls "version" = true ->
  is_Some (given cls kwd "dependencies") ->
  ~ (PLUGINS_DIR `prefix_of` parent (cls_file cls) /\
     cwd `prefix_of` parent (cls_file cls)) ->
  exists m, __init__ (PS := PS) cls debug kwd f = (Raise (TypeError m), f).
Proof.
  intros Hn Hv Hd Hw. eexists.
  apply init_unresolved; auto. apply work_path_of_None. exact Hw.
Qed.

(** X5.  [BasePlugin] annotates [dependencies] without giving it a value:
    when neither the class nor the keyword arguments provide one, reading
    [self.dependencies] raises [AttributeError], after the identity check
    and before anything is done to the disk. *)
Theorem init_missing_dependencies_is_attribute_error
    (cls : PClass) (debug : bool) (kwd : Kwargs) (f : FS) :
  declares cls "name" = true -> declares cls "version" = true ->
  given cls kwd "dependencies" = None ->
  __init__ (PS := PS) cls debug kwd f = (Raise (AttributeError "dependencies"), f).
Proof.
  unfold declares, class_attr. intros Hn Hv Hd.
  rewrite <- setattrs_given in Hd.
  destruct ((cls_attrs cls ∪ BasePlugin_attrs) !! "name") as [n|] eqn:En; [|discriminate].
  destruct ((cls_attrs cls ∪ BasePlugin_attrs) !! "version") as [v|] eqn:Ev; [|discriminate].
  assert (Hst : is_Some (setattrs (cls_attrs cls ∪ BasePlugin_attrs) kwd !! "save_type")).
  { apply setattrs_is_Some. rewrite lookup_union.
    replace (BasePlugin_attrs !! "save_type") with (Some (VStr "json")) by reflexivity.
    destruct (cls_attrs cls !! "save_type"); cbn; eauto. }
  destruct Hst as [st Hst].
  construct. rewrite En, Hn, Ev, Hv. cbn [negb]. rewrite Hst.
  assert (Hd2 :
    (if negb (truthy st)
     then <["save_type" := VStr "json"]> (setattrs (cls_attrs cls ∪ BasePlugin_attrs) kwd)
     else setattrs (cls_attrs cls ∪ BasePlugin_attrs) kwd) !! "dependencies" = None).
  { destruct (negb (truthy st)); [|auto].
    rewrite lookup_insert_ne by discriminate. auto. }
  rewrite Hd2. reflexivity.
Qed.

(** X6.  Construction never removes or changes an entry of the disk, and
    whatever it adds is a directory.  When it raises, and when the work
    directory was there already, the disk is exactly the one it started
    from. *)
Theorem init_only_adds_directories
    (cls : PClass) (debug : bool) (kwd : Kwargs) (f : FS) :
  let r := __init__ (PS := PS) cls debug kwd f in
  (forall q n, f !! q = Some n -> snd r !! q = Some n) /\
  (forall q n, snd r !! q = Some n -> f !! q = Some n \/ n = Dir) /\
  (forall e, fst r = Raise e -> snd r = f) /\
  (forall wp, work_path_of cls = Some wp -> path_exists f wp = true -> snd r = f).
Proof.
  cbv zeta.
  destruct (init_disk cls debug kwd f) as [->|(wp & Hw & Hpe & Hm & Hok)].
  - repeat split; auto.
  - pose proof (mkdir_parents_grows _ _ _ Hm) as [H1 H2].
    repeat split; auto.
    + intros e He. rewrite He in Hok. discriminate.
    + intros wp' Hw' Hpe'. congruence.
Qed.

End Construction.

(** ** File names *)

Lemma append_cons (c : Ascii.ascii) (a b : string) :
  String c a +:+ b = String c (a +:+ b).
Proof. reflexivity. Qed.

Lemma append_String (a : string) (c : Ascii.ascii) (b : string) :
  (a +:+ String c EmptyString) +:+ b = a +:+ String c b.
Proof.
  induction a as [|x a IH]; [reflexivity|]. rewrite !append_cons, IH. reflexivity.
Qed.

Lemma append_empty (a : string) : a +:+ EmptyString = a.
Proof. induction a as [|x a IH]; [reflexivity|]. rewrite append_cons, IH. reflexivity. Qed.

Lemma components_from_no_slash (cur s : string) :
  no_slash s = true -> components_from cur s = [cur +:+ s].
Proof.
  revert cur. induction s as [|c s IH]; intros cur H; cbn [components_from no_slash] in *.
  - rewrite append_empty. reflexivity.
  - apply andb_true_iff in H. destruct H as [Hc Hs].
    apply negb_true_iff in Hc. rewrite Hc, (IH _ Hs), append_String. reflexivity.
Qed.

Lemma no_slash_append (a b : string) :
  no_slash (a +:+ b) = no_slash a && no_slash b.
Proof.
  induction a as [|c a IH]; [reflexivity|].
  rewrite append_cons. cbn [no_slash].
  rewrite IH, andb_assoc. reflexivity.
Qed.

Lemma no_slash_relative (s : string) : no_slash s = true -> is_absolute s = false.
Proof.
  destruct s as [|c s]; cbn; [reflexivity|]. intros H.
  apply andb_true_iff in H. destruct H as [H _]. apply negb_true_iff in H. exact H.
Qed.

(** A file name [n.st] with no separator in it and a non-empty extension is
    one component, appended to the directory. *)
Lemma path_join_file_name (d : Path) (n st : string) :
  no_slash n = true -> no_slash st = true -> st <> EmptyString ->
  path_join d (n +:+ "." +:+ st) = d ++ [n +:+ "." +:+ st].
Proof.
  intros Hn Hs Hne. unfold path_join.
  assert (Hno : no_slash (n +:+ "." +:+ st) = true).
  { rewrite !no_slash_append, Hn, Hs. reflexivity. }
  rewrite (no_slash_relative _ Hno), (components_from_no_slash _ _ Hno).
  change (EmptyString +:+ (n +:+ "." +:+ st)) with (n +:+ "." +:+ st).
  cbn [List.filter].
  assert (Hp : proper_component (n +:+ "." +:+ st) = true).
  { unfold proper_component.
    apply andb_true_iff; split; apply negb_true_iff, String.eqb_neq.
    - destruct n; discriminate.
    - destruct n as [|c n]; [|destruct n]; try discriminate.
      change (String "." st <> String "." EmptyString). congruence. }
  rewrite Hp. reflexivity.
Qed.

Section DataFile.
Context {Bus Sched Event Any Content : Type}.
Context {EB : EventBus Bus Event Any}.
Context {TS : TimeTaskScheduler Sched}.
Context {PS : PersistentStore Content}.
Context {L : Literals}.

Abbreviation PClass := (PluginClass Bus Sched Content).
Abbreviation Plugin := (BasePlugin Content).

Lemma init_save_type
    (cls : PClass) (debug : bool) (kwd : Kwargs) (f f' : FS) (p : Plugin) :
  __init__ cls debug kwd f = (Ok p, f') ->
  exists st, given cls kwd "save_type" = Some st /\
             attrs p !! "save_type" = Some (value_or st (VStr "json")).
Proof.
  intros H.
  destruct (init_ok_steps _ _ _ _ _ _ H)
    as (n & v & st & d & rel & rel' & _ & _ & _ & _ & Hst & _ & _ & _ & Ha & _).
  exists st. split; [exact Hst|]. cbv zeta in Ha. rewrite Ha. unfold value_or.
  destruct (truthy d), (truthy st); cbn [negb];
    rewrite ?(lookup_insert_ne _ "dependencies") by discriminate;
    rewrite ?lookup_insert_eq, ?setattrs_given; auto.
Qed.

(** X7.  After a construction that succeeded with a name and a save type
    that are strings without a path separator, the save type is not empty
    and the data file is the file [name.save_type] directly in the work
    directory, which is the directory of the data file. *)
Theorem init_data_file_in_work_directory
    (cls : PClass) (debug : bool) (kwd : Kwargs) (f f' : FS) (p : Plugin)
    (n st : string) :
  __init__ cls debug kwd f = (Ok p, f') ->
  attrs p !! "name" = Some (VStr n) ->
  attrs p !! "save_type" = Some (VStr st) ->
  no_slash n = true -> no_slash st = true ->
  st <> EmptyString /\
  _data_path p = _work_path p ++ [n +:+ "." +:+ st] /\
  parent (_data_path p) = _work_path p.
Proof.
  intros H Hn Hst Hns Hss.
  destruct (init_save_type _ _ _ _ _ _ H) as (st0 & _ & Hst0).
  destruct (init_ok_inv _ _ _ _ _ _ H) as (_ & _ & _ & _ & _ & _ & n' & st' & Hn' & Hst' & Hdp).
  rewrite Hn in Hn'. injection Hn' as <-. rewrite Hst in Hst'. injection Hst' as <-.
  assert (Hne : st <> EmptyString).
  { rewrite Hst in Hst0. injection Hst0 as Hv. unfold value_or in Hv.
    destruct (truthy st0) eqn:Ht.
    - subst st0. cbn in Ht. intros ->. discriminate.
    - injection Hv as ->. discriminate. }
  cbn [py_str] in Hdp.
  rewrite (path_join_file_name _ _ _ Hns Hss Hne) in Hdp.
  split; [exact Hne|]. split; [exact Hdp|].
  rewrite Hdp. unfold parent. apply removelast_last.
Qed.

End DataFile.

Section Invariants.
Context {Bus Sched Event Any Content : Type}.
Context {EB : EventBus Bus Event Any}.
Context {TS : TimeTaskScheduler Sched}.
Context {PS : PersistentStore Content}.
Context {L : Literals}.

Abbreviation State := (St Bus Sched Event Content).
Abbreviation World := (Env Bus Sched Content).
Abbreviation PClass := (PluginClass Bus Sched Content).
Abbreviation Plugin := (BasePlugin Content).

(** ** What construction fixed stays fixed *)

Lemma same_identity_refl (p : Plugin) : same_identity p p.
Proof. unfold same_identity. auto 10. Qed.

Lemma same_identity_trans (p q r : Plugin) :
  same_identity p q -> same_identity q r -> same_identity p r.
Proof. unfold same_identity. intuition congruence. Qed.

Lemma same_identity_run_core (cls : PClass) (c : core_call (Event := Event)) (s : State) :
  hooks_satisfy (stable_hook same_identity) cls ->
  same_identity (self (env s)) (self (env (snd (run_core cls c s)))).
Proof.
  intros Hh.
  apply (stable_run_core same_identity);
    [ exact same_identity_refl
    | exact same_identity_trans
    | intros p d; unfold same_identity; cbn; auto 10
    | intros p t; unfold same_identity; cbn; auto 10
    | exact Hh ].
Qed.

(** X8.  No method of the core assigns, after construction, an attribute
    read by name, a path, the work space or the debug flag: over any
    sequence of calls of its methods, in any state, these are what they
    were (the user hooks being asked to leave them alone), and the [debug]
    property answers what it answered before, without changing anything. *)
Theorem identity_survives_every_call (cls : PClass) :
  hooks_satisfy (stable_hook same_identity) cls ->
  forall (cs : list (core_call (Event := Event))) (s : State),
    same_identity (self (env s)) (self (env (run_calls cls cs s))) /\
    debug (run_calls cls cs s) = (Ok (_debug (self (env s))), run_calls cls cs s).
Proof.
  intros Hh cs.
  assert (H : forall s, same_identity (self (env s)) (self (env (run_calls cls cs s)))).
  { induction cs as [|c cs IH]; intros s; [apply same_identity_refl|].
    change (run_calls cls (c :: cs) s) with (run_calls cls cs (snd (run_core cls c s))).
    eapply same_identity_trans; [|apply IH].
    apply same_identity_run_core. exact Hh. }
  intros s. split; [apply H|].
  unfold debug, gets. destruct (H s) as (_ & _ & _ & -> & _). reflexivity.
Qed.

(** ** Outside the life cycle *)

Lemma collaborators_unsubscribe (hs : list UUID) :
  forallb to_bus_or_scheduler (map (@BusUnsubscribe Event Content) hs) = true.
Proof. induction hs as [|t hs IH]; [reflexivity|exact IH]. Qed.

Lemma runtime_calls (cls : PClass) (c : core_call (Event := Event)) (s : State) :
  is_lifecycle c = false ->
  exists l, calls (snd (run_core cls c s)) = calls s ++ l /\
            forallb to_bus_or_scheduler l = true.
Proof.
  destruct c; cbn [is_lifecycle run_core]; try discriminate; intros _.
  - unfold discard, add_scheduled_task, bind, log, modify, ret. cbn [env calls].
    destruct (add_job _ _) as [r sc]. cbn. eexists. split; reflexivity.
  - unfold discard, remove_scheduled_task, bind, log, modify, ret. cbn [env calls].
    destruct (remove_job _ _) as [r sc]. cbn. eexists. split; reflexivity.
  - unfold discard, publish_sync, bind, log, modify, ret. cbn [env calls].
    destruct (bus_publish_sync _ _) as [r sc]. cbn. eexists. split; reflexivity.
  - unfold discard, publish_async, bind, log, modify, ret. cbn [env calls].
    destruct (bus_publish_async _ _) as [r sc]. cbn. eexists. split; reflexivity.
  - unfold discard, bind. rewrite register_handler_run. cbn.
    eexists. split; reflexivity.
  - unfold discard, bind. exists [].
    destruct (decide (handler_id ∈ handlers s)) as [H|H].
    + rewrite (unregister_handler_known _ _ H). cbn. rewrite app_nil_r. auto.
    + rewrite (unregister_handler_unknown _ _ H). cbn. rewrite app_nil_r. auto.
  - rewrite unregister_handlers_run. cbn. eexists. split; [reflexivity|].
    apply collaborators_unsubscribe.
  - exists []. cbn. rewrite app_nil_r. auto.
Qed.

(** X9.  Only [__onload__] and [__unload__] deal with the store, the disk,
    the log, the console and the user hooks: every call any other method of
    the core makes goes to the event bus or to the scheduler. *)
Theorem runtime_methods_only_reach_bus_and_scheduler
    (cls : PClass) (c : core_call (Event := Event)) (s : State) :
  is_lifecycle c = false ->
  forallb to_bus_or_scheduler (new_calls (run_core cls c) s) = true.
Proof.
  intros H. destruct (runtime_calls cls c s H) as (l & Hl & Hc).
  rewrite (new_calls_app _ _ _ Hl). exact Hc.
Qed.

End Invariants.

Section Loading.
Context {Bus Sched Event Any Content : Type}.
Context {EB : EventBus Bus Event Any}.
Context {TS : TimeTaskScheduler Sched}.
Context {PS : PersistentStore Content}.
Context {L : Literals}.

Abbreviation State := (St Bus Sched Event Content).
Abbreviation World := (Env Bus Sched Content).
Abbreviation PClass := (PluginClass Bus Sched Content).
Abbreviation Plugin := (BasePlugin Content).

(** ** The load step of [__onload__] *)

(** A raw mapping is adopted by an unbound store, and the step goes on as
    for a store. *)
Lemma load_step_adopts (s : State) (m : Content) :
  data (self (env s)) = RawDict m ->
  load_step s =
    load_step (on_env (with_self
      (set_data (Store {| file_path := None; loader_data := m |}))) s).
Proof.
  destruct s as [[p f b sc] tr]. cbn [env self]. intros Hd.
  unfold load_step, try_except, load_data, bind, gets, modify, ret.
  cbn [env self fs calls fst snd on_env with_self set_data data]. rewrite Hd.
  reflexivity.
Qed.

Lemma load_step_loaded (s : State) (l : UniversalLoader Content) (c : Content) :
  data (self (env s)) = Store l ->
  load l (fs (env s)) = inr c ->
  load_step s =
    (Ok tt,
     {| env := with_self (set_data (Store {| file_path := file_path l; loader_data := c |}))
                 (env s);
        calls := calls s ++ [StoreLoad (file_path l)] |}).
Proof.
  destruct s as [[p f b sc] tr]. cbn [env self fs calls]. intros Hd Hl.
  unfold load_step, try_except, load_data, data_load, bind, gets, log, modify, raise, ret.
  cbn [env self fs calls fst snd]. rewrite Hd. cbn [env self fs calls fst snd].
  rewrite Hd. cbn [env self fs calls fst snd]. rewrite Hl. reflexivity.
Qed.

Lemma load_step_unknown (s : State) (l : UniversalLoader Content) (e : exn) :
  data (self (env s)) = Store l ->
  load l (fs (env s)) = inl e ->
  load_failure_known e = false ->
  load_step s =
    (Raise e, {| env := env s; calls := calls s ++ [StoreLoad (file_path l)] |}).
Proof.
  destruct s as [[p f b sc] tr]. cbn [env self fs calls]. intros Hd Hl He.
  unfold load_step, try_except, load_data, data_load, bind, gets, log, modify, raise, ret.
  cbn [env self fs calls fst snd]. rewrite Hd. cbn [env self fs calls fst snd].
  rewrite Hd. cbn [env self fs calls fst snd]. rewrite Hl.
  destruct e; try discriminate He; reflexivity.
Qed.

Lemma load_step_nameless (s : State) (l : UniversalLoader Content) (e : exn) :
  data (self (env s)) = Store l ->
  load l (fs (env s)) = inl e ->
  load_failure_known e = true ->
  attrs (self (env s)) !! "name" = None ->
  load_step s =
    (Raise (AttributeError "name"),
     {| env := env s; calls := calls s ++ [StoreLoad (file_path l)] |}).
Proof.
  destruct s as [[p f b sc] tr]. cbn [env self fs calls]. intros Hd Hl He Hn.
  unfold load_step, try_except, load_data, data_load, bind, gets, log, modify, raise, ret.
  cbn [env self fs calls fst snd]. rewrite Hd. cbn [env self fs calls fst snd].
  rewrite Hd. cbn [env self fs calls fst snd]. rewrite Hl.
  destruct e; try discriminate He; cbn [load_failure];
    unfold self_attr, bind, gets, lift_res, getattr;
    cbn [env self fs calls fst snd]; rewrite Hn; reflexivity.
Qed.

(** [__onload__] is its load step followed by the two hooks. *)
Lemma onload_load_step (cls : PClass) (s : State) :
  __onload__ cls s =
    match load_step s with
    | (Raise e, s1) => (Raise e, s1)
    | (Ok _, s1) =>
        let r1 := _init_ cls (env s1) in
        match fst r1 with
        | Raise e => (Raise e, {| env := snd r1; calls := calls s1 ++ [HookInit] |})
        | Ok _ =>
            let r2 := on_load cls (snd r1) in
            (fst r2, {| env := snd r2; calls := (calls s1 ++ [HookInit]) ++ [HookOnLoad] |})
        end
    end.
Proof.
  unfold __onload__, load_step. unfold bind at 1.
  destruct (try_except load_data load_failure s) as [[u|e] s1]; [|reflexivity].
  unfold bind. rewrite run_hook_run. cbn zeta.
  destruct (_init_ cls (env s1)) as [[u1|e] w1]; cbn [fst snd]; [|reflexivity].
  rewrite run_hook_run. reflexivity.
Qed.


(** The outcomes of the load step on a store: the calls it made, the store
    it left, and what it did to the disk. *)
Lemma load_step_store (s : State) (l : UniversalLoader Content) :
  data (self (env s)) = Store l ->
  exists tr l1,
    calls (snd (load_step s)) = calls s ++ tr /\
    data (self (env (snd (load_step s)))) = Store l1 /\
    file_path l1 = file_path l /\
    (is_ok (fst (load_step s)) = false -> loader_data l1 = loader_data l) /\
    ((tr = [StoreLoad (file_path l)] /\ fs (env (snd (load_step s))) = fs (env s)) \/
     exists n, attrs (self (env s)) !! "name" = Some n /\
       ((tr = [StoreLoad (file_path l); FileWrite (heal_path (self (env s)) n) "{}"] /\
         is_ok (fst (load_step s)) = false /\
         fs (env (snd (load_step s))) = fs (env s)) \/
        (tr = [StoreLoad (file_path l); FileWrite (heal_path (self (env s)) n) "{}";
               StoreLoad (file_path l)] /\
         write_file (fs (env s)) (heal_path (self (env s)) n) "{}"
           = inr (fs (env (snd (load_step s))))))).
Proof.
  intros Hd.
  destruct (load l (fs (env s))) as [e|c] eqn:Hl.
  - destruct (load_failure_known e) eqn:He.
    + destruct (attrs (self (env s)) !! "name") as [n|] eqn:Hn.
      * unfold load_step. rewrite (onload_self_heal s l e n Hd Hl He Hn). cbn zeta.
        fold (heal_path (self (env s)) n).
        destruct (write_file (fs (env s)) (heal_path (self (env s)) n) "{}")
          as [e'|f'] eqn:Hw.
        -- exists [StoreLoad (file_path l); FileWrite (heal_path (self (env s)) n) "{}"], l.
           cbn [fst snd env calls is_ok]. repeat split; auto.
           right. exists n. split; [reflexivity|]. left. auto.
        -- destruct (load l f') as [e2|c].
           ++ exists [StoreLoad (file_path l); FileWrite (heal_path (self (env s)) n) "{}";
                      StoreLoad (file_path l)], l.
              cbn [fst snd env calls is_ok with_fs self fs]. repeat split; auto.
              right. exists n. split; [reflexivity|]. right. auto.
           ++ exists [StoreLoad (file_path l); FileWrite (heal_path (self (env s)) n) "{}";
                      StoreLoad (file_path l)],
                     {| file_path := file_path l; loader_data := c |}.
              cbn [fst snd env calls is_ok with_fs with_self self fs set_data data file_path].
              repeat split; auto; [discriminate|].
              right. exists n. split; [reflexivity|]. right. auto.
      * rewrite (load_step_nameless s l e Hd Hl He Hn).
        exists [StoreLoad (file_path l)], l. cbn [fst snd env calls is_ok]. repeat split; auto.
    + rewrite (load_step_unknown s l e Hd Hl He).
      exists [StoreLoad (file_path l)], l. cbn [fst snd env calls is_ok]. repeat split; auto.
  - rewrite (load_step_loaded s l c Hd Hl).
    exists [StoreLoad (file_path l)], {| file_path := file_path l; loader_data := c |}.
    cbn [fst snd env calls is_ok with_self self fs set_data data file_path].
    repeat split; auto. discriminate.
Qed.

(** The same on whatever the data slot holds. *)
Lemma load_step_shape (s : State) :
  let p := store_path (data (self (env s))) in
  exists tr l1,
    calls (snd (load_step s)) = calls s ++ tr /\
    data (self (env (snd (load_step s)))) = Store l1 /\
    file_path l1 = p /\
    (is_ok (fst (load_step s)) = false ->
     loader_data l1 = store_content (data (self (env s)))) /\
    ((tr = [StoreLoad p] /\ fs (env (snd (load_step s))) = fs (env s)) \/
     exists n, attrs (self (env s)) !! "name" = Some n /\
       ((tr = [StoreLoad p; FileWrite (heal_path (self (env s)) n) "{}"] /\
         is_ok (fst (load_step s)) = false /\
         fs (env (snd (load_step s))) = fs (env s)) \/
        (tr = [StoreLoad p; FileWrite (heal_path (self (env s)) n) "{}"; StoreLoad p] /\
         write_file (fs (env s)) (heal_path (self (env s)) n) "{}"
           = inr (fs (env (snd (load_step s))))))).
Proof.
  cbv zeta. destruct (data (self (env s))) as [l|m] eqn:Hd.
  - exact (load_step_store s l Hd).
  - rewrite (load_step_adopts s m Hd).
    set (s' := on_env _ s).
    exact (load_step_store s' {| file_path := None; loader_data := m |} eq_refl).
Qed.


(** ** [__onload__] *)

(** X10.  For every invocation of [__onload__] the calls it makes are, in
    this order: those of the load step, which are one [load] of the store,
    or one [load], the write of the empty object to [work_path/name.json]
    and nothing more, or one [load], that write and one more [load] of
    the same store; then, only if the load step succeeded, [_init_], run in
    the world the load step left; then, only once [_init_] has returned,
    [on_load].  What [__onload__] raises is what the first failing phase
    raised. *)
Theorem onload_phases_in_order (cls : PClass) (s : State) :
  let p := store_path (data (self (env s))) in
  let loaded := load_step s in
  let init := _init_ cls (env (snd loaded)) in
  new_calls (__onload__ cls) s =
    new_calls load_step s ++
    (if is_ok (fst loaded) then
       HookInit :: (if is_ok (fst init) then [HookOnLoad] else [])
     else []) /\
  (new_calls load_step s = [StoreLoad p] \/
   exists n, attrs (self (env s)) !! "name" = Some n /\
     (new_calls load_step s = [StoreLoad p; FileWrite (heal_path (self (env s)) n) "{}"] \/
      new_calls load_step s
        = [StoreLoad p; FileWrite (heal_path (self (env s)) n) "{}"; StoreLoad p])) /\
  fst (__onload__ cls s) =
    match fst loaded with
    | Raise e => Raise e
    | Ok _ =>
        match fst init with
        | Raise e => Raise e
        | Ok _ => fst (on_load cls (snd init))
        end
    end.
Proof.
  cbv zeta.
  destruct (load_step_shape s) as (tr & l1 & Hc & _ & _ & _ & Hshape).
  rewrite (new_calls_app _ _ _ Hc).
  split; [|split].
  - apply new_calls_app. rewrite onload_load_step.
    destruct (load_step s) as [[u|e] s1]; cbn [fst snd is_ok] in *.
    + cbn zeta. destruct (_init_ cls (env s1)) as [[u1|e] w1]; cbn [fst snd is_ok calls];
        rewrite Hc, <- !app_assoc; reflexivity.
    + rewrite app_nil_r. exact Hc.
  - destruct Hshape as [[-> _]|(n & Hn & [(-> & _)|(-> & _)])]; eauto.
  - rewrite onload_load_step.
    destruct (load_step s) as [[u|e] s1]; cbn [fst snd]; [|reflexivity].
    cbn zeta. destruct (_init_ cls (env s1)) as [[u1|e] w1]; reflexivity.
Qed.

(** X11.  When the store loads at the first attempt, [__onload__] writes
    nothing: it makes that one [load] call and then runs [_init_] in a world
    whose disk is the one it started from and whose store holds the loaded
    content under the same path, and [on_load] after it. *)
Theorem onload_loads_then_runs_hooks
    (cls : PClass) (s : State) (l : UniversalLoader Content) (c : Content) :
  data (self (env s)) = Store l ->
  load l (fs (env s)) = inr c ->
  let w := with_self (set_data (Store {| file_path := file_path l; loader_data := c |}))
             (env s) in
  new_calls (__onload__ cls) s =
    StoreLoad (file_path l) :: HookInit ::
    (if is_ok (fst (_init_ cls w)) then [HookOnLoad] else []) /\
  fst (__onload__ cls s) =
    match fst (_init_ cls w) with
    | Raise e => Raise e
    | Ok _ => fst (on_load cls (snd (_init_ cls w)))
    end /\
  env (snd (__onload__ cls s)) =
    match fst (_init_ cls w) with
    | Raise _ => snd (_init_ cls w)
    | Ok _ => snd (on_load cls (snd (_init_ cls w)))
    end /\
  fs w = fs (env s).
Proof.
  intros Hd Hl. cbv zeta.
  rewrite onload_load_step, (load_step_loaded s l c Hd Hl). cbn zeta. cbn [env calls].
  split; [|split; [|split]]; [| | |reflexivity].
  - apply new_calls_app.
    rewrite onload_load_step, (load_step_loaded s l c Hd Hl). cbn zeta. cbn [env calls].
    destruct (_init_ cls _) as [[u1|e] w1]; cbn [fst snd is_ok calls];
      rewrite <- !app_assoc; reflexivity.
  - destruct (_init_ cls _) as [[u1|e] w1]; reflexivity.
  - destruct (_init_ cls _) as [[u1|e] w1]; reflexivity.
Qed.

(** X12.  The self-heal in general.  When the first [load] fails with one
    of the three failures [__onload__] expects, the empty object is written
    to [work_path/name.json], whatever file the store is bound to, and the
    same store is loaded once more.  If the write fails, its exception is
    what [__onload__] raises, and no second [load] is made; if the second
    [load] fails, its exception is what [__onload__] raises, of whatever
    class it is, and no hook runs; if it succeeds, the load step ends well
    with the loaded content in the store. *)
Theorem onload_self_heal_writes_json_and_retries_once
    (cls : PClass) (s : State) (l : UniversalLoader Content) (e : exn) (n : value) :
  data (self (env s)) = Store l ->
  load l (fs (env s)) = inl e ->
  load_failure_known e = true ->
  attrs (self (env s)) !! "name" = Some n ->
  let jp := heal_path (self (env s)) n in
  match write_file (fs (env s)) jp "{}" with
  | inl e' =>
      __onload__ cls s =
        (Raise e',
         {| env := env s;
            calls := calls s ++ [StoreLoad (file_path l); FileWrite jp "{}"] |})
  | inr f' =>
      match load l f' with
      | inl e2 =>
          __onload__ cls s =
            (Raise e2,
             {| env := with_fs f' (env s);
                calls := calls s ++ [StoreLoad (file_path l); FileWrite jp "{}";
                                     StoreLoad (file_path l)] |})
      | inr c =>
          load_step s =
            (Ok tt,
             {| env := with_self
                         (set_data (Store {| file_path := file_path l; loader_data := c |}))
                         (with_fs f' (env s));
                calls := calls s ++ [StoreLoad (file_path l); FileWrite jp "{}";
                                     StoreLoad (file_path l)] |})
      end
  end.
Proof.
  intros Hd Hl He Hn. cbv zeta.
  pose proof (onload_self_heal s l e n Hd Hl He Hn) as H. cbv zeta in H.
  change (try_except load_data load_failure s) with (load_step s) in H.
  fold (heal_path (self (env s)) n) in H.
  rewrite onload_load_step.
  destruct (write_file (fs (env s)) (heal_path (self (env s)) n) "{}") as [e'|f'].
  - rewrite H. reflexivity.
  - destruct (load l f') as [e2|c]; rewrite H; reflexivity.
Qed.

(** X13.  A failure of the first [load] that is none of the three
    [__onload__] expects goes to the caller as it is: nothing is written,
    the store is not loaded again, no hook runs, and the world is the one
    [__onload__] started in. *)
Theorem onload_unexpected_failure_propagates
    (cls : PClass) (s : State) (l : UniversalLoader Content) (e : exn) :
  data (self (env s)) = Store l ->
  load l (fs (env s)) = inl e ->
  load_failure_known e = false ->
  __onload__ cls s =
    (Raise e, {| env := env s; calls := calls s ++ [StoreLoad (file_path l)] |}).
Proof.
  intros Hd Hl He.
  rewrite onload_load_step, (load_step_unknown s l e Hd Hl He). reflexivity.
Qed.

(** X14.  Whatever the data slot held and however the load step ends, the
    slot then holds a store, bound to the file the slot was bound to before:
    a raw mapping was adopted by a store bound to no file, and the self-heal
    never binds the store to the file it wrote.  When the step failed, the
    content in memory is the one it started with; and the disk differs from
    the one it started with by at most the healed file. *)
Theorem onload_keeps_the_store_binding (s : State) :
  let before := data (self (env s)) in
  let s1 := snd (load_step s) in
  exists l1,
    data (self (env s1)) = Store l1 /\
    file_path l1 = store_path before /\
    (is_ok (fst (load_step s)) = false -> loader_data l1 = store_content before) /\
    (fs (env s1) = fs (env s) \/
     exists n, attrs (self (env s)) !! "name" = Some n /\
               write_file (fs (env s)) (heal_path (self (env s)) n) "{}"
                 = inr (fs (env s1))).
Proof.
  cbv zeta.
  destruct (load_step_shape s) as (tr & l1 & _ & Hd & Hp & Hc & Hshape).
  exists l1. repeat split; auto.
  destruct Hshape as [[_ Hf]|(n & Hn & [(_ & _ & Hf)|(_ & Hw)])]; eauto.
Qed.

End Loading.

Section Unloading.
Context {Bus Sched Event Any Content : Type}.
Context {EB : EventBus Bus Event Any}.
Context {TS : TimeTaskScheduler Sched}.
Context {PS : PersistentStore Content}.
Context {L : Literals}.

Abbreviation State := (St Bus Sched Event Content).
Abbreviation World := (Env Bus Sched Content).
Abbreviation PClass := (PluginClass Bus Sched Content).
Abbreviation Plugin := (BasePlugin Content).

(** ** [__unload__]: the save step *)

(** X15.  When both close hooks have returned, debug mode is off and the
    [save] of the store succeeds, [__unload__] returns; it called [save]
    once, on the content the hooks left in memory, and the disk is the one
    [save] left.  Nothing else of the world changed after the hooks. *)
Theorem unload_saves_once_hooks_returned
    (cls : PClass) (arg : Args) (kwd : Kwargs) (s s3 : State)
    (l : UniversalLoader Content) (f' : FS) :
  teardown cls arg kwd s = (Ok tt, s3) ->
  _debug (self (env s3)) = false ->
  data (self (env s3)) = Store l ->
  save l (fs (env s3)) = (Ok tt, f') ->
  __unload__ cls arg kwd s =
    (Ok tt,
     {| env := with_fs f' (env s3);
        calls := calls s3 ++ [StoreSave (file_path l) (loader_data l)] |}).
Proof.
  intros Ht Hd Hl Hs.
  rewrite unload_teardown, Ht, (persistence_save _ _ Hd Hl), Hs. reflexivity.
Qed.

(** X16.  The [except] clause of [__unload__] lists three classes.  A
    failure of [save] of any other class is not wrapped into a
    [RuntimeError]: it reaches the caller as it is, after the one [save]
    call. *)
Theorem unload_unlisted_save_failure_propagates
    (cls : PClass) (arg : Args) (kwd : Kwargs) (s s3 : State)
    (l : UniversalLoader Content) (e : exn) (f' : FS) :
  teardown cls arg kwd s = (Ok tt, s3) ->
  _debug (self (env s3)) = false ->
  data (self (env s3)) = Store l ->
  save l (fs (env s3)) = (Raise e, f') ->
  save_failure_text e = None ->
  __unload__ cls arg kwd s =
    (Raise e,
     {| env := with_fs f' (env s3);
        calls := calls s3 ++ [StoreSave (file_path l) (loader_data l)] |}).
Proof.
  intros Ht Hd Hl Hs He.
  rewrite unload_teardown, Ht, (persistence_save _ _ Hd Hl), Hs, He. reflexivity.
Qed.

Lemma persistence_raw (s : State) (m : Content) :
  data (self (env s)) = RawDict m ->
  persistence s =
    if _debug (self (env s)) then
      match attrs (self (env s)) !! "name" with
      | Some _ =>
          (Raise (AttributeError "data"),
           {| env := env s; calls := calls s ++ persist_calls (env s) |})
      | None =>
          (Raise (AttributeError "name"),
           {| env := env s; calls := calls s ++ persist_calls (env s) |})
      end
    else (Raise (AttributeError "save"), s).
Proof.
  destruct s as [[p f b sc] tr]. cbn [env self calls]. intros Hd.
  unfold persistence, try_except, persist, persist_calls, debug, bind, gets.
  cbn [env self snd fst calls].
  destruct (_debug p).
  - unfold self_attr, data_data, log, modify, bind, gets, lift_res, getattr.
    cbn [env self snd fst calls].
    destruct (attrs p !! "name") as [n|]; [rewrite Hd|]; reflexivity.
  - unfold data_save, bind, gets. cbn [env self snd fst calls]. rewrite Hd. reflexivity.
Qed.

(** X17.  [__onload__] adopts a raw mapping found in the data slot;
    [__unload__] does not.  When the hooks leave a raw mapping there,
    [__unload__] raises [AttributeError], which the [except] clause does
    not list: for [save] when debug mode is off, and no call is made; for
    [data] when it is on, after the warning.  Neither way is anything
    saved or written. *)
Theorem unload_does_not_adopt_raw_mapping
    (cls : PClass) (arg : Args) (kwd : Kwargs) (s s3 : State) (m : Content) :
  teardown cls arg kwd s = (Ok tt, s3) ->
  data (self (env s3)) = RawDict m ->
  (_debug (self (env s3)) = false ->
   __unload__ cls arg kwd s = (Raise (AttributeError "save"), s3)) /\
  (_debug (self (env s3)) = true ->
   is_Some (attrs (self (env s3)) !! "name") ->
   fst (__unload__ cls arg kwd s) = Raise (AttributeError "data") /\
   exists warning, calls (snd (__unload__ cls arg kwd s)) = calls s3 ++ [LogWarning warning]) /\
  fs (env (snd (__unload__ cls arg kwd s))) = fs (env s3) /\
  List.filter is_write (drop (length (calls s3)) (calls (snd (__unload__ cls arg kwd s)))) = [].
Proof.
  intros Ht Hd.
  rewrite unload_teardown, Ht, (persistence_raw _ _ Hd).
  unfold persist_calls. rewrite Hd.
  split; [|split; [|split]].
  - intros ->. reflexivity.
  - intros -> [n ->]. cbn [fst snd calls]. eauto.
  - destruct (_debug (self (env s3)));
      [destruct (attrs (self (env s3)) !! "name")|]; reflexivity.
  - destruct (_debug (self (env s3)));
      [destruct (attrs (self (env s3)) !! "name")|]; cbn [snd calls];
      rewrite ?drop_app_length; try reflexivity.
    rewrite drop_ge by lia. reflexivity.
Qed.

(** ** Hooks that are not overridden *)

(** X18.  For a class that overrides none of the four hooks, [__onload__]
    is the load step, and [__unload__] is the revocation of the handlers
    followed by the persistence step: the hooks of [BasePlugin] are called
    and do nothing. *)
Theorem default_hooks_do_nothing
    (cls : PClass) (arg : Args) (kwd : Kwargs) (s : State) :
  _init_ cls = pass -> on_load cls = pass ->
  _close_ cls = (fun _ _ => pass) -> on_close cls = (fun _ _ => pass) ->
  __onload__ cls s =
    match load_step s with
    | (Ok _, s1) => (Ok tt, {| env := env s1; calls := calls s1 ++ [HookInit; HookOnLoad] |})
    | (Raise e, s1) => (Raise e, s1)
    end /\
  __unload__ cls arg kwd s =
    persistence
      {| env := env (revoked s);
         calls := calls (revoked s) ++ [HookClose arg kwd; HookOnClose arg kwd] |}.
Proof.
  intros Hi Hl Hc Ho. split.
  - rewrite onload_load_step, Hi, Hl.
    destruct (load_step s) as [[u|e] s1]; [|reflexivity].
    cbn. rewrite <- app_assoc. reflexivity.
  - rewrite unload_teardown, teardown_run, Hc, Ho. cbn.
    rewrite <- !app_assoc. reflexivity.
Qed.

(** ** A plugin that is unloaded without having been loaded *)

(** X19.  The store construction binds to the data file holds the content
    of a new store, and nothing is read before [__onload__].  So when an
    instance that was constructed with debug mode off is unloaded without
    having been loaded, and its close hooks return and leave it alone,
    [__unload__] calls no [unsubscribe], runs the two hooks and saves that
    initial content to the data file, whatever the file held. *)
Theorem unload_without_onload_saves_initial_content
    (cls : PClass) (kwd : Kwargs) (f f' : FS) (p : Plugin)
    (b : Bus) (sc : Sched) (arg : Args) (kw : Kwargs) :
  __init__ cls false kwd f = (Ok p, f') ->
  (forall a k, quiet (_close_ cls a k)) ->
  (forall a k, quiet (on_close cls a k)) ->
  new_calls (__unload__ cls arg kw) (installed (Event := Event) p f' b sc) =
    [HookClose arg kw; HookOnClose arg kw; StoreSave (Some (_data_path p)) new_content].
Proof.
  intros H Hc Ho.
  destruct (init_ok_inv _ _ _ _ _ _ H) as (_ & _ & _ & Hdbg & Hh & Hdata & _).
  apply new_calls_app. rewrite unload_calls.
  set (s := installed p f' b sc).
  assert (Hs : handlers s = []) by exact Hh.
  rewrite Hs. cbn [map app].
  destruct (Hc arg kw (env (revoked s))) as [Hr1 Hp1].
  rewrite Hr1. cbn [is_ok].
  destruct (Ho arg kw (snd (_close_ cls arg kw (env (revoked s))))) as [Hr2 Hp2].
  rewrite Hr2. cbn [is_ok].
  unfold persist_calls. rewrite Hp2, Hp1.
  change (self (env (revoked s))) with p. rewrite Hdbg, Hdata. reflexivity.
Qed.

End Unloading.

Section Sessions.
Context {Bus Sched Event Any Content : Type}.
Context {EB : EventBus Bus Event Any}.
Context {TS : TimeTaskScheduler Sched}.
Context {PS : PersistentStore Content}.
Context {L : Literals}.

Abbreviation State := (St Bus Sched Event Content).
Abbreviation World := (Env Bus Sched Content).
Abbreviation PClass := (PluginClass Bus Sched Content).
Abbreviation Plugin := (BasePlugin Content).

(** ** From one session to the next *)

Lemma is_dir_exists (f : FS) (p : Path) : is_dir f p = true -> path_exists f p = true.
Proof.
  unfold is_dir, path_exists. destruct (lookup_node f p) as [[|t]|]; auto; discriminate.
Qed.

(** X20.  What construction resolves depends on the class and on the
    keyword arguments only, not on the disk and not on the debug flag.  Once
    a class was constructed, constructing it again with the same keyword
    arguments on any disk where its work directory is a directory succeeds
    and leaves that disk alone; the new instance has the attributes, the
    work directory and the data file of the first, so its store is bound to
    the file the store of the first was bound to, and it is a first load
    exactly when that file is missing. *)
Theorem next_session_resolves_same_paths
    (cls : PClass) (debug debug' : bool) (kwd : Kwargs) (f f' g : FS) (p : Plugin) :
  __init__ cls debug kwd f = (Ok p, f') ->
  is_dir g (_work_path p) = true ->
  exists p',
    __init__ cls debug' kwd g = (Ok p', g) /\
    attrs p' = attrs p /\
    self_path p' = self_path p /\
    _work_path p' = _work_path p /\
    _data_path p' = _data_path p /\
    data p' = data p /\
    _debug p' = debug' /\
    first_load p' = negb (path_exists g (_data_path p)).
Proof.
  intros H Hdir.
  destruct (init_ok_steps _ _ _ _ _ _ H)
    as (n & v & st & d & rel & rel' & Hn & Hnt & Hv & Hvt & Hst & Hd & Hr & Hr' & Ha & _ & Hs & Hw & _).
  destruct (init_ok_inv _ _ _ _ _ _ H) as (_ & _ & _ & _ & _ & Hdata & n1 & st1 & Hn1 & Hst1 & Hdp).
  assert (Hwo : work_path_of cls = Some (_work_path p)).
  { unfold work_path_of. rewrite Hr, Hr', Hw. reflexivity. }
  assert (Hdn : declares cls "name" = true) by (unfold declares; rewrite Hn; exact Hnt).
  assert (Hdv : declares cls "version" = true) by (unfold declares; rewrite Hv; exact Hvt).
  assert (Hdd : is_Some (setattrs (cls_attrs cls ∪ BasePlugin_attrs) kwd !! "dependencies"))
    by (rewrite setattrs_given, Hd; eauto).
  pose proof (init_valid cls debug' kwd g (_work_path p) Hdn Hdv Hdd Hwo) as Hv2.
  assert (Hlk : lookup_node g (_work_path p) = Some Dir).
  { unfold is_dir in Hdir. destruct (lookup_node g (_work_path p)) as [[|t]|];
      [reflexivity|discriminate|discriminate]. }
  rewrite Hlk in Hv2. destruct Hv2 as (p' & H' & Hw').
  exists p'. split; [exact H'|].
  destruct (init_ok_steps _ _ _ _ _ _ H')
    as (n' & v' & st' & d' & rl & rl' & _ & _ & _ & _ & Hst' & Hd' & Hrl & _ & Ha' & _ & Hs' & _).
  destruct (init_ok_inv _ _ _ _ _ _ H')
    as (Hfl & _ & _ & Hdbg & _ & Hdata' & n2 & st2 & Hn2 & Hst2 & Hdp').
  rewrite Hst in Hst'. injection Hst' as <-. rewrite Hd in Hd'. injection Hd' as <-.
  rewrite Hr in Hrl. injection Hrl as <-.
  assert (Hattrs : attrs p' = attrs p) by (rewrite Ha, Ha'; reflexivity).
  assert (Hpath : _data_path p' = _data_path p).
  { rewrite Hattrs in Hn2, Hst2. rewrite Hn1 in Hn2. rewrite Hst1 in Hst2.
    injection Hn2 as <-. injection Hst2 as <-. rewrite Hdp, Hdp', Hw'. reflexivity. }
  repeat split; auto.
  - congruence.
  - rewrite Hdata, Hdata', Hpath. reflexivity.
  - rewrite Hfl, Hpath, Hw', (is_dir_exists _ _ Hdir). reflexivity.
Qed.

End Sessions.

Section Teardown.
Context {Bus Sched Event Any Content : Type}.
Context {EB : EventBus Bus Event Any}.
Context {TS : TimeTaskScheduler Sched}.
Context {PS : PersistentStore Content}.
Context {L : Literals}.

Abbreviation State := (St Bus Sched Event Content).
Abbreviation World := (Env Bus Sched Content).
Abbreviation PClass := (PluginClass Bus Sched Content).
Abbreviation Plugin := (BasePlugin Content).

(** ** [__unload__], from the first step to the last *)

(** [__unload__] in full: the result and the state it leaves. *)
Lemma unload_run (cls : PClass) (arg : Args) (kwd : Kwargs) (s : State) :
  __unload__ cls arg kwd s =
    let close := _close_ cls arg kwd (env (revoked s)) in
    let closed := on_close cls arg kwd (snd close) in
    match fst close with
    | Raise e =>
        (Raise e, {| env := snd close; calls := calls (revoked s) ++ [HookClose arg kwd] |})
    | Ok _ =>
        match fst closed with
        | Raise e =>
            (Raise e,
             {| env := snd closed;
                calls := calls (revoked s) ++ [HookClose arg kwd; HookOnClose arg kwd] |})
        | Ok _ =>
            persistence
              {| env := snd closed;
                 calls := calls (revoked s) ++ [HookClose arg kwd; HookOnClose arg kwd] |}
        end
    end.
Proof.
  rewrite unload_teardown, teardown_run. cbv zeta.
  destruct (_close_ cls arg kwd (env (revoked s))) as [[u|e] w2]; cbn [fst snd];
    [|reflexivity].
  destruct (on_close cls arg kwd w2) as [[u'|e] w3]; cbn [fst snd];
    rewrite <- app_assoc; reflexivity.
Qed.

Lemma unload_left (cls : PClass) (arg : Args) (kwd : Kwargs) (s : State) :
  self (env (snd (__unload__ cls arg kwd s))) = self (hooks_left cls arg kwd s) /\
  event_bus (env (snd (__unload__ cls arg kwd s))) = event_bus (hooks_left cls arg kwd s).
Proof.
  rewrite unload_run. unfold hooks_left. cbv zeta.
  destruct (_close_ cls arg kwd (env (revoked s))) as [[u|e] w2]; cbn [fst snd is_ok];
    [|auto].
  destruct (on_close cls arg kwd w2) as [[u'|e] w3]; cbn [fst snd is_ok]; [|auto].
  match goal with |- context [persistence ?x] =>
    destruct (persistence_frame x) as (Hs & Hb & _) end.
  cbn [env] in *. auto.
Qed.

Lemma persistence_debug_run (s : State) (n : value) (l : UniversalLoader Content) :
  _debug (self (env s)) = true ->
  attrs (self (env s)) !! "name" = Some n ->
  data (self (env s)) = Store l ->
  persistence s =
    (Ok tt,
     {| env := env s;
        calls := calls s ++
          [LogWarning (Color_YELLOW +:+ "debug模式" +:+ Color_RED +:+ "取消"
                       +:+ Color_RESET +:+ "退出时的保存行为");
           ConsolePrint (Color_GRAY +:+ py_str n +:+ String "010"%char EmptyString
                +:+ join (String "010"%char EmptyString) (visualize_tree (loader_data l))
                +:+ String "010"%char EmptyString)] |}).
Proof.
  destruct s as [[p f b sc] tr]. cbn [env self calls]. intros Hd Hn Hl.
  unfold persistence, try_except, persist, debug, bind, gets.
  cbn [env self snd fst calls]. rewrite Hd.
  unfold self_attr, data_data, log, modify, bind, gets, lift_res, getattr, ret.
  cbn [env self snd fst calls]. rewrite Hn, Hl. cbn [env self snd fst calls].
  rewrite <- app_assoc. reflexivity.
Qed.




End Teardown.

Section DataFileOfTheStore.
Context {Bus Sched Event Any Content : Type}.
Context {EB : EventBus Bus Event Any}.
Context {TS : TimeTaskScheduler Sched}.
Context {PS : PersistentStore Content}.
Context {L : Literals}.

Abbreviation State := (St Bus Sched Event Content).
Abbreviation World := (Env Bus Sched Content).
Abbreviation PClass := (PluginClass Bus Sched Content).
Abbreviation Plugin := (BasePlugin Content).

(** ** The store stays on the data file *)

Lemma init_store_on_data_file
    (cls : PClass) (debug : bool) (kwd : Kwargs) (f f' : FS) (p : Plugin) :
  __init__ cls debug kwd f = (Ok p, f') -> store_on_data_file p.
Proof.
  intros H. destruct (init_ok_inv _ _ _ _ _ _ H) as (_ & _ & _ & _ & _ & Hdata & _).
  eexists. split; [exact Hdata|reflexivity].
Qed.

Lemma load_step_data_path (s : State) :
  _data_path (self (env (snd (load_step s)))) = _data_path (self (env s)).
Proof.
  pose (R := fun p q : Plugin => _data_path q = _data_path p).
  assert (Ht : forall p q r : Plugin, R p q -> R q r -> R p r)
    by (unfold R; intros; congruence).
  assert (Hd : forall (p : Plugin) (d : data_slot Content), R p (set_data d p))
    by (intros; reflexivity).
  assert (Hr : forall p : Plugin, R p p) by (intros; reflexivity).
  apply (stable_try_except R Ht (load_data (Event := Event)) load_failure).
  - apply stable_load_data; assumption.
  - intros e k. apply stable_load_failure; assumption.
Qed.

Lemma load_step_keeps_store (s : State) :
  store_on_data_file (self (env s)) -> store_on_data_file (self (env (snd (load_step s)))).
Proof.
  intros (l & Hl & Hp).
  destruct (load_step_shape s) as (tr & l1 & _ & Hd & Hf & _). cbv zeta in Hf.
  exists l1. split; [exact Hd|].
  rewrite Hf, Hl, load_step_data_path. exact Hp.
Qed.

Lemma runtime_self (cls : PClass) (c : core_call (Event := Event)) (s : State) :
  is_lifecycle c = false ->
  data (self (env (snd (run_core cls c s)))) = data (self (env s)) /\
  _data_path (self (env (snd (run_core cls c s)))) = _data_path (self (env s)).
Proof.
  destruct c; cbn [is_lifecycle run_core]; try discriminate; intros _.
  - unfold discard, add_scheduled_task, bind, log, modify, ret. cbn [env calls].
    destruct (add_job _ _) as [r sc]. cbn. auto.
  - unfold discard, remove_scheduled_task, bind, log, modify, ret. cbn [env calls].
    destruct (remove_job _ _) as [r sc]. cbn. auto.
  - unfold discard, publish_sync, bind, log, modify, ret. cbn [env calls].
    destruct (bus_publish_sync _ _) as [r sc]. cbn. auto.
  - unfold discard, publish_async, bind, log, modify, ret. cbn [env calls].
    destruct (bus_publish_async _ _) as [r sc]. cbn. auto.
  - unfold discard, bind. rewrite register_handler_run. cbn. auto.
  - unfold discard, bind.
    destruct (decide (handler_id ∈ handlers s)) as [H|H].
    + rewrite (unregister_handler_known _ _ H). cbn. auto.
    + rewrite (unregister_handler_unknown _ _ H). cbn. auto.
  - rewrite unregister_handlers_run. cbn. auto.
  - cbn. auto.
Qed.

Lemma run_core_keeps_store (cls : PClass) (c : core_call (Event := Event)) (s : State) :
  hooks_satisfy keeps_store cls ->
  store_on_data_file (self (env s)) ->
  store_on_data_file (self (env (snd (run_core cls c s)))).
Proof.
  intros (Hi & Hl & Hc & Ho) Hs.
  destruct (is_lifecycle c) eqn:Hlc.
  - destruct c; try discriminate Hlc; cbn [run_core].
    + rewrite onload_load_step.
      pose proof (load_step_keeps_store s Hs) as H1.
      destruct (load_step s) as [[u|e] s1]; cbn [snd] in *; [|exact H1].
      cbv zeta. pose proof (Hi (env s1) H1) as H2.
      destruct (_init_ cls (env s1)) as [[u1|e] w1]; cbn [fst snd env] in *; [|exact H2].
      apply Hl. exact H2.
    + destruct (unload_left cls arg kwd s) as [-> _]. unfold hooks_left. cbv zeta.
      pose proof (Hc arg kwd (env (revoked s)) Hs) as H1.
      destruct (is_ok _); [apply Ho|]; exact H1.
  - destruct (runtime_self cls c s Hlc) as [Hd Hp].
    destruct Hs as (l & Hl' & Hp'). exists l. rewrite Hd, Hp. auto.
Qed.

(** C6, as amended.  Construction leaves in [self.data] a store bound to
    the data file, and every method of the core leaves it there (the user
    hooks being asked to).  Let [s3] be the state in which revocation and
    the two close hooks leave such a plugin, and [r] their outcome.  With the
    debug flag set, [__unload__] calls neither [save] nor any file write and
    leaves the disk as the hooks left it; if the hooks returned, it returns,
    having logged the warning and printed the name of the plugin followed by
    the lines [visualize_tree] gives for the content in memory, and the world
    is the one the hooks left.  With the debug flag unset and the hooks
    returned, it calls [save] once, on the store bound to the data file and
    on the content in memory at that moment, and the disk is the one [save]
    left.  If a hook raised, [__unload__] stops there with that exception,
    and nothing is saved, logged or printed in either mode. *)
Theorem unload_saves_to_data_file_unless_debug (cls : PClass) :
  (forall debug kwd f p f',
      __init__ cls debug kwd f = (Ok p, f') -> store_on_data_file p) /\
  (hooks_satisfy keeps_store cls ->
   forall (c : core_call (Event := Event)) (s : State),
     store_on_data_file (self (env s)) ->
     store_on_data_file (self (env (snd (run_core cls c s))))) /\
  (forall arg kwd (s s3 : State) (r : res unit) (l : UniversalLoader Content),
     teardown cls arg kwd s = (r, s3) ->
     data (self (env s3)) = Store l ->
     file_path l = Some (_data_path (self (env s3))) ->
     (_debug (self (env s3)) = true ->
        List.filter is_write (new_calls (__unload__ cls arg kwd) s) = [] /\
        fs (env (snd (__unload__ cls arg kwd s))) = fs (env s3) /\
        (r = Ok tt ->
         forall n, attrs (self (env s3)) !! "name" = Some n ->
           __unload__ cls arg kwd s =
             (Ok tt,
              {| env := env s3;
                 calls := calls s3 ++
                   [LogWarning (Color_YELLOW +:+ "debug模式" +:+ Color_RED +:+ "取消"
                                +:+ Color_RESET +:+ "退出时的保存行为");
                    ConsolePrint
                      (Color_GRAY +:+ py_str n +:+ String "010"%char EmptyString
                       +:+ join (String "010"%char EmptyString)
                             (visualize_tree (loader_data l))
                       +:+ String "010"%char EmptyString)] |}))) /\
     (_debug (self (env s3)) = false ->
      r = Ok tt ->
        calls (snd (__unload__ cls arg kwd s))
          = calls s3 ++ [StoreSave (Some (_data_path (self (env s3)))) (loader_data l)] /\
        env (snd (__unload__ cls arg kwd s))
          = with_fs (snd (save l (fs (env s3)))) (env s3) /\
        (is_ok (fst (__unload__ cls arg kwd s)) = is_ok (fst (save l (fs (env s3)))))) /\
     (forall e, r = Raise e ->
        __unload__ cls arg kwd s = (Raise e, s3) /\
        List.filter is_write (new_calls (__unload__ cls arg kwd) s) = [] /\
        drop (length (calls s)) (calls s3)
          = map BusUnsubscribe (handlers s) ++
            HookClose arg kwd ::
            (if is_ok (fst (_close_ cls arg kwd (env (revoked s))))
             then [HookOnClose arg kwd] else []))).
Proof.
  split; [intros debug kwd f p f'; apply init_store_on_data_file|].
  split; [intros Hh c s; apply run_core_keeps_store; exact Hh|].
  intros arg kwd s s3 r l Ht Hl Hp.
  assert (Hpre : exists pre, calls s3 = calls s ++ pre /\ List.filter is_write pre = [] /\
            (forall e, r = Raise e ->
               pre = map BusUnsubscribe (handlers s) ++
                     HookClose arg kwd ::
                     (if is_ok (fst (_close_ cls arg kwd (env (revoked s))))
                      then [HookOnClose arg kwd] else []))).
  { rewrite teardown_run in Ht. cbn zeta in Ht.
    destruct (_close_ cls arg kwd (env (revoked s))) as [[u|e] w2]; cbn [fst snd is_ok] in *.
    - injection Ht as Hr <-. cbn [calls revoked]. eexists. rewrite <- !app_assoc.
      split; [reflexivity|]. split; [|reflexivity].
      rewrite List.filter_app, no_write_unsubscribes. reflexivity.
    - injection Ht as Hr <-. cbn [calls revoked]. eexists. rewrite <- !app_assoc.
      split; [reflexivity|]. split; [|reflexivity].
      rewrite List.filter_app, no_write_unsubscribes. reflexivity. }
  destruct Hpre as (pre & Hpre & Hnw & Hshape).
  assert (Hun : __unload__ cls arg kwd s =
                match r with Ok _ => persistence s3 | Raise e => (Raise e, s3) end).
  { rewrite unload_teardown, Ht. reflexivity. }
  assert (Hc : calls (snd (__unload__ cls arg kwd s)) =
               calls s ++ (pre ++ match r with
                                  | Ok _ => persist_calls (env s3)
                                  | Raise _ => []
                                  end)).
  { rewrite Hun. destruct r as [u|e]; cbn [snd].
    - rewrite persistence_calls, Hpre, <- app_assoc. reflexivity.
    - rewrite app_nil_r. exact Hpre. }
  apply new_calls_app in Hc.
  split; [|split].
  - intros Hd. split; [|split].
    + rewrite Hc, List.filter_app, Hnw. destruct r; [|reflexivity].
      apply persist_calls_debug_no_write. exact Hd.
    + rewrite Hun. destruct r; [apply persistence_debug; exact Hd|reflexivity].
    + intros -> n Hn. rewrite Hun. apply persistence_debug_run; assumption.
  - intros Hd ->. rewrite Hun, (persistence_save _ _ Hd Hl), Hp.
    destruct (save l (fs (env s3))) as [[u|e] f']; cbn [fst snd env calls is_ok];
      [auto|].
    repeat split.
    destruct (save_failure_text e); [destruct (attrs (self (env s3)) !! "name")|];
      reflexivity.
  - intros e ->. split; [exact Hun|]. split.
    + rewrite Hc, app_nil_r. exact Hnw.
    + rewrite Hpre, drop_app_length. apply (Hshape e). reflexivity.
Qed.

End DataFileOfTheStore.

Section FirstLoad.
Context {Bus Sched Event Any Content : Type}.
Context {EB : EventBus Bus Event Any}.
Context {TS : TimeTaskScheduler Sched}.
Context {PS : PersistentStore Content}.
Context {L : Literals}.

Abbreviation State := (St Bus Sched Event Content).
Abbreviation World := (Env Bus Sched Content).
Abbreviation PClass := (PluginClass Bus Sched Content).
Abbreviation Plugin := (BasePlugin Content).

(** ** The first-load flag *)

(** The paths of a constructed instance are those of its class and keyword
    arguments. *)
Lemma init_paths_of_class
    (cls : PClass) (debug : bool) (kwd : Kwargs) (f f' : FS) (p : Plugin) :
  __init__ cls debug kwd f = (Ok p, f') ->
  work_path_of cls = Some (_work_path p) /\
  data_file_of cls kwd = Some (_data_path p).
Proof.
  intros H.
  destruct (init_ok_steps _ _ _ _ _ _ H)
    as (n & v & st & d & rel & rel' & _ & _ & _ & _ & Hst & Hd & Hr & Hr' & Ha & _ & _ & Hw & _).
  destruct (init_ok_inv _ _ _ _ _ _ H) as (_ & _ & _ & _ & _ & _ & n' & st' & Hn' & Hst' & Hdp).
  destruct (init_save_type _ _ _ _ _ _ H) as (st0 & Hst0 & Hsave).
  assert (Hwo : work_path_of cls = Some (_work_path p)).
  { unfold work_path_of. rewrite Hr, Hr', Hw. reflexivity. }
  split; [exact Hwo|].
  assert (Hname : given cls kwd "name" = Some n').
  { rewrite <- Hn', Ha. cbv zeta.
    destruct (truthy d), (truthy st); cbn [negb];
      rewrite ?lookup_insert_ne by discriminate; symmetry; apply setattrs_given. }
  unfold data_file_of. rewrite Hwo, Hname, Hst0.
  rewrite Hsave in Hst'. injection Hst' as <-. rewrite Hdp. reflexivity.
Qed.

Lemma run_calls_first_load (cls : PClass) (cs : list (core_call (Event := Event)))
    (s : State) :
  hooks_satisfy (stable_hook same_first_load) cls ->
  first_load (self (env (run_calls cls cs s))) = first_load (self (env s)).
Proof.
  intros Hh. revert s. induction cs as [|c cs IH]; intros s; [reflexivity|].
  change (run_calls cls (c :: cs) s) with (run_calls cls cs (snd (run_core cls c s))).
  rewrite IH.
  apply (stable_run_core same_first_load); unfold same_first_load;
    [ reflexivity | congruence | reflexivity | reflexivity | exact Hh ].
Qed.

(** C8.  Let [wp] be the work directory and [dp] the data file that the
    class and the keyword arguments determine.  After a construction that
    succeeded, these are the paths of the instance, and [first_load] is true
    exactly when, on the disk construction started from, [wp] did not exist
    or [dp] did not exist, and false exactly when both existed.  Both cases
    arise: for a class with a valid identity and readable dependencies,
    construction on a disk where [wp] is a directory succeeds with
    [first_load] false if [dp] exists and true if not, and construction on a
    disk without [wp], when the directory can be made, succeeds with
    [first_load] true.  No method of the core assigns the flag afterwards:
    over any sequence of calls of its methods, in any state, [first_load] is
    what it was (the user hooks being asked to leave it alone). *)
Theorem first_load_tells_missing_directory_or_file (cls : PClass) :
  (forall debug kwd f p f',
      __init__ (PS := PS) cls debug kwd f = (Ok p, f') ->
      exists wp dp,
        work_path_of cls = Some wp /\ data_file_of cls kwd = Some dp /\
        _work_path p = wp /\ _data_path p = dp /\
        (first_load p = true <-> path_exists f wp = false \/ path_exists f dp = false) /\
        (first_load p = false <-> path_exists f wp = true /\ path_exists f dp = true)) /\
  (forall debug kwd f wp dp,
      declares cls "name" = true -> declares cls "version" = true ->
      is_Some (given cls kwd "dependencies") ->
      work_path_of cls = Some wp -> data_file_of cls kwd = Some dp ->
      (is_dir f wp = true ->
       exists p, __init__ (PS := PS) cls debug kwd f = (Ok p, f) /\
                 first_load p = negb (path_exists f dp)) /\
      (path_exists f wp = false ->
       forall f1, mkdir_parents f wp = inr f1 ->
         exists p, __init__ (PS := PS) cls debug kwd f = (Ok p, f1) /\
                   first_load p = true)) /\
  (hooks_satisfy (stable_hook same_first_load) cls ->
   forall (cs : list (core_call (Event := Event))) (s : State),
     first_load (self (env (run_calls cls cs s))) = first_load (self (env s))).
Proof.
  split; [|split].
  - intros debug kwd f p f' H.
    destruct (init_paths_of_class _ _ _ _ _ _ H) as [Hw Hd].
    destruct (init_ok_inv _ _ _ _ _ _ H) as (Hfl & _).
    exists (_work_path p), (_data_path p).
    split; [exact Hw|]. split; [exact Hd|]. split; [reflexivity|]. split; [reflexivity|].
    rewrite Hfl.
    destruct (path_exists f (_work_path p)), (path_exists f (_data_path p)); cbn;
      intuition congruence.
  - intros debug kwd f wp dp Hn Hv Hd Hw Hdp.
    assert (Hd' : is_Some (setattrs (cls_attrs cls ∪ BasePlugin_attrs) kwd !! "dependencies"))
      by (rewrite setattrs_given; exact Hd).
    pose proof (init_valid cls debug kwd f wp Hn Hv Hd' Hw) as Hv2.
    split.
    + intros Hdir.
      assert (Hlk : lookup_node f wp = Some Dir).
      { unfold is_dir in Hdir. destruct (lookup_node f wp) as [[|t]|];
          [reflexivity|discriminate|discriminate]. }
      rewrite Hlk in Hv2. destruct Hv2 as (p & H & Hwp).
      exists p. split; [exact H|].
      destruct (init_paths_of_class _ _ _ _ _ _ H) as [_ Hd2].
      rewrite Hdp in Hd2. injection Hd2 as ->.
      destruct (init_ok_inv _ _ _ _ _ _ H) as (Hfl & _).
      rewrite Hfl, Hwp. unfold path_exists at 1. rewrite Hlk. reflexivity.
    + intros Hne f1 Hm.
      assert (Hlk : lookup_node f wp = None).
      { unfold path_exists in Hne. destruct (lookup_node f wp); [discriminate|reflexivity]. }
      rewrite Hlk, Hm in Hv2. destruct Hv2 as (p & H & Hwp & _).
      exists p. split; [exact H|].
      destruct (init_ok_inv _ _ _ _ _ _ H) as (Hfl & _).
      rewrite Hfl, Hwp, Hne. reflexivity.
  - intros Hh cs s. apply run_calls_first_load. exact Hh.
Qed.

End FirstLoad.

(** * The properties on the reference installation *)

Import Reference.

Lemma pair_of_fst {A B} (x : A * B) (a : A) : fst x = a -> x = (a, snd x).
Proof. intros <-. apply surjective_pairing. Qed.

(** ** The reference collaborators keep their contracts *)

Lemma the_bus_revokes (b : bus) (t : UUID) :
  bus_subscribed (bus_unsubscribe t b) t = false.
Proof.
  unfold bus_subscribed, bus_unsubscribe. cbn [entries].
  induction (entries b) as [|en l IH]; [reflexivity|].
  cbn [List.filter]. destruct (N.eqb (fst en) t) eqn:E; cbn [negb existsb]; [exact IH|].
  rewrite E. exact IH.
Qed.

Lemma the_bus_frame (b : bus) (t t' : UUID) :
  bus_subscribed (bus_unsubscribe t b) t' = true -> bus_subscribed b t' = true.
Proof.
  unfold bus_subscribed, bus_unsubscribe. cbn [entries].
  induction (entries b) as [|en l IH]; [auto|].
  cbn [List.filter]. destruct (N.eqb (fst en) t); cbn [negb existsb].
  - intros H. rewrite (IH H). apply orb_true_r.
  - destruct (N.eqb (fst en) t'); cbn [orb]; auto.
Qed.

#[export] Instance the_bus_contract : EventBusContract the_bus.
Proof. split; [exact the_bus_revokes|exact the_bus_frame]. Qed.

#[export] Instance the_store_contract : PersistentStoreContract the_store.
Proof.
  split. intros l f f' e. cbn. unfold store_save.
  destruct (file_path l) as [p|].
  - destruct (write_file f p (loader_data l)); intros H; inversion H. cbn. eauto.
  - intros H; inversion H. cbn. eauto.
Qed.

Lemma pass_keeps_revoked (t : UUID) : keeps_revoked (@pass bus (list string) string) t.
Proof. intros w H. exact H. Qed.

Lemma echo_hooks (R : BasePlugin string -> BasePlugin string -> Prop) :
  (forall p, R p p) -> hooks_satisfy (stable_hook R) Echo.
Proof.
  intros H. repeat split; try intros a k; intros w; apply H.
Qed.

(** ** Runs of the methods *)

(** A first construction of Echo on an empty disk creates the work
    directory and sets [first_load]. *)
Example echo_first_construction :
  let r := __init__ Echo false [] ∅ in
  is_ok (fst r) = true /\
  first_load (self (env (start Echo false [] ∅))) = true /\
  is_dir (snd r) echo_work = true /\
  snd r !! echo_json = None.
Proof. cbv zeta. repeat split; vm_compute; reflexivity. Qed.

(** The calls of a complete, non-debug [__unload__] of Echo after
    [two_registrations]: token 0 is unsubscribed twice. *)
Example echo_unload_calls :
  let s1 := snd (run_registry two_registrations (start Echo false [] ∅)) in
  handlers s1 = [0%N; 0%N; 1%N] /\
  new_calls (__unload__ Echo [VInt 1] [("reason", VStr "stop")]) s1 =
    [BusUnsubscribe 0%N; BusUnsubscribe 0%N; BusUnsubscribe 1%N;
     HookClose [VInt 1] [("reason", VStr "stop")];
     HookOnClose [VInt 1] [("reason", VStr "stop")];
     StoreSave (Some echo_json) "{}"] /\
  fs (env (snd (__unload__ Echo [VInt 1] [("reason", VStr "stop")] s1))) !! echo_json
    = Some (File "{}").
Proof. cbv zeta. repeat split; vm_compute; reflexivity. Qed.

(** What a session stored is there in the next one, which is no first load
    any more. *)
Example echo_round_trip :
  first_load (self (env (start Echo false [] ∅))) = true /\
  fs (env first_session) !! echo_json = Some (File "{count: 1}") /\
  first_load (self (env (start Echo false [] (fs (env first_session))))) = false /\
  data (self (env second_session))
    = Store {| file_path := Some echo_json; loader_data := "{count: 1}" |}.
Proof. repeat split; vm_compute; reflexivity. Qed.

(** The identity check on a class with an empty name, and on a class with
    no name at all, a name being passed as a keyword argument in both
    cases. *)
Example identity_check_runs :
  fst (__init__ Unnamed false [("name", VStr "Echo")] ∅) = Raise (ValueError "缺失插件名称") /\
  fst (__init__ Nameless false [("name", VStr "Echo")] ∅) = Raise (AttributeError "name").
Proof. split; vm_compute; reflexivity. Qed.

(** C1.  [unregister_handler] on the token of a registered handler returns
    [True], yet the token is then tracked twice instead of not at all, and
    the bus still holds its entry. *)
Theorem unregister_handler_keeps_token :
  let s0 := start Echo false [] ∅ in
  let s1 := snd (register_handler "message" (Callable 1) 0 s0) in
  is_ok (fst (__init__ Echo false [] ∅)) = true /\
  fst (register_handler "message" (Callable 1) 0 s0) = Ok 0%N /\
  handlers s1 = [0%N] /\
  fst (unregister_handler 0%N s1) = Ok true /\
  handlers (snd (unregister_handler 0%N s1)) = [0%N; 0%N] /\
  subscribed (event_bus (env (snd (unregister_handler 0%N s1)))) 0%N = true.
Proof. cbv zeta. repeat split; vm_compute; reflexivity. Qed.

(** C2.  Echo is constructed with [save_type = "yaml"] on an empty disk, so
    its data file is [Echo.yaml].  The first load fails (no such file); the
    self-heal of [__onload__] then writes the empty object to [Echo.json],
    not to the data file; the one retry loads [Echo.yaml] again, fails the
    same way, and the exception that reaches the caller is that
    [FileNotFoundError], not a [RuntimeError]. *)
Theorem onload_heals_json_not_data_file :
  let s0 := start Echo false [("save_type", VStr "yaml")] ∅ in
  is_ok (fst (__init__ Echo false [("save_type", VStr "yaml")] ∅)) = true /\
  _data_path (self (env s0)) = echo_yaml /\
  data (self (env s0)) = Store {| file_path := Some echo_yaml; loader_data := "{}" |} /\
  fst (__onload__ Echo s0)
    = Raise (FileNotFoundError "/bot/data/plugins/echo/Echo.yaml") /\
  new_calls (__onload__ Echo) s0
    = [StoreLoad (Some echo_yaml); FileWrite echo_json "{}"; StoreLoad (Some echo_yaml)] /\
  fs (env (snd (__onload__ Echo s0))) !! echo_yaml = None /\
  fs (env (snd (__onload__ Echo s0))) !! echo_json = Some (File "{}").
Proof. cbv zeta. repeat split; vm_compute; reflexivity. Qed.

(** C5 at Echo, on a disk where a directory has the name of the data file:
    [save] fails with [SaveError] and [__unload__] raises [RuntimeError]. *)
Lemma unload_save_failure_is_runtime_error_witness :
  let s0 := start Echo false [] dir_at_data in
  let s3 := snd (teardown Echo [] [] s0) in
  let l := {| file_path := Some echo_json; loader_data := "{}" |} in
  let e := SaveError "/bot/data/plugins/echo/Echo.json" in
  (teardown Echo [] [] s0 = (Ok tt, s3) /\
   _debug (self (env s3)) = false /\
   data (self (env s3)) = Store l /\
   attrs (self (env s3)) !! "name" = Some (VStr "Echo") /\
   save l (fs (env s3)) = (Raise e, snd (save l (fs (env s3))))) /\
  exists m,
    save_failure_text e = Some m /\
    fst (__unload__ Echo [] [] s0)
      = Raise (RuntimeError [VStr "Echo"; VStr ("保存持久化数据时出错: " +:+ m)]) /\
    calls (snd (__unload__ Echo [] [] s0))
      = calls s3 ++ [StoreSave (file_path l) (loader_data l)].
Proof.
  cbv zeta.
  assert (Ht : teardown Echo [] [] (start Echo false [] dir_at_data)
               = (Ok tt, snd (teardown Echo [] [] (start Echo false [] dir_at_data))))
    by (apply pair_of_fst; vm_compute; reflexivity).
  assert (Hd : _debug (self (env (snd (teardown Echo [] []
                 (start Echo false [] dir_at_data))))) = false)
    by (vm_compute; reflexivity).
  assert (Hl : data (self (env (snd (teardown Echo [] []
                 (start Echo false [] dir_at_data)))))
               = Store {| file_path := Some echo_json; loader_data := "{}" |})
    by (vm_compute; reflexivity).
  assert (Hn : attrs (self (env (snd (teardown Echo [] []
                 (start Echo false [] dir_at_data))))) !! "name"
               = Some (VStr "Echo")) by (vm_compute; reflexivity).
  assert (Hs : save {| file_path := Some echo_json; loader_data := "{}" |}
                 (fs (env (snd (teardown Echo [] [] (start Echo false [] dir_at_data)))))
               = (Raise (SaveError "/bot/data/plugins/echo/Echo.json"),
                  snd (save {| file_path := Some echo_json; loader_data := "{}" |}
                         (fs (env (snd (teardown Echo [] []
                                          (start Echo false [] dir_at_data))))))))
    by (apply pair_of_fst; vm_compute; reflexivity).
  refine (conj (conj Ht (conj Hd (conj Hl (conj Hn Hs)))) _).
  exact (unload_save_failure_is_runtime_error (EB := the_bus) Echo [] [] _ _ _ _ _ _
           Ht Hd Hl Hn Hs).
Defined.

(** C6 as stated fails: the debug flag is unset, the synchronous close hook
    of [Faulty] raises, and [__unload__] ends there.  [save] is never
    called and the data file is not written. *)
Lemma unload_skips_save_when_close_hook_raises :
  let s0 := start Faulty false [] ∅ in
  is_ok (fst (__init__ Faulty false [] ∅)) = true /\
  _debug (self (env s0)) = false /\
  fst (__unload__ Faulty [] [] s0)
    = Raise (OtherException "ConnectionError" "socket closed") /\
  new_calls (__unload__ Faulty [] []) s0 = [HookClose [] []] /\
  _data_path (self (env s0)) = echo_json /\
  fs (env (snd (__unload__ Faulty [] [] s0))) !! echo_json = None.
Proof. cbv zeta. repeat split; vm_compute; reflexivity. Qed.

(** C7 as stated fails: Echo declares a name and a version, but a regular
    file sits at its work path, and construction raises [PluginLoadError]. *)
Lemma init_fails_when_work_path_is_a_file :
  declares Echo "name" = true /\ declares Echo "version" = true /\
  lookup_node file_at_work echo_work = Some (File "x") /\
  fst (__init__ Echo false [] file_at_work)
    = Raise (PluginLoadError (VStr "Echo") "/bot/data/plugins/echo 不是目录文件夹").
Proof. repeat split; vm_compute; reflexivity. Qed.

(** C7 as amended, at Echo with its work directory in place. *)
Lemma init_outcomes_witness :
  (declares Echo "name" = true /\ declares Echo "version" = true /\
   is_Some (setattrs (cls_attrs Echo ∪ BasePlugin_attrs) [] !! "dependencies") /\
   work_path_of Echo = Some echo_work) /\
  lookup_node work_ready echo_work = Some Dir /\
  exists p, __init__ Echo false [] work_ready = (Ok p, work_ready) /\
            _work_path p = echo_work.
Proof.
  assert (Hn : declares Echo "name" = true) by (vm_compute; reflexivity).
  assert (Hv : declares Echo "version" = true) by (vm_compute; reflexivity).
  assert (Hd : is_Some (setattrs (cls_attrs Echo ∪ BasePlugin_attrs) [] !! "dependencies"))
    by (exists (VDict []); vm_compute; reflexivity).
  assert (Hw : work_path_of Echo = Some echo_work) by (vm_compute; reflexivity).
  assert (Hlk : lookup_node work_ready echo_work = Some Dir) by (vm_compute; reflexivity).
  refine (conj (conj Hn (conj Hv (conj Hd Hw))) (conj Hlk _)).
  pose proof (proj2 (init_outcomes Echo false [] work_ready) Hn Hv Hd echo_work Hw) as H.
  rewrite Hlk in H. exact H.
Defined.


(** C10 at [Nameless], constructed with a name among the keyword
    arguments. *)
Lemma identity_checked_before_kwd_witness :
  declares Nameless "name" && declares Nameless "version" = false /\
  exists e,
    __init__ Nameless false [("name", VStr "Echo")] ∅ = (Raise e, ∅) /\
    configuration_error e = true.
Proof.
  assert (H : declares Nameless "name" && declares Nameless "version" = false)
    by (vm_compute; reflexivity).
  split; [exact H|].
  exact (identity_checked_before_kwd Nameless false [("name", VStr "Echo")] ∅ H).
Defined.

(** * The further properties on the reference installation *)

Import Scenarios.

Lemma start_constructed (cls : plugin_class) (debug : bool) (kwd : Kwargs) (f : FS) :
  is_ok (fst (__init__ cls debug kwd f)) = true ->
  __init__ cls debug kwd f
    = (Ok (self (env (start cls debug kwd f))), fs (env (start cls debug kwd f))).
Proof.
  unfold start. cbn [env self fs].
  destruct (__init__ cls debug kwd f) as [[p|e] f']; cbn [fst snd is_ok];
    [reflexivity|discriminate].
Qed.

Lemma pass_quiet : quiet (@pass bus (list string) string).
Proof. intros w. split; reflexivity. Qed.

(** X2 at Echo on an empty disk. *)
Lemma init_resolves_paths_witness :
  let p := self (env echo_start) in
  __init__ Echo false [] ∅ = (Ok p, fs (env echo_start)) /\
  self_path p = ["bot"; "plugins"; "echo"] /\
  work_path_of Echo = Some (_work_path p) /\
  _work_path p = echo_work.
Proof.
  cbv zeta.
  assert (H : __init__ Echo false [] ∅ = (Ok (self (env echo_start)), fs (env echo_start)))
    by (apply start_constructed; vm_compute; reflexivity).
  pose proof (init_resolves_paths Echo false [] ∅ _ _ H)
    as (_ & Hs & _ & _ & Hw & _).
  refine (conj H (conj Hs (conj Hw _))). vm_compute. reflexivity.
Defined.

(** X3 at Echo, constructed with an empty save type among the keyword
    arguments: the save type is ['json']. *)
Lemma init_applies_keyword_arguments_witness :
  let p := self (env (start Echo false host_kwd ∅)) in
  __init__ Echo false host_kwd ∅ = (Ok p, fs (env (start Echo false host_kwd ∅))) /\
  (exists st, given Echo host_kwd "save_type" = Some st /\
              attrs p !! "save_type" = Some (value_or st (VStr "json"))) /\
  attrs p !! "owner" = given Echo host_kwd "owner".
Proof.
  cbv zeta.
  assert (H : __init__ Echo false host_kwd ∅
              = (Ok (self (env (start Echo false host_kwd ∅))),
                 fs (env (start Echo false host_kwd ∅))))
    by (apply start_constructed; vm_compute; reflexivity).
  pose proof (init_applies_keyword_arguments
                Echo false host_kwd ∅ _ _ H) as (Hst & _ & Hk & _).
  refine (conj H (conj Hst _)). apply Hk. unfold constructor_assigned.
  rewrite !not_elem_of_cons. repeat split; try discriminate. apply not_elem_of_nil.
Defined.

(** X4 at [Stray]. *)
Lemma init_unresolvable_path_is_type_error_witness :
  (declares Stray "name" = true /\ declares Stray "version" = true /\
   is_Some (given Stray [] "dependencies") /\
   ~ (PLUGINS_DIR `prefix_of` parent (cls_file Stray) /\
      cwd `prefix_of` parent (cls_file Stray))) /\
  exists m, __init__ Stray false [] ∅ = (Raise (TypeError m), ∅).
Proof.
  assert (Hn : declares Stray "name" = true) by (vm_compute; reflexivity).
  assert (Hv : declares Stray "version" = true) by (vm_compute; reflexivity).
  assert (Hd : is_Some (given Stray [] "dependencies"))
    by (exists (VDict []); vm_compute; reflexivity).
  assert (Hp : ~ (PLUGINS_DIR `prefix_of` parent (cls_file Stray) /\
                  cwd `prefix_of` parent (cls_file Stray))).
  { intros [[k Hk] _]. cbn in Hk. discriminate Hk. }
  refine (conj (conj Hn (conj Hv (conj Hd Hp))) _).
  exact (init_unresolvable_path_is_type_error
           Stray false [] ∅ Hn Hv Hd Hp).
Defined.

(** X5 at [Bare]. *)
Lemma init_missing_dependencies_is_attribute_error_witness :
  (declares Bare "name" = true /\ declares Bare "version" = true /\
   given Bare [] "dependencies" = None) /\
  __init__ Bare false [] ∅ = (Raise (AttributeError "dependencies"), ∅).
Proof.
  assert (Hn : declares Bare "name" = true) by (vm_compute; reflexivity).
  assert (Hv : declares Bare "version" = true) by (vm_compute; reflexivity).
  assert (Hd : given Bare [] "dependencies" = None) by (vm_compute; reflexivity).
  refine (conj (conj Hn (conj Hv Hd)) _).
  exact (init_missing_dependencies_is_attribute_error
           Bare false [] ∅ Hn Hv Hd).
Defined.

(** X7 at Echo: the data file is [Echo.json] in the work directory. *)
Lemma init_data_file_in_work_directory_witness :
  let p := self (env echo_start) in
  (__init__ Echo false [] ∅ = (Ok p, fs (env echo_start)) /\
   attrs p !! "name" = Some (VStr "Echo") /\
   attrs p !! "save_type" = Some (VStr "json") /\
   no_slash "Echo" = true /\ no_slash "json" = true) /\
  _data_path p = _work_path p ++ ["Echo.json"] /\
  parent (_data_path p) = _work_path p.
Proof.
  cbv zeta.
  assert (H : __init__ Echo false [] ∅ = (Ok (self (env echo_start)), fs (env echo_start)))
    by (apply start_constructed; vm_compute; reflexivity).
  assert (Hn : attrs (self (env echo_start)) !! "name" = Some (VStr "Echo"))
    by (vm_compute; reflexivity).
  assert (Hs : attrs (self (env echo_start)) !! "save_type" = Some (VStr "json"))
    by (vm_compute; reflexivity).
  refine (conj (conj H (conj Hn (conj Hs (conj eq_refl eq_refl)))) _).
  exact (proj2 (init_data_file_in_work_directory
                  Echo false [] ∅ _ _ "Echo" "json" H Hn Hs eq_refl eq_refl)).
Defined.

(** X8 at Echo, whose hooks are [pass]. *)
Lemma identity_survives_every_call_witness :
  hooks_satisfy (stable_hook same_identity) Echo /\
  forall (cs : list (core_call (Event := unit))) (s : state),
    same_identity (self (env s)) (self (env (run_calls Echo cs s))) /\
    debug (run_calls Echo cs s) = (Ok (_debug (self (env s))), run_calls Echo cs s).
Proof.
  assert (H : hooks_satisfy (stable_hook same_identity) Echo).
  { apply echo_hooks. intros p. unfold same_identity. auto 10. }
  split; [exact H|].
  exact (identity_survives_every_call Echo H).
Defined.

(** X9 at Echo: a registration calls the bus and nothing else. *)
Lemma runtime_methods_only_reach_bus_and_scheduler_witness :
  is_lifecycle (CallRegisterHandler (Event := unit) "message" (Callable 1) 0) = false /\
  forallb to_bus_or_scheduler
    (new_calls (run_core Echo (CallRegisterHandler "message" (Callable 1) 0)) echo_start)
    = true.
Proof.
  split; [reflexivity|].
  exact (runtime_methods_only_reach_bus_and_scheduler Echo
           (CallRegisterHandler "message" (Callable 1) 0) echo_start eq_refl).
Defined.

(** X11 at Echo in its second session: the data file of the first session
    loads at once. *)
Lemma onload_loads_then_runs_hooks_witness :
  (data (self (env echo_again)) = Store echo_store /\
   load echo_store (fs (env echo_again)) = inr "{count: 1}") /\
  new_calls (__onload__ Echo) echo_again
    = [StoreLoad (Some echo_json); HookInit; HookOnLoad] /\
  fst (__onload__ Echo echo_again) = Ok tt.
Proof.
  assert (Hd : data (self (env echo_again)) = Store echo_store)
    by (vm_compute; reflexivity).
  assert (Hl : load echo_store (fs (env echo_again)) = inr "{count: 1}")
    by (vm_compute; reflexivity).
  pose proof (onload_loads_then_runs_hooks Echo echo_again echo_store
                "{count: 1}" Hd Hl) as (Hc & Hr & _).
  exact (conj (conj Hd Hl) (conj Hc Hr)).
Defined.

(** X12 at Echo on an empty disk: the first load finds no file, the empty
    object is written to [Echo.json], which is the data file, and the second
    load succeeds. *)
Lemma onload_self_heal_writes_json_and_retries_once_witness :
  (data (self (env echo_start)) = Store echo_store /\
   load echo_store (fs (env echo_start))
     = inl (FileNotFoundError "/bot/data/plugins/echo/Echo.json") /\
   load_failure_known (FileNotFoundError "/bot/data/plugins/echo/Echo.json") = true /\
   attrs (self (env echo_start)) !! "name" = Some (VStr "Echo")) /\
  heal_path (self (env echo_start)) (VStr "Echo") = echo_json /\
  fst (load_step echo_start) = Ok tt.
Proof.
  assert (Hd : data (self (env echo_start)) = Store echo_store)
    by (vm_compute; reflexivity).
  assert (Hl : load echo_store (fs (env echo_start))
               = inl (FileNotFoundError "/bot/data/plugins/echo/Echo.json"))
    by (vm_compute; reflexivity).
  assert (Hn : attrs (self (env echo_start)) !! "name" = Some (VStr "Echo"))
    by (vm_compute; reflexivity).
  assert (Hj : heal_path (self (env echo_start)) (VStr "Echo") = echo_json)
    by (vm_compute; reflexivity).
  assert (Hw : write_file (fs (env echo_start)) echo_json "{}"
               = inr (<[echo_json := File "{}"]> (fs (env echo_start)))).
  { unfold write_file.
    replace (lookup_node (fs (env echo_start)) (parent echo_json)) with (Some Dir)
      by (vm_compute; reflexivity).
    replace (lookup_node (fs (env echo_start)) echo_json) with (@None node)
      by (vm_compute; reflexivity).
    reflexivity. }
  assert (Hr : load echo_store (<[echo_json := File "{}"]> (fs (env echo_start)))
               = inr "{}") by (vm_compute; reflexivity).
  refine (conj (conj Hd (conj Hl (conj eq_refl Hn))) (conj Hj _)).
  pose proof (onload_self_heal_writes_json_and_retries_once Echo
                echo_start echo_store _ _ Hd Hl eq_refl Hn) as H.
  cbv zeta in H. rewrite Hj, Hw, Hr in H. rewrite H. reflexivity.
Defined.

(** X13 at Echo with a store on a locked disk. *)
Lemma onload_unexpected_failure_propagates_witness :
  let e := OtherException "PermissionError" "permission denied" in
  (data (self (env echo_start)) = Store echo_store /\
   load (PersistentStore := locked_store) echo_store (fs (env echo_start)) = inl e /\
   load_failure_known e = false) /\
  __onload__ (PS := locked_store) Echo echo_start =
    (Raise e, {| env := env echo_start;
                 calls := calls echo_start ++ [StoreLoad (file_path echo_store)] |}).
Proof.
  cbv zeta.
  assert (Hd : data (self (env echo_start)) = Store echo_store)
    by (vm_compute; reflexivity).
  refine (conj (conj Hd (conj eq_refl eq_refl)) _).
  exact (onload_unexpected_failure_propagates (PS := locked_store) Echo
           echo_start echo_store _ Hd eq_refl eq_refl).
Defined.

(** X15 at Echo: the data file is written by the one [save]. *)
Lemma unload_saves_once_hooks_returned_witness :
  let s3 := snd (teardown Echo [] [] echo_start) in
  let f' := snd (save echo_store (fs (env s3))) in
  (teardown Echo [] [] echo_start = (Ok tt, s3) /\
   _debug (self (env s3)) = false /\
   data (self (env s3)) = Store echo_store /\
   save echo_store (fs (env s3)) = (Ok tt, f')) /\
  __unload__ Echo [] [] echo_start =
    (Ok tt,
     {| env := with_fs f' (env s3);
        calls := calls s3 ++ [StoreSave (file_path echo_store) (loader_data echo_store)] |}) /\
  f' !! echo_json = Some (File "{}").
Proof.
  cbv zeta.
  assert (Ht : teardown Echo [] [] echo_start
               = (Ok tt, snd (teardown Echo [] [] echo_start)))
    by (apply pair_of_fst; vm_compute; reflexivity).
  assert (Hd : _debug (self (env (snd (teardown Echo [] [] echo_start)))) = false)
    by (vm_compute; reflexivity).
  assert (Hl : data (self (env (snd (teardown Echo [] [] echo_start)))) = Store echo_store)
    by (vm_compute; reflexivity).
  assert (Hs : save echo_store (fs (env (snd (teardown Echo [] [] echo_start))))
               = (Ok tt, snd (save echo_store
                                (fs (env (snd (teardown Echo [] [] echo_start)))))))
    by (apply pair_of_fst; vm_compute; reflexivity).
  refine (conj (conj Ht (conj Hd (conj Hl Hs))) (conj _ _)); [|vm_compute; reflexivity].
  exact (unload_saves_once_hooks_returned (EB := the_bus) Echo [] [] _ _ _ _ Ht Hd Hl Hs).
Defined.

(** X16 at Echo with a store on a locked disk: [PermissionError] is not
    wrapped. *)
Lemma unload_unlisted_save_failure_propagates_witness :
  let s3 := snd (teardown Echo [] [] echo_start) in
  let e := OtherException "PermissionError" "permission denied" in
  (teardown Echo [] [] echo_start = (Ok tt, s3) /\
   _debug (self (env s3)) = false /\
   data (self (env s3)) = Store echo_store /\
   save (PersistentStore := locked_store) echo_store (fs (env s3)) = (Raise e, fs (env s3)) /\
   save_failure_text e = None) /\
  fst (__unload__ (PS := locked_store) Echo [] [] echo_start) = Raise e.
Proof.
  cbv zeta.
  assert (Ht : teardown Echo [] [] echo_start
               = (Ok tt, snd (teardown Echo [] [] echo_start)))
    by (apply pair_of_fst; vm_compute; reflexivity).
  assert (Hd : _debug (self (env (snd (teardown Echo [] [] echo_start)))) = false)
    by (vm_compute; reflexivity).
  assert (Hl : data (self (env (snd (teardown Echo [] [] echo_start)))) = Store echo_store)
    by (vm_compute; reflexivity).
  refine (conj (conj Ht (conj Hd (conj Hl (conj eq_refl eq_refl)))) _).
  rewrite (unload_unlisted_save_failure_propagates (EB := the_bus) (PS := locked_store)
             Echo [] [] _ _ echo_store _ _ Ht Hd Hl eq_refl eq_refl).
  reflexivity.
Defined.

(** X17 at [Careless], whose close hook leaves a plain mapping in the data
    slot. *)
Lemma unload_does_not_adopt_raw_mapping_witness :
  let s0 := start Careless false [] ∅ in
  let s3 := snd (teardown Careless [] [] s0) in
  (teardown Careless [] [] s0 = (Ok tt, s3) /\
   data (self (env s3)) = RawDict "{}" /\
   _debug (self (env s3)) = false) /\
  __unload__ Careless [] [] s0 = (Raise (AttributeError "save"), s3).
Proof.
  cbv zeta.
  assert (Ht : teardown Careless [] [] (start Careless false [] ∅)
               = (Ok tt, snd (teardown Careless [] [] (start Careless false [] ∅))))
    by (apply pair_of_fst; vm_compute; reflexivity).
  assert (Hd : data (self (env (snd (teardown Careless [] []
                 (start Careless false [] ∅))))) = RawDict "{}")
    by (vm_compute; reflexivity).
  assert (Hg : _debug (self (env (snd (teardown Careless [] []
                 (start Careless false [] ∅))))) = false)
    by (vm_compute; reflexivity).
  refine (conj (conj Ht (conj Hd Hg)) _).
  exact (proj1 (unload_does_not_adopt_raw_mapping (EB := the_bus) Careless [] [] _ _ _ Ht Hd)
           Hg).
Defined.

(** X18 at Echo, which overrides no hook. *)
Lemma default_hooks_do_nothing_witness :
  (_init_ Echo = pass /\ on_load Echo = pass /\
   _close_ Echo = (fun _ _ => pass) /\ on_close Echo = (fun _ _ => pass)) /\
  __unload__ Echo [] [] echo_start =
    persistence
      {| env := env (revoked echo_start);
         calls := calls (revoked echo_start) ++ [HookClose [] []; HookOnClose [] []] |}.
Proof.
  refine (conj (conj eq_refl (conj eq_refl (conj eq_refl eq_refl))) _).
  exact (proj2 (default_hooks_do_nothing (EB := the_bus) Echo [] [] echo_start
                  eq_refl eq_refl eq_refl eq_refl)).
Defined.

(** X19 at Echo in its second session, unloaded at once: the initial
    content is saved to the data file, which held the count of the first
    session. *)
Lemma unload_without_onload_saves_initial_content_witness :
  let f := fs (env first_session) in
  let p := self (env echo_again) in
  (__init__ Echo false [] f = (Ok p, fs (env echo_again)) /\
   (forall a k, quiet (_close_ Echo a k)) /\
   (forall a k, quiet (on_close Echo a k))) /\
  f !! echo_json = Some (File "{count: 1}") /\
  new_calls (__unload__ Echo [] [])
            (installed (Event := unit) p (fs (env echo_again)) empty_bus [])
    = [HookClose [] []; HookOnClose [] []; StoreSave (Some (_data_path p)) "{}"].
Proof.
  cbv zeta.
  assert (H : __init__ Echo false [] (fs (env first_session))
              = (Ok (self (env echo_again)), fs (env echo_again)))
    by (apply start_constructed; vm_compute; reflexivity).
  refine (conj (conj H (conj (fun _ _ => pass_quiet) (fun _ _ => pass_quiet))) (conj _ _));
    [vm_compute; reflexivity|].
  exact (unload_without_onload_saves_initial_content (EB := the_bus) Echo [] _ _ _
           empty_bus [] [] [] H (fun _ _ => pass_quiet) (fun _ _ => pass_quiet)).
Defined.

(** X20 at Echo: constructed again, in debug mode, on the disk the first
    session left, it resolves the same data file and is no first load. *)
Lemma next_session_resolves_same_paths_witness :
  let p := self (env echo_start) in
  let g := fs (env first_session) in
  (__init__ Echo false [] ∅ = (Ok p, fs (env echo_start)) /\
   is_dir g (_work_path p) = true) /\
  path_exists g (_data_path p) = true /\
  exists p',
    __init__ Echo true [] g = (Ok p', g) /\
    attrs p' = attrs p /\
    self_path p' = self_path p /\
    _work_path p' = _work_path p /\
    _data_path p' = _data_path p /\
    data p' = data p /\
    _debug p' = true /\
    first_load p' = negb (path_exists g (_data_path p)).
Proof.
  cbv zeta.
  assert (H : __init__ Echo false [] ∅ = (Ok (self (env echo_start)), fs (env echo_start)))
    by (apply start_constructed; vm_compute; reflexivity).
  assert (Hdir : is_dir (fs (env first_session)) (_work_path (self (env echo_start))) = true)
    by (vm_compute; reflexivity).
  refine (conj (conj H Hdir) (conj _ _)); [vm_compute; reflexivity|].
  exact (next_session_resolves_same_paths
           Echo false true [] ∅ _ _ _ H Hdir).
Defined.

(** ** Revocation, the order of the phases, the save and the first-load
       flag on the reference installation *)





(** C6 as amended, at Echo.  Debug off: one [save], on the data file, which
    is written.  Debug on: the warning and the dump of the content, and no
    data file. *)
Lemma unload_saves_to_data_file_unless_debug_witness :
  let s3 := snd (teardown Echo [] [] echo_start) in
  let d3 := snd (teardown Echo [] [] echo_debug) in
  store_on_data_file (self (env echo_start)) /\
  (teardown Echo [] [] echo_start = (Ok tt, s3) /\
   data (self (env s3)) = Store echo_store /\
   file_path echo_store = Some (_data_path (self (env s3))) /\
   _debug (self (env s3)) = false) /\
  _data_path (self (env s3)) = echo_json /\
  calls (snd (__unload__ Echo [] [] echo_start))
    = calls s3 ++ [StoreSave (Some (_data_path (self (env s3)))) (loader_data echo_store)] /\
  fs (env (snd (__unload__ Echo [] [] echo_start))) !! echo_json = Some (File "{}") /\
  (teardown Echo [] [] echo_debug = (Ok tt, d3) /\
   data (self (env d3)) = Store echo_store /\
   file_path echo_store = Some (_data_path (self (env d3))) /\
   _debug (self (env d3)) = true /\
   attrs (self (env d3)) !! "name" = Some (VStr "Echo")) /\
  __unload__ Echo [] [] echo_debug =
    (Ok tt,
     {| env := env d3;
        calls := calls d3 ++
          [LogWarning (Color_YELLOW +:+ "debug模式" +:+ Color_RED +:+ "取消"
                       +:+ Color_RESET +:+ "退出时的保存行为");
           ConsolePrint
             (Color_GRAY +:+ py_str (VStr "Echo") +:+ String "010"%char EmptyString
              +:+ join (String "010"%char EmptyString)
                    (visualize_tree (loader_data echo_store))
              +:+ String "010"%char EmptyString)] |}) /\
  fs (env (snd (__unload__ Echo [] [] echo_debug))) !! echo_json = None.
Proof.
  cbv zeta.
  assert (H0 : __init__ Echo false [] ∅ = (Ok (self (env echo_start)), fs (env echo_start)))
    by (apply start_constructed; vm_compute; reflexivity).
  assert (Ht : teardown Echo [] [] echo_start = (Ok tt, snd (teardown Echo [] [] echo_start)))
    by (apply pair_of_fst; vm_compute; reflexivity).
  assert (Hl : data (self (env (snd (teardown Echo [] [] echo_start)))) = Store echo_store)
    by (vm_compute; reflexivity).
  assert (Hp : file_path echo_store
               = Some (_data_path (self (env (snd (teardown Echo [] [] echo_start))))))
    by (vm_compute; reflexivity).
  assert (Hd : _debug (self (env (snd (teardown Echo [] [] echo_start)))) = false)
    by (vm_compute; reflexivity).
  assert (Ht' : teardown Echo [] [] echo_debug = (Ok tt, snd (teardown Echo [] [] echo_debug)))
    by (apply pair_of_fst; vm_compute; reflexivity).
  assert (Hl' : data (self (env (snd (teardown Echo [] [] echo_debug)))) = Store echo_store)
    by (vm_compute; reflexivity).
  assert (Hp' : file_path echo_store
                = Some (_data_path (self (env (snd (teardown Echo [] [] echo_debug))))))
    by (vm_compute; reflexivity).
  assert (Hd' : _debug (self (env (snd (teardown Echo [] [] echo_debug)))) = true)
    by (vm_compute; reflexivity).
  assert (Hn' : attrs (self (env (snd (teardown Echo [] [] echo_debug)))) !! "name"
                = Some (VStr "Echo")) by (vm_compute; reflexivity).
  pose proof (unload_saves_to_data_file_unless_debug (EB := the_bus) (Event := unit) Echo)
    as (Hinit & _ & Hrun).
  pose proof (Hrun [] [] _ _ _ _ Ht Hl Hp) as (_ & Hsave & _).
  pose proof (Hrun [] [] _ _ _ _ Ht' Hl' Hp') as (Hdbg & _ & _).
  refine (conj (Hinit _ _ _ _ _ H0) (conj (conj Ht (conj Hl (conj Hp Hd))) (conj _ (conj
            (proj1 (Hsave Hd eq_refl)) (conj _ (conj (conj Ht' (conj Hl' (conj Hp' (conj Hd' Hn'))))
            (conj (proj2 (proj2 (Hdbg Hd')) eq_refl _ Hn') _)))))));
    vm_compute; reflexivity.
Defined.

(** C8 at Echo: on an empty disk the work directory is missing and the
    instance is a first load; on the disk its first session left, the work
    directory and the data file are there and it is not. *)
Lemma first_load_tells_missing_directory_or_file_witness :
  let p := self (env echo_start) in
  let q := self (env echo_again) in
  work_path_of Echo = Some echo_work /\
  data_file_of Echo [] = Some echo_json /\
  __init__ Echo false [] ∅ = (Ok p, fs (env echo_start)) /\
  path_exists ∅ echo_work = false /\
  first_load p = true /\
  __init__ Echo false [] (fs (env first_session)) = (Ok q, fs (env echo_again)) /\
  path_exists (fs (env first_session)) echo_work = true /\
  path_exists (fs (env first_session)) echo_json = true /\
  first_load q = false.
Proof.
  cbv zeta.
  assert (Hw : work_path_of Echo = Some echo_work) by (vm_compute; reflexivity).
  assert (Hd : data_file_of Echo [] = Some echo_json) by (vm_compute; reflexivity).
  assert (H1 : __init__ Echo false [] ∅ = (Ok (self (env echo_start)), fs (env echo_start)))
    by (apply start_constructed; vm_compute; reflexivity).
  assert (H2 : __init__ Echo false [] (fs (env first_session))
               = (Ok (self (env echo_again)), fs (env echo_again)))
    by (apply start_constructed; vm_compute; reflexivity).
  assert (E1 : path_exists ∅ echo_work = false) by (vm_compute; reflexivity).
  assert (E2 : path_exists (fs (env first_session)) echo_work = true)
    by (vm_compute; reflexivity).
  assert (E3 : path_exists (fs (env first_session)) echo_json = true)
    by (vm_compute; reflexivity).
  pose proof (proj1 (first_load_tells_missing_directory_or_file (EB := the_bus)
                       (Event := unit) Echo)) as Hfl.
  destruct (Hfl _ _ _ _ _ H1) as (wp & dp & Hw1 & Hd1 & _ & _ & Ht & _).
  destruct (Hfl _ _ _ _ _ H2) as (wp' & dp' & Hw2 & Hd2 & _ & _ & _ & Hf).
  rewrite Hw in Hw1, Hw2. rewrite Hd in Hd1, Hd2.
  injection Hw1 as <-. injection Hw2 as <-. injection Hd1 as <-. injection Hd2 as <-.
  refine (conj Hw (conj Hd (conj H1 (conj E1 (conj _ (conj H2 (conj E2 (conj E3 _)))))))).
  - apply Ht. left. exact E1.
  - apply Hf. split; [exact E2|exact E3].
Defined.
